(** * dataform-sqlx-linter: the hard-coded FQN check

    A shallow embedding of [checks/hardcoded_fqns.py] together with the
    parts of [utils/io.py] and [utils/printing.py] it calls, and the
    properties of the check stated in the specification.

    Python values decoded from [compiled_graph.json] are modelled by
    [Py.value]; a [dict] used as an index is a [gmap], a [set] a [gset].
    Where the Python code would raise, the model returns [Raise]. *)

From stdpp Require Import gmap strings list sorting.

Set Warnings "-register-all".
Local Open Scope string_scope.
Local Open Scope list_scope.

(** ** Python values and the built-ins the check uses *)

Module Py.

Inductive exn :=
| AttributeError
| TypeError
| UnicodeDecodeError
| GraphLoadError (msg : string).

Inductive res (A : Type) :=
| Ok (a : A)
| Raise (e : exn).
Arguments Ok {A} a.
Arguments Raise {A} e.

Global Instance res_ret : MRet res := λ A a, Ok a.
Global Instance res_bind : MBind res := λ A B f m,
  match m with
  | Ok a => f a
  | Raise e => Raise e
  end.

(** A value produced by [json.loads]. A JSON object is kept as the
    list of its items, one per key; numbers are integers. *)
Inductive value :=
| VNone
| VBool (b : bool)
| VInt (n : Z)
| VStr (s : string)
| VList (l : list value)
| VDict (items : list (string * value)).

(** [bool(v)] *)
Definition truthy (v : value) : bool :=
  match v with
  | VNone => false
  | VBool b => b
  | VInt n => negb (n =? 0)%Z
  | VStr s => negb (String.eqb s "")
  | VList l => match l with [] => false | _ => true end
  | VDict items => match items with [] => false | _ => true end
  end.

(** [x or y] evaluates [y] only when [x] is falsy. *)
Definition or_ (x y : value) : value := if truthy x then x else y.

Fixpoint lookup_item (k : string) (items : list (string * value)) : option value :=
  match items with
  | [] => None
  | (k', v) :: rest => if String.eqb k k' then Some v else lookup_item k rest
  end.

(** [d.get(k, default)] on a dict. *)
Definition dict_get (items : list (string * value)) (k : string) (default : value) : value :=
  match lookup_item k items with
  | Some v => v
  | None => default
  end.

(** [v.get(k, default)] on an arbitrary value: only a dict has the method. *)
Definition get (v : value) (k : string) (default : value) : res value :=
  match v with
  | VDict items => Ok (dict_get items k default)
  | _ => Raise AttributeError
  end.

(** The sequence a [for] loop walks: the elements of a list, the keys
    of a dict, the characters of a string. *)
Fixpoint chars (s : string) : list value :=
  match s with
  | EmptyString => []
  | String c s' => VStr (String c EmptyString) :: chars s'
  end.

Definition iter (v : value) : res (list value) :=
  match v with
  | VList l => Ok l
  | VDict items => Ok (map (λ kv, VStr kv.1) items)
  | VStr s => Ok (chars s)
  | _ => Raise TypeError
  end.

(** [isinstance(v, str)] *)
Definition as_str (v : value) : option string :=
  match v with
  | VStr s => Some s
  | _ => None
  end.

Fixpoint all_str (l : list value) : option (list string) :=
  match l with
  | [] => Some []
  | v :: rest =>
      match as_str v, all_str rest with
      | Some s, Some ss => Some (s :: ss)
      | _, _ => None
      end
  end.

(** *** Strings *)

Fixpoint strip_prefix (tok s : string) : option string :=
  match tok, s with
  | EmptyString, _ => Some s
  | String a tok', String b s' =>
      if Ascii.eqb a b then strip_prefix tok' s' else None
  | String _ _, EmptyString => None
  end.

Fixpoint first_strip (toks : list string) (s : string) : option string :=
  match toks with
  | [] => None
  | t :: ts =>
      match strip_prefix t s with
      | Some r => Some r
      | None => first_strip ts s
      end
  end.

Fixpoint lstrip_fuel (fuel : nat) (toks : list string) (s : string) : string :=
  match fuel with
  | O => s
  | S fuel' =>
      match first_strip toks s with
      | Some r => lstrip_fuel fuel' toks r
      | None => s
      end
  end.

(** Remove leading characters drawn from [toks]; every element of
    [toks] is the encoding of one character, so [String.length s]
    rounds are enough. *)
Definition lstrip (toks : list string) (s : string) : string :=
  lstrip_fuel (String.length s) toks s.

Definition rstrip (toks : list string) (s : string) : string :=
  String.rev (lstrip (map String.rev toks) (String.rev s)).

Definition strip_chars (toks : list string) (s : string) : string :=
  rstrip toks (lstrip toks s).

Definition byte (n : nat) : string := String (Stdlib.Strings.Ascii.ascii_of_nat n) EmptyString.
Definition bytes (l : list nat) : string :=
  foldr (λ n s, String (Stdlib.Strings.Ascii.ascii_of_nat n) s) EmptyString l.

(** The characters [str.strip()] removes, in UTF-8: U+0009..U+000D,
    U+001C..U+0020, U+0085, U+00A0, U+1680, U+2000..U+200A, U+2028,
    U+2029, U+202F, U+205F, U+3000. *)
Definition whitespace : list string :=
  map byte [9; 10; 11; 12; 13; 28; 29; 30; 31; 32]
  ++ map bytes [[194; 133]; [194; 160]; [225; 154; 128]]
  ++ map (λ n, bytes [226; 128; n]) (seq 128 11)
  ++ map bytes [[226; 128; 168]; [226; 128; 169]; [226; 128; 175];
                [226; 129; 159]; [227; 128; 128]].

(** [s.strip()] *)
Definition strip (s : string) : string := strip_chars whitespace s.

(** [s.strip("`")] *)
Definition strip_backticks (s : string) : string := strip_chars ["`"] s.

(** [sep.join(l)] *)
Fixpoint join (sep : string) (l : list string) : string :=
  match l with
  | [] => ""
  | [s] => s
  | s :: rest => s +:+ sep +:+ join sep rest
  end.

(** [sorted(s)] for a set of strings: code-point order, which on
    UTF-8 text is byte order. *)
Definition sorted (s : gset string) : list string :=
  merge_sort String.le (elements s).

End Py.

Import Py.

(** ** The parse tree returned by [sqlglot.parse_one]

    The check reads a node's class, the text properties [catalog], [db],
    [name] and [alias], the child in its [this] slot, and walks the tree
    with [find_all] and [find_ancestor]. A node object is identified by
    its position: the child indices from the node up to the root. *)

Module Sqlglot.

Inductive exp_class := Create | Insert | Copy | Table | CTE | Other.

Global Instance exp_class_eq_dec : EqDecision exp_class.
Proof. solve_decision. Defined.

Record texts := Texts { catalog : string; db : string; name : string; alias : string }.

Inductive expression :=
| Node (cls : exp_class) (txt : texts) (this : option expression) (rest : list expression).

Definition class_of (e : expression) : exp_class :=
  match e with Node c _ _ _ => c end.
Definition texts_of (e : expression) : texts :=
  match e with Node _ t _ _ => t end.
Definition this_of (e : expression) : option expression :=
  match e with Node _ _ th _ => th end.

(** The children in slot order, the [this] slot first. *)
Definition children (e : expression) : list expression :=
  match e with
  | Node _ _ (Some c) rest => c :: rest
  | Node _ _ None rest => rest
  end.

(** A node object: where it sits and what it holds. *)
Definition handle := list nat.
Definition node := (handle * expression)%type.

Definition parent_handle (h : handle) : option handle :=
  match h with
  | [] => None
  | _ :: up => Some up
  end.

Fixpoint descend (e : expression) (path : list nat) : option expression :=
  match path with
  | [] => Some e
  | i :: path' =>
      match children e !! i with
      | Some c => descend c path'
      | None => None
      end
  end.

Definition node_at (root : expression) (h : handle) : option node :=
  (λ e, (h, e)) <$> descend root (reverse h).

Fixpoint walk_from (f : handle → expression → list node) (h : handle)
    (i : nat) (l : list expression) : list node :=
  match l with
  | [] => []
  | x :: l' => f (i :: h) x ++ walk_from f h (S i) l'
  end.

(** [e.walk()]: the node and every descendant. *)
Fixpoint walk (h : handle) (e : expression) : list node :=
  (h, e) ::
  match e with
  | Node _ _ (Some c) rest => walk (0 :: h) c ++ walk_from walk h 1 rest
  | Node _ _ None rest => walk_from walk h 0 rest
  end.

(** [tree.find_all(K)] *)
Definition find_all (root : expression) (K : exp_class) : list node :=
  filter (λ n, class_of n.2 = K) (walk [] root).

(** [n.find_ancestor(K)]: follow [parent] until a node of class [K]. *)
Fixpoint find_ancestor_from (root : expression) (K : exp_class) (h : handle) : option node :=
  match h with
  | [] => None
  | _ :: up =>
      match node_at root up with
      | Some a =>
          if decide (class_of a.2 = K) then Some a
          else find_ancestor_from root K up
      | None => None
      end
  end.

Definition find_ancestor (root : expression) (K : exp_class) (n : node) : option node :=
  find_ancestor_from root K n.1.

(** [n.this] *)
Definition this (n : node) : option node :=
  (λ c, (0 :: n.1, c)) <$> this_of n.2.

(** [a is b] where [a] may be [None] *)
Definition is_ (a : option node) (b : node) : bool :=
  match a with
  | Some a' => bool_decide (a'.1 = b.1)
  | None => false
  end.

End Sqlglot.

Import Sqlglot.

(** ** What the check takes from its surroundings

    The file system, the JSON decoder, the SQL parser and the terminal
    are outside the repository; the check is stated over any of them. *)

Inductive file_read :=
| FileNotFound
| OSError (e : string)
| Undecodable
| Text (t : string).

Class Platform := {
  (** [Path(p).read_text(encoding="utf-8")] *)
  read_text : string → file_read;
  (** [json.loads]; [inl e] is a [JSONDecodeError] with message [e] *)
  json_loads : string → string + value;
  (** [sqlglot.parse_one(sql, read="bigquery")]; [None] when it raises *)
  parse_one : string → option expression;
  (** [str(v)] for a value that is not a string *)
  render : value → string;
  (** [str(Path(p).resolve().relative_to(Path.cwd().resolve()))]; [None]
      when it raises *)
  cwd_relative : string → option string;
  (** [Path(p).name] *)
  path_name : string → string;
  (** [_supports_color()] when the printer was created *)
  color : bool
}.

(** ** utils/printing.py *)

Inductive stream := Stdout | Stderr.

Record line := Line { to : stream; text : string }.

Global Instance stream_eq_dec : EqDecision stream.
Proof. solve_decision. Defined.
Global Instance line_eq_dec : EqDecision line.
Proof. solve_decision. Defined.

(** A computation that prints and may raise. *)
Definition io (A : Type) : Type := list line → res A * list line.

Global Instance io_ret : MRet io := λ A a out, (Ok a, out).
Global Instance io_bind : MBind io := λ A B f m out,
  match m out with
  | (Ok a, out') => f a out'
  | (Raise e, out') => (Raise e, out')
  end.

Definition lift {A} (r : res A) : io A := λ out, (r, out).

Definition print (s : stream) (t : string) : io unit :=
  λ out, (Ok (), out ++ [Line s t]).

Fixpoint for_ {A S} (l : list A) (body : S → A → io S) (s : S) : io S :=
  match l with
  | [] => mret s
  | x :: l' => s' ← body s x; for_ l' body s'
  end.

Fixpoint rfor {A S} (l : list A) (body : S → A → res S) (s : S) : res S :=
  match l with
  | [] => mret s
  | x :: l' => s' ← body s x; rfor l' body s'
  end.

Definition ESC : string := Py.byte 27.
Definition RESET : string := ESC +:+ "[0m".
Definition RED : string := ESC +:+ "[31m".
Definition GREEN : string := ESC +:+ "[32m".

Section Printer.
Context `{Platform}.

Definition _c (code text : string) : string :=
  if color then code +:+ text +:+ RESET else text.

Definition success (msg : string) : io unit :=
  print Stdout (_c GREEN ("✅ " +:+ msg)).

Definition error (msg : string) : io unit :=
  print Stderr (_c RED ("❌ " +:+ msg)).

Definition footer_ok (msg : string) : io unit := success msg.

Definition footer_fail (msg : string) : io unit := error msg.

End Printer.

(** ** utils/io.py *)

Definition DEFAULT_GRAPH_PATH : string := "compiled_graph.json".

Section Io.
Context `{Platform}.

Definition load_compiled_graph (path : string) : res (list (string * value)) :=
  match read_text path with
  | FileNotFound => Raise (GraphLoadError ("Could not find " +:+ path))
  | OSError e => Raise (GraphLoadError ("Failed reading " +:+ path +:+ ": " +:+ e))
  | Undecodable => Raise UnicodeDecodeError
  | Text t =>
      match json_loads t with
      | inl e => Raise (GraphLoadError ("Failed to parse " +:+ path +:+ ": " +:+ e))
      | inr (VDict graph) => Ok graph
      | inr _ =>
          Raise (GraphLoadError ("Unexpected structure in " +:+ path +:+
                                 ": expected JSON object at top level"))
      end
  end.

End Io.

(** ** checks/hardcoded_fqns.py *)

Definition nonempty (s : string) : bool := negb (String.eqb s "").

(** [x or y] on strings *)
Definition sor (x y : string) : string := if nonempty x then x else y.

(** The four indices built by [_index_actions]. *)
Record index := Index {
  by_name : gmap string value;
  name_to_fqn : gmap string string;
  source_fqns : gset string;
  by_file : gmap string (list string)
}.

Section Check.
Context `{Platform}.

(** [str(v)] *)
Definition str (v : value) : string :=
  match v with
  | VStr s => s
  | _ => render v
  end.

Definition _display_name (file_path : value) : res string :=
  match file_path with
  | VStr fp =>
      match cwd_relative fp with
      | Some rel => Ok rel
      | None => Ok (path_name fp)
      end
  | _ => Raise TypeError
  end.

Definition _target_to_fqn (target : value) : res string :=
  if negb (truthy target) then Ok ""
  else
    database ← Py.get target "database" VNone;
    schema ← Py.get target "schema" VNone;
    nm ← Py.get target "name" VNone;
    let proj := strip_backticks (str (or_ database (VStr ""))) in
    let ds := strip_backticks (str (or_ schema (VStr ""))) in
    let tbl := strip_backticks (str (or_ nm (VStr ""))) in
    if negb (nonempty ds && nonempty tbl) then Ok ""
    else Ok (if nonempty proj then proj +:+ "." +:+ ds +:+ "." +:+ tbl
             else ds +:+ "." +:+ tbl).

Definition _normalize_bq_table (table_expr : node) : string :=
  let t := texts_of table_expr.2 in
  let proj := strip_backticks (sor (catalog t) "") in
  let ds := strip_backticks (sor (db t) "") in
  let nm := strip_backticks (sor (name t) "") in
  if negb (nonempty ds) || negb (nonempty nm) then ""
  else if nonempty proj then proj +:+ "." +:+ ds +:+ "." +:+ nm
  else ds +:+ "." +:+ nm.

Definition _collect_cte_names (tree : expression) : gset string :=
  foldl (λ (names : gset string) (cte : node),
           let al := alias (texts_of cte.2) in
           if nonempty al then names ∪ {[ al ]} else names)
        ∅ (find_all tree CTE).

Definition _is_write_target (tree : expression) (table_expr : node) : bool :=
  match find_ancestor tree Create table_expr with
  | Some create => is_ (this create) table_expr
  | None =>
      match find_ancestor tree Insert table_expr with
      | Some insert => is_ (this insert) table_expr
      | None =>
          match find_ancestor tree Copy table_expr with
          | Some copy => is_ (this copy) table_expr
          | None => false
          end
      end
  end.

(** One round of the loop over [tree.find_all(exp.Table)]. *)
Definition read_step (tree : expression) (cte_names : gset string)
    (results : gset string) (t : node) : gset string :=
  if bool_decide (sor (name (texts_of t.2)) "" ∈ cte_names) then results
  else if _is_write_target tree t then results
  else
    let fqn := _normalize_bq_table t in
    if negb (nonempty fqn) then results
    else results ∪ {[ fqn ]}.

(** The body of [_extract_read_tables] once the text is parsed. *)
Definition read_tables (tree : expression) : gset string :=
  let cte_names := _collect_cte_names tree in
  foldl (read_step tree cte_names) ∅ (find_all tree Table).

Definition _extract_read_tables (sql : value) : res (gset string) :=
  match sql with
  | VStr s =>
      if negb (nonempty s && nonempty (strip s)) then Ok ∅
      else
        match parse_one s with
        | None => Ok ∅
        | Some tree => Ok (read_tables tree)
        end
  | _ => if truthy sql then Raise AttributeError else Ok ∅
  end.

(** One round of the loop over the actions. *)
Definition index_step (st : gmap string value * gmap string string * gmap string (list string))
    (a : value) : res (gmap string value * gmap string string * gmap string (list string)) :=
  let '(by_name, name_to_fqn, by_file) := st in
  n1 ← Py.get a "name" VNone;
  n2 ← Py.get a "id" VNone;
  match as_str (or_ n1 n2) with
  | None => Ok st
  | Some name =>
      let by_name := <[name := a]> by_name in
      t1 ← Py.get a "target" VNone;
      t2 ← Py.get a "canonicalTarget" VNone;
      fqn ← _target_to_fqn (or_ (or_ t1 t2) (VDict []));
      let name_to_fqn := if nonempty fqn then <[name := fqn]> name_to_fqn else name_to_fqn in
      fn ← Py.get a "fileName" VNone;
      match as_str fn with
      | Some fn =>
          Ok (by_name, name_to_fqn,
              <[fn := default [] (by_file !! fn) ++ [name]]> by_file)
      | None => Ok (by_name, name_to_fqn, by_file)
      end
  end.

(** One round of the loop over the sources. *)
Definition source_step (source_fqns : gset string) (src : value) : res (gset string) :=
  t ← Py.get src "target" VNone;
  fqn ← _target_to_fqn (or_ t (VDict []));
  if nonempty fqn then Ok (source_fqns ∪ {[ fqn ]}) else Ok source_fqns.

Definition _index_actions (graph : list (string * value)) : res index :=
  actions ← iter (or_ (or_ (dict_get graph "actions" VNone)
                           (dict_get graph "tables" VNone)) (VList []));
  '(by_name, name_to_fqn, by_file) ← rfor actions index_step (∅, ∅, ∅);
  sources ← iter (dict_get graph "sources" (VList []));
  source_fqns ← rfor sources source_step ∅;
  Ok (Index by_name name_to_fqn source_fqns by_file).

Definition _action_query (a : value) : res value :=
  q1 ← Py.get a "query" VNone;
  q2 ← Py.get a "compiledQuery" VNone;
  q3 ← Py.get a "sqlxCompiled" VNone;
  Ok (or_ (or_ (or_ q1 q2) q3) (VStr "")).

Definition _action_dependencies (a : value) : res (list string) :=
  deps ← Py.get a "dependencies" VNone;
  match deps with
  | VList l =>
      match all_str l with
      | Some names => Ok names
      | None => Ok []
      end
  | _ => Ok []
  end.

(** [{name_to_fqn[d] for d in deps if d in name_to_fqn}] *)
Definition dep_fqns_of (name_to_fqn : gmap string string) (deps : gset string) : gset string :=
  list_to_set (omap (λ d, name_to_fqn !! d) (elements deps)).

(** [{t for t in parsed_tables if t not in accounted}] *)
Definition suspects_of (parsed_tables accounted : gset string) : gset string :=
  filter (λ t, t ∉ accounted) parsed_tables.

(** The suspects of one action, lines 215 to 222 of [run]. *)
Definition action_suspects (ix : index) (a : value) : res (gset string) :=
  sql ← _action_query a;
  parsed_tables ← _extract_read_tables sql;
  depl ← _action_dependencies a;
  let deps : gset string := list_to_set depl in
  let dep_fqns := dep_fqns_of (name_to_fqn ix) deps in
  let accounted := dep_fqns ∪ source_fqns ix in
  Ok (suspects_of parsed_tables accounted).

(** [to_check], built from the files given. *)
Definition to_check_of (by_file : gmap string (list string)) (files : list string) : gset string :=
  foldl (λ (to_check : gset string) f,
           match by_file !! f with
           | Some names => to_check ∪ list_to_set names
           | None => to_check
           end) ∅ files.

Definition MSG_NOTHING : string := "No actions found for provided files; nothing to check.".
Definition MSG_FAIL : string := "Some SQLX files use fully-qualified tables instead of ref().".
Definition MSG_OK : string := "No likely hard-coded FQNs found.".

(** One round of the loop over [sorted(to_check)]. *)
Definition audit_step (ix : index) (has_errors : bool) (action_name : string) : io bool :=
  let a := default (VDict []) (by_name ix !! action_name) in
  fn ← lift (Py.get a "fileName" VNone);
  let file_name := or_ fn (VStr action_name) in
  display ← lift (_display_name file_name);
  suspects ← lift (action_suspects ix a);
  if bool_decide (suspects ≠ ∅) then
    _ ← error (display +:+ ": suspected hard-coded table references " +:+
               "(use ref()): " +:+ join ", " (sorted suspects));
    mret true
  else mret has_errors.

Definition run (files : list string) : io Z :=
  match load_compiled_graph DEFAULT_GRAPH_PATH with
  | Raise (GraphLoadError e) => _ ← error e; mret 1%Z
  | Raise e => lift (Raise e)
  | Ok graph =>
      ix ← lift (_index_actions graph);
      let to_check := to_check_of (by_file ix) files in
      if bool_decide (to_check = ∅) then
        _ ← success MSG_NOTHING; mret 0%Z
      else
        has_errors ← for_ (sorted to_check) (audit_step ix) false;
        if has_errors : bool then _ ← footer_fail MSG_FAIL; mret 1%Z
        else _ ← footer_ok MSG_OK; mret 0%Z
  end.

End Check.

(** ** The vocabulary of the properties *)

(** A text made of whitespace characters only (possibly none). *)
Definition only_whitespace (s : string) : Prop :=
  ∃ toks : list string,
    Forall (λ t, t ∈ whitespace) toks ∧ s = foldr String.app "" toks.

(** A node of class [K] lies strictly above [t]. *)
Definition encloses (root : expression) (K : exp_class) (t : node) : Prop :=
  ∃ (a : node) (pre : handle),
    pre ≠ [] ∧ t.1 = pre ++ a.1 ∧ node_at root a.1 = Some a ∧ class_of a.2 = K.

(** [t] is the node in the [this] slot of a node of class [K]. *)
Definition occupies_target_slot (root : expression) (K : exp_class) (t : node) : Prop :=
  ∃ p : node, node_at root p.1 = Some p ∧ class_of p.2 = K ∧ this p = Some t.

(** The action records of the graph, as the loop of [_index_actions] sees
    them. *)
Definition actions_of (graph : list (string * value)) : value :=
  or_ (or_ (dict_get graph "actions" VNone) (dict_get graph "tables" VNone)) (VList []).

Definition sources_of (graph : list (string * value)) : value :=
  dict_get graph "sources" (VList []).

Definition elements_of (v : value) : list value :=
  match v with
  | VList l => l
  | _ => []
  end.

(** The name, the file and the target of an action record, where it has
    them. *)
Definition action_name (a : value) : option string :=
  match a with
  | VDict items => as_str (or_ (dict_get items "name" VNone) (dict_get items "id" VNone))
  | _ => None
  end.

Definition action_file (a : value) : option string :=
  match a with
  | VDict items => as_str (dict_get items "fileName" VNone)
  | _ => None
  end.

Definition action_target (a : value) : value :=
  match a with
  | VDict items =>
      or_ (or_ (dict_get items "target" VNone) (dict_get items "canonicalTarget" VNone))
          (VDict [])
  | _ => VDict []
  end.

(** One part of a target, backticks stripped; empty when absent. *)
Definition target_part `{Platform} (target : value) (k : string) : string :=
  match target with
  | VDict items => strip_backticks (str (or_ (dict_get items k VNone) (VStr "")))
  | _ => ""
  end.

(** [database.schema.name], or [schema.name] without a database. *)
Definition canonical `{Platform} (target : value) : string :=
  let proj := target_part target "database" in
  let ds := target_part target "schema" in
  let tbl := target_part target "name" in
  if nonempty proj then proj +:+ "." +:+ ds +:+ "." +:+ tbl
  else ds +:+ "." +:+ tbl.

(** The shape of the graph document the check relies on without testing
    it: records are objects, a target that is present is an object, the
    compiled query and the file name, where present, are strings. *)
Definition is_dict (v : value) : bool :=
  match v with VDict _ => true | _ => false end.

Definition is_str (v : value) : bool :=
  match v with VStr _ => true | _ => false end.

Definition target_ok (t : value) : bool := negb (truthy t) || is_dict t.

Definition action_ok (a : value) : bool :=
  match a with
  | VDict items =>
      target_ok (action_target a)
      && is_str (or_ (or_ (or_ (dict_get items "query" VNone)
                               (dict_get items "compiledQuery" VNone))
                          (dict_get items "sqlxCompiled" VNone)) (VStr ""))
      && (negb (truthy (dict_get items "fileName" VNone))
          || is_str (dict_get items "fileName" VNone))
  | _ => false
  end.

Definition source_ok (src : value) : bool :=
  match src with
  | VDict items => target_ok (or_ (dict_get items "target" VNone) (VDict []))
  | _ => false
  end.

Definition well_shaped (graph : list (string * value)) : bool :=
  match actions_of graph with
  | VList acts => forallb action_ok acts
  | _ => false
  end
  && match sources_of graph with
     | VList srcs => forallb source_ok srcs
     | _ => false
     end.

(** The read references of an action: the extractor on its query. *)
Definition action_reads `{Platform} (a : value) : res (gset string) :=
  sql ← _action_query a; _extract_read_tables sql.

(** The record audited under a name: the last record of the graph that
    bears it. *)
Definition last_named (acts : list value) (n : string) (a : value) : Prop :=
  ∃ before after, acts = before ++ a :: after ∧ action_name a = Some n ∧
                  ∀ a', a' ∈ after → action_name a' ≠ Some n.

(** A name is audited when some record bearing it sits in one of the files
    given; the record audited under it is the last one bearing the name,
    whichever file that one sits in. *)
Definition audited (graph : list (string * value)) (files : list string)
    (n : string) (a : value) : Prop :=
  last_named (elements_of (actions_of graph)) n a ∧
  ∃ a' f, a' ∈ elements_of (actions_of graph) ∧ action_name a' = Some n ∧
          action_file a' = Some f ∧ f ∈ files.

(** What the audit of a record relies on without testing it: the query is
    a string, and so is the file name when there is one. *)
Definition auditable (a : value) : bool :=
  match a with
  | VDict items =>
      is_str (or_ (or_ (or_ (dict_get items "query" VNone)
                            (dict_get items "compiledQuery" VNone))
                       (dict_get items "sqlxCompiled" VNone)) (VStr ""))
      && (negb (truthy (dict_get items "fileName" VNone))
          || is_str (dict_get items "fileName" VNone))
  | _ => false
  end.

(** The names a record declares as dependencies, entry by entry: the
    strings of its [dependencies] list. *)
Definition declared_dependencies (a : value) : list string :=
  match a with
  | VDict items =>
      match dict_get items "dependencies" VNone with
      | VList l => omap as_str l
      | _ => []
      end
  | _ => []
  end.

(** The dependencies that count in the audit of a record: the names of
    its [dependencies] list when every entry of the list is a string, none
    otherwise. *)
Definition counted_dependencies (a : value) : list string :=
  match a with
  | VDict items =>
      match dict_get items "dependencies" VNone with
      | VList l => if forallb is_str l then omap as_str l else []
      | _ => []
      end
  | _ => []
  end.

(** The suspects of a record when each declared name counts on its own. *)
Definition suspects_by_entry (ix : index) (a : value) (read : gset string) : gset string :=
  read ∖ (dep_fqns_of (name_to_fqn ix) (list_to_set (declared_dependencies a))
          ∪ source_fqns ix).

(** The status of a run as the specification words it: on every graph
    that loads, with an indexed action in a file given, [run] returns 1
    exactly when some action of a file given has suspects, these being its
    read references less the identifiers of the names it declares and the
    declared sources; otherwise it returns 0. *)
Definition status_by_record `{Platform} (graph : list (string * value))
    (files : list string) : Prop :=
  load_compiled_graph DEFAULT_GRAPH_PATH = Ok graph →
  (∃ a n f, a ∈ elements_of (actions_of graph) ∧ action_name a = Some n ∧
            action_file a = Some f ∧ f ∈ files) →
  ∃ ix rc out,
    _index_actions graph = Ok ix ∧ run files [] = (Ok rc, out) ∧
    (rc = 1 ∨ rc = 0)%Z ∧
    (rc = 1%Z ↔
     ∃ a n f read,
       a ∈ elements_of (actions_of graph) ∧ action_name a = Some n ∧
       action_file a = Some f ∧ f ∈ files ∧
       action_reads a = Ok read ∧ suspects_by_entry ix a read ≠ ∅).

Definition index_state : Type :=
  gmap string value * gmap string string * gmap string (list string).

Section Rounds.
Context `{Platform}.

(** What [_target_to_fqn] returns on a target of the expected shape. *)
Definition fqn_of (target : value) : string :=
  if nonempty (target_part target "schema") && nonempty (target_part target "name")
  then canonical target else "".

(** What one round over a well-shaped action does to the three maps. *)
Definition index_round (st : index_state) (a : value) : index_state :=
  match action_name a with
  | None => st
  | Some n =>
      (<[n := a]> st.1.1,
       if nonempty (fqn_of (action_target a))
       then <[n := fqn_of (action_target a)]> st.1.2 else st.1.2,
       match action_file a with
       | Some f => <[f := default [] (st.2 !! f) ++ [n]]> st.2
       | None => st.2
       end)
  end.

Definition source_round (fqns : gset string) (src : value) : gset string :=
  match src with
  | VDict items =>
      let fqn := fqn_of (or_ (dict_get items "target" VNone) (VDict [])) in
      if nonempty fqn then fqns ∪ {[ fqn ]} else fqns
  | _ => fqns
  end.

Definition index_of (graph : list (string * value)) : index :=
  let st := foldl index_round (∅, ∅, ∅) (elements_of (actions_of graph)) in
  Index st.1.1 st.1.2 (foldl source_round ∅ (elements_of (sources_of graph))) st.2.

(** Whether the round for [n] finds suspects. *)
Definition flagged (ix : index) (n : string) : bool :=
  match action_suspects ix (default (VDict []) (by_name ix !! n)) with
  | Ok s => bool_decide (s ≠ ∅)
  | Raise _ => false
  end.

End Rounds.

(** The summary [footer_ok] prints when called without a message. *)
Definition MSG_ALL_PASSED : string := "All selected checks passed.".

Ltac res_inv H :=
  repeat match type of H with
         | mbind _ ?m = Ok _ =>
             let E := fresh "E" in destruct m eqn:E; [cbn in H | discriminate H]
         | res_bind _ _ _ ?m = Ok _ =>
             let E := fresh "E" in destruct m eqn:E; [cbn in H | discriminate H]
         end.

(** ** Sample inputs

    Parse trees for a few statements, in the shape sqlglot gives them (a
    statement node with its target in the [this] slot and its sources
    below), and a platform that serves a given graph and parses exactly
    these. *)

Definition no_texts : texts := Texts "" "" "" "".

Definition ident (s : string) : expression :=
  Node Other (Texts "" "" s "") None [].

Definition table_ (cat ds nm : string) : expression :=
  Node Table (Texts cat ds nm "") (Some (ident nm))
       (if nonempty cat then [ident ds; ident cat] else [ident ds]).

Definition star : expression := Node Other no_texts None [].

(** [SELECT * FROM t] *)
Definition select_from (t : expression) : expression :=
  Node Other no_texts None [star; Node Other no_texts (Some t) []].

(** [SELECT 1] *)
Definition select_1 : expression :=
  Node Other no_texts None [Node Other (Texts "" "" "1" "") None []].

(** [WITH al AS (q) body]: the [With] node holds the [CTE]. *)
Definition with_ (al : string) (q : expression) : expression :=
  Node Other no_texts None
       [Node CTE (Texts "" "" "" al) (Some q) [Node Other (Texts "" "" al "") (Some (ident al)) []]].

Definition SQL_SELECT_1 : string := "select 1".
Definition SQL_FROM_B : string := "select * from ds.b".
Definition SQL_FROM_EXT : string := "select * from ext_ds.missing_dep".
Definition SQL_CTAS : string := "CREATE TABLE ds.x AS SELECT * FROM ds.y".
Definition SQL_CTE : string := "with b as (select * from ds.src) select * from ds.b".
Definition SQL_NESTED : string :=
  "CREATE TABLE ds.a AS WITH c AS (SELECT 1) INSERT INTO ds.x SELECT * FROM c".

Definition tree_from_b : expression := select_from (table_ "" "ds" "b").
Definition tree_from_ext : expression := select_from (table_ "" "ext_ds" "missing_dep").

Definition tree_ctas : expression :=
  Node Create no_texts (Some (table_ "" "ds" "x")) [select_from (table_ "" "ds" "y")].

Definition tree_cte : expression :=
  Node Other no_texts None
       [with_ "b" (select_from (table_ "" "ds" "src"));
        star; Node Other no_texts (Some (table_ "" "ds" "b")) []].

Definition tree_nested : expression :=
  Node Create no_texts (Some (table_ "" "ds" "a"))
       [Node Insert no_texts (Some (table_ "" "ds" "x"))
             [with_ "c" select_1; select_from (table_ "" "" "c")]].

Definition sample_parse (sql : string) : option expression :=
  if String.eqb sql SQL_SELECT_1 then Some select_1
  else if String.eqb sql SQL_FROM_B then Some tree_from_b
  else if String.eqb sql SQL_FROM_EXT then Some tree_from_ext
  else if String.eqb sql SQL_CTAS then Some tree_ctas
  else if String.eqb sql SQL_CTE then Some tree_cte
  else if String.eqb sql SQL_NESTED then Some tree_nested
  else None.

Definition sample_platform (graph : value) : Platform := {|
  read_text := λ _, Text "";
  json_loads := λ _, inr graph;
  parse_one := sample_parse;
  render := λ _, "?";
  cwd_relative := λ _, None;
  path_name := λ p, p;
  color := false
|}.

Definition action_ (nm file : string) (deps : value) (sql : string) : value :=
  VDict [("name", VStr nm); ("fileName", VStr file);
         ("target", VDict [("schema", VStr "ds"); ("name", VStr nm)]);
         ("dependencies", deps); ("compiledQuery", VStr sql)].

(** Scenario B of the specification: [a] reads [ds.b] and declares [b]. *)
Definition graph_b : value :=
  VDict [("actions", VList [action_ "b" "b.sqlx" (VList []) SQL_SELECT_1;
                            action_ "a" "a.sqlx" (VList [VStr "b"]) SQL_FROM_B])].

(** Scenario C: [d] reads an undeclared table. *)
Definition graph_c : value :=
  VDict [("actions", VList [action_ "d" "d.sqlx" (VList []) SQL_FROM_EXT])].

(** As scenario B, with a number among the dependencies of [a]. *)
Definition graph_mixed : value :=
  VDict [("actions", VList [action_ "b" "b.sqlx" (VList []) SQL_SELECT_1;
                            action_ "a" "a.sqlx" (VList [VStr "b"; VInt 1]) SQL_FROM_B])].

Definition action_a : value := action_ "a" "a.sqlx" (VList [VStr "b"]) SQL_FROM_B.
Definition action_a_mixed : value :=
  action_ "a" "a.sqlx" (VList [VStr "b"; VInt 1]) SQL_FROM_B.

(** The index [_index_actions] builds for [graph_b]. *)
Definition index_b : index :=
  Index {[ "a" := action_a; "b" := action_ "b" "b.sqlx" (VList []) SQL_SELECT_1 ]}
        {[ "a" := "ds.a"; "b" := "ds.b" ]} ∅
        {[ "a.sqlx" := ["a"]; "b.sqlx" := ["b"] ]}.

Definition ctas_target : node := ([0], table_ "" "ds" "x").
Definition nested_insert_target : node := ([0; 1], table_ "" "ds" "x").
Definition cte_shadowed_table : node := ([0; 2], table_ "" "ds" "b").
Definition cte_b : node :=
  ([0; 0], Node CTE (Texts "" "" "" "b") (Some (select_from (table_ "" "ds" "src")))
                [Node Other (Texts "" "" "b" "") (Some (ident "b")) []]).

(** ** Further vocabulary: findings and files *)

Section Findings.
Context `{Platform}.

(** The name a finding is printed under: the record's file name when it
    has a non-empty one, else the action's name; shown relative to the
    working directory when it lies inside, else by its base name. *)
Definition display_of (a : value) (action_name : string) : string :=
  let fp := match action_file a with
            | Some f => if nonempty f then f else action_name
            | None => action_name
            end in
  match cwd_relative fp with
  | Some rel => rel
  | None => path_name fp
  end.

(** The line printed for an action with suspects. *)
Definition finding_line (display : string) (suspects : gset string) : line :=
  Line Stderr (_c RED ("❌ " +:+ display +:+ ": suspected hard-coded table references " +:+
                       "(use ref()): " +:+ join ", " (sorted suspects))).

(** What the round for [n] prints. *)
Definition findings (ix : index) (n : string) : list line :=
  let a := default (VDict []) (by_name ix !! n) in
  match action_suspects ix a with
  | Ok s => if bool_decide (s ≠ ∅) then [finding_line (display_of a n) s] else []
  | Raise _ => []
  end.

End Findings.

(** The names of the records of [acts] that sit in file [f], in order. *)
Definition names_in_file (f : string) (acts : list value) : list string :=
  omap (λ a, match action_name a, action_file a with
             | Some n, Some g => if decide (g = f) then Some n else None
             | _, _ => None
             end) acts.

(** A table node carrying the given three parts. *)
Definition table_node (h : handle) (c d n al : string) (th : option expression)
    (rest : list expression) : node :=
  (h, Node Table (Texts c d n al) th rest).

(** Records for the index: a name, a file, a target and a query. *)
Definition record_ (nm file : string) (target : value) : value :=
  VDict [("name", VStr nm); ("fileName", VStr file); ("target", target);
         ("query", VStr SQL_SELECT_1)].

Definition target_ (ds nm : string) : value :=
  VDict [("schema", VStr ds); ("name", VStr nm)].

(** Two records under one name, the second without a target, then a
    record without a name. *)
Definition record_first : value := record_ "t" "one.sqlx" (target_ "ds" "t").
Definition record_second : value := record_ "t" "two.sqlx" VNone.
Definition record_nameless : value :=
  VDict [("fileName", VStr "one.sqlx"); ("query", VStr SQL_SELECT_1)].

Definition graph_dup : list (string * value) :=
  [("tables", VList [record_first; record_second; record_nameless]);
   ("sources", VList [VDict [("target", target_ "ext" "src")]; VDict []])].

(** A record whose query is a number. *)
Definition graph_numeric_query : list (string * value) :=
  [("actions", VList [VDict [("name", VStr "a"); ("fileName", VStr "a.sqlx");
                             ("query", VInt 5)]])].

(** Two records under one name: the first, in [one.sqlx], reads an
    undeclared table; the second, in [two.sqlx], reads nothing. *)
Definition record_dirty : value :=
  VDict [("name", VStr "t"); ("fileName", VStr "one.sqlx"); ("query", VStr SQL_FROM_EXT)].
Definition record_clean : value :=
  VDict [("name", VStr "t"); ("fileName", VStr "two.sqlx"); ("query", VStr SQL_SELECT_1)].
Definition graph_shadowed : list (string * value) :=
  [("actions", VList [record_dirty; record_clean])].

(** The records of [graph_mixed]. *)
Definition graph_mixed_items : list (string * value) :=
  [("actions", VList [action_ "b" "b.sqlx" (VList []) SQL_SELECT_1; action_a_mixed])].

(** A graph with a record that is not an object, and one whose sources
    are [null]. *)
Definition graph_bad_record : list (string * value) :=
  [("actions", VList [action_a; VStr "oops"])].

Definition graph_null_sources : list (string * value) :=
  [("actions", VList [action_a]); ("sources", VNone)].

(** ** utils/io.py: the changed-file list *)

(** [s.split(",")] *)
Fixpoint split_comma (s : string) : list string :=
  match s with
  | EmptyString => [""]
  | String c s' =>
      if String.eqb (String c "") "," then "" :: split_comma s'
      else match split_comma s' with
           | p :: ps => String c p :: ps
           | [] => [String c ""]
           end
  end.

(** One round of the inner loop of [normalize_changed_files]: the state
    is [seen] and [out]. *)
Definition normalize_part (st : gset string * list string) (part : string)
    : gset string * list string :=
  let f := strip part in
  if nonempty f && negb (bool_decide (f ∈ st.1))
  then (st.1 ∪ {[ f ]}, st.2 ++ [f])
  else st.

(** One round of the outer loop. *)
Definition normalize_raw (st : gset string * list string) (raw : string)
    : gset string * list string :=
  if negb (nonempty raw) then st
  else foldl normalize_part st (split_comma raw).

Definition normalize_changed_files (files : list string) : list string :=
  (foldl normalize_raw (∅, []) files).2.

(** ** runner.py *)

(** What [argparse] hands to [cli]. *)
Record args := Args {
  arg_config : option string;
  arg_include : option string;
  arg_exclude : option string;
  arg_fail_fast : bool;
  arg_files : list string
}.

(** Opening and decoding the configuration file. *)
Inductive config_load :=
| ConfigNotFound
| ConfigFailed (e : string)
| ConfigLoaded (loaded : value).

Class Shell := {
  (** [os.getenv] *)
  getenv : string → option string;
  (** the document at a path, read by [yaml.safe_load] or [json.load] *)
  load_config_file : string → config_load;
  (** [str.upper] *)
  upper : string → string
}.

Record Config := MkConfig {
  cfg_include : option (list string);
  cfg_exclude : option (list string);
  cfg_fail_fast : option bool
}.

(** A check as [CHECKS] holds it. *)
Definition check : Type := list string → io Z.

Definition _split_csv (s : option string) : list string :=
  match s with
  | Some s => if nonempty s then strip <$> split_comma s else []
  | None => []
  end.

(** [a or b] on lists *)
Definition lor_ (a b : list string) : list string :=
  match a with
  | [] => b
  | _ => a
  end.

Definition list_of_strings (v : value) : option (list string) :=
  match v with
  | VList l => all_str l
  | _ => None
  end.

(** The second half of [_load_config]: from the decoded document to a
    [Config]. *)
Definition config_of (loaded : value) : Config :=
  match loaded with
  | VDict items =>
      MkConfig (list_of_strings (dict_get items "include" VNone))
               (list_of_strings (dict_get items "exclude" VNone))
               (match dict_get items "fail_fast" VNone with
                | VBool b => Some b
                | _ => None
                end)
  | _ => MkConfig None None None
  end.

Definition NL : string := Py.byte 10.
Definition WARN : string := "⚠️  ".

Section Runner.
Context `{Shell}.

Definition _load_config (path : option string) : io Config :=
  match path with
  | None => mret (MkConfig None None None)
  | Some path =>
      if negb (nonempty path) then mret (MkConfig None None None)
      else
        match load_config_file path with
        | ConfigNotFound =>
            _ ← print Stderr (WARN +:+ "Config not found: " +:+ path);
            mret (MkConfig None None None)
        | ConfigFailed e =>
            _ ← print Stderr (WARN +:+ "Failed to load config " +:+ path +:+ ": " +:+ e);
            mret (MkConfig None None None)
        | ConfigLoaded loaded => mret (config_of loaded)
        end
  end.

(** The loop over [sorted(selected)], with its [break]. Every selected
    name is a key of [CHECKS], so the loop is over the entries. *)
Fixpoint run_checks (fail_fast : bool) (files : list string)
    (entries : list (string * check)) (any_fail : bool) : io bool :=
  match entries with
  | [] => mret any_fail
  | (name, chk) :: rest =>
      _ ← print Stdout (NL +:+ "——— " +:+ upper name +:+ " ———");
      rc ← chk files;
      if negb (rc =? 0)%Z then
        if fail_fast then
          _ ← print Stderr "⛔ fail-fast: stopping."; mret true
        else run_checks fail_fast files rest true
      else run_checks fail_fast files rest any_fail
  end.

Definition warn_unknown (CHECKS : gmap string check) (what : string)
    (names : list string) : io unit :=
  for_ (filter (λ c, CHECKS !! c = None) names)
       (λ _ c, print Stderr (WARN +:+ "Unknown check in " +:+ what +:+ ": " +:+ c)) ().

Definition known (CHECKS : gmap string check) (names : list string) : gset string :=
  list_to_set (filter (λ c, is_Some (CHECKS !! c)) names).

Definition cli (CHECKS : gmap string check) (a : args) : io Z :=
  file_cfg ← _load_config (arg_config a);
  let include := lor_ (lor_ (_split_csv (arg_include a))
                            (_split_csv (getenv "CHECKS_INCLUDE")))
                      (default [] (cfg_include file_cfg)) in
  let exclude := lor_ (lor_ (_split_csv (arg_exclude a))
                            (_split_csv (getenv "CHECKS_EXCLUDE")))
                      (default [] (cfg_exclude file_cfg)) in
  let fail_fast := arg_fail_fast a
                   || bool_decide (getenv "CHECKS_FAIL_FAST" = Some "1")
                   || default false (cfg_fail_fast file_cfg) in
  selected ← match include with
             | [] => mret (dom CHECKS)
             | _ => _ ← warn_unknown CHECKS "include" include;
                    mret (known CHECKS include)
             end;
  selected ← match exclude with
             | [] => mret selected
             | _ => _ ← warn_unknown CHECKS "exclude" exclude;
                    mret (selected ∖ known CHECKS exclude)
             end;
  if bool_decide (selected = ∅) then
    _ ← print Stderr "ℹ️  No checks selected."; mret 0%Z
  else
    _ ← print Stdout ("🔎 Running checks: " +:+ join ", " (sorted selected));
    any_fail ← run_checks fail_fast (arg_files a)
                 (omap (λ name, (λ chk, (name, chk)) <$> CHECKS !! name) (sorted selected))
                 false;
    if any_fail : bool then mret 1%Z
    else _ ← print Stdout (NL +:+ "✅ All selected checks passed."); mret 0%Z.

End Runner.

(** ** Further vocabulary: the changed-file list and the selection *)

(** [seen] is the set of [out], and [out] has no repetition. *)
Definition normal_state (st : gset string * list string) : Prop :=
  NoDup st.2 ∧ ∀ x, x ∈ st.1 ↔ x ∈ st.2.

(** The state reached from [st1] is the one reached from [st0] with the
    names [base] already seen put in front. *)
Definition ahead (base : list string) (st0 st1 : gset string * list string) : Prop :=
  st1.2 = base ++ filter (λ x, x ∉ base) st0.2.

Section Selection.
Context `{Shell}.

(** The include list, the exclude list and the fail-fast flag [cli]
    settles on: the flag, else the environment, else the file. *)
Definition include_of (a : args) (cfg : Config) : list string :=
  lor_ (lor_ (_split_csv (arg_include a)) (_split_csv (getenv "CHECKS_INCLUDE")))
       (default [] (cfg_include cfg)).

Definition exclude_of (a : args) (cfg : Config) : list string :=
  lor_ (lor_ (_split_csv (arg_exclude a)) (_split_csv (getenv "CHECKS_EXCLUDE")))
       (default [] (cfg_exclude cfg)).

Definition fail_fast_of (a : args) (cfg : Config) : bool :=
  arg_fail_fast a || bool_decide (getenv "CHECKS_FAIL_FAST" = Some "1")
  || default false (cfg_fail_fast cfg).

(** The configuration [_load_config] returns, without its warnings. *)
Definition config_at (path : option string) : Config :=
  match path with
  | None => MkConfig None None None
  | Some path =>
      if negb (nonempty path) then MkConfig None None None
      else match load_config_file path with
           | ConfigLoaded loaded => config_of loaded
           | _ => MkConfig None None None
           end
  end.

End Selection.

(** The checks selected: the known names of the include list, or all
    checks when it is empty, less the known names of the exclude list. *)
Definition selection (CHECKS : gmap string check) (include exclude : list string)
    : gset string :=
  match include with
  | [] => dom CHECKS
  | _ => known CHECKS include
  end ∖ known CHECKS exclude.

(** Sample checks: one that passes and one that fails, each printing a
    line, and a shell without environment or configuration. *)
Definition check_pass : check := λ _, _ ← print Stdout "ok"; mret 0%Z.
Definition check_fail : check := λ _, _ ← print Stderr "bad"; mret 1%Z.

Definition sample_checks : gmap string check :=
  {[ "description" := check_pass; "schema" := check_fail; "columns" := check_pass ]}.

Definition sample_shell : Shell := {|
  getenv := λ _, None;
  load_config_file := λ _, ConfigNotFound;
  upper := λ s, s
|}.

Definition sample_args (include : option string) (ff : bool) : args :=
  Args None include None ff ["a.sqlx"].

(** ** utils/io.py: tables of the files, lifecycle stage *)

(** The test of the generator [iter_tables_for_files] on one table:
    [fn and fn in targets], with [targets = set(files)]. A list or a dict
    cannot be looked up in a set. *)
Definition table_selected (files : list string) (tbl : value) : res bool :=
  fn ← Py.get tbl "fileName" VNone;
  if truthy fn then
    match fn with
    | VStr s => Ok (bool_decide (s ∈ files))
    | VList _ | VDict _ => Raise TypeError
    | _ => Ok false
    end
  else Ok false.

(** A loop [for table in iter_tables_for_files(graph, files)]: the
    generator is consumed as the loop runs. *)
Definition for_tables {S} (graph : list (string * value)) (files : list string)
    (body : S → value → io S) (s : S) : io S :=
  tables ← lift (iter (or_ (dict_get graph "tables" VNone) (VList [])));
  for_ tables (λ s tbl,
                 sel ← lift (table_selected files tbl);
                 if sel : bool then body s tbl else mret s) s.

Definition get_lifecycle_stage (table : value) : res (option string) :=
  bigquery ← Py.get table "bigquery" VNone;
  match or_ bigquery (VDict []) with
  | VDict b =>
      match or_ (dict_get b "labels" VNone) (VDict []) with
      | VDict labels => Ok (as_str (dict_get labels "lifecycle_stage" VNone))
      | _ => Ok None
      end
  | _ => Ok None
  end.

(** ** checks/description.py and checks/column_descriptions.py *)

Definition CYAN : string := ESC +:+ "[36m".
Definition QUOTE : string := Py.byte 34.

Section Presence.
Context `{Platform}.

Definition skip (msg : string) : io unit :=
  print Stdout (_c CYAN ("✅ " +:+ msg)).

(** [not isinstance(d, str) or d.strip() == ""] *)
Definition blank (d : value) : bool :=
  match d with
  | VStr s => negb (nonempty (strip s))
  | _ => true
  end.

Definition is_draft (lifecycle : option string) : bool :=
  bool_decide (lifecycle = Some "draft").

(** One round of the loop of [description.run]. *)
Definition description_step (has_errors : bool) (table : value) : io bool :=
  file_name ← lift (Py.get table "fileName" VNone);
  ad ← lift (Py.get table "actionDescriptor" VNone);
  description ← lift (Py.get (or_ ad (VDict [])) "description" VNone);
  lifecycle ← lift (get_lifecycle_stage table);
  if blank description then
    if negb (is_draft lifecycle) then
      _ ← error ("Missing description in " +:+ str file_name); mret true
    else
      _ ← skip ("Skipped " +:+ str file_name +:+ " (lifecycle_stage is draft)");
      mret has_errors
  else mret has_errors.

Definition description_run (files : list string) : io Z :=
  match load_compiled_graph DEFAULT_GRAPH_PATH with
  | Raise (GraphLoadError e) => _ ← error e; mret 1%Z
  | Raise e => lift (Raise e)
  | Ok graph =>
      has_errors ← for_tables graph files description_step false;
      if has_errors : bool then
        _ ← footer_fail "Some SQLX files are missing required descriptions."; mret 1%Z
      else _ ← footer_ok "All SQLX files have valid descriptions."; mret 0%Z
  end.

Definition _path_to_str (path : value) : string :=
  match path with
  | VList l =>
      match all_str l with
      | Some parts => join "." parts
      | None => "[unknown]"
      end
  | _ => "[unknown]"
  end.

(** One round of the loop over the columns. *)
Definition column_step (file_name : value) (has_errors : bool) (col : value) : io bool :=
  desc ← lift (Py.get col "description" VNone);
  if blank desc then
    path ← lift (Py.get col "path" VNone);
    _ ← error ("Column " +:+ QUOTE +:+ _path_to_str path +:+ QUOTE +:+ " in " +:+
               str file_name +:+ " is missing a description.");
    mret true
  else mret has_errors.

(** One round of the loop of [column_descriptions.run]. *)
Definition columns_step (has_errors : bool) (table : value) : io bool :=
  file_name ← lift (Py.get table "fileName" VNone);
  lifecycle ← lift (get_lifecycle_stage table);
  if is_draft lifecycle then
    _ ← skip ("Skipped " +:+ str file_name +:+ " (lifecycle_stage is draft)");
    mret has_errors
  else
    ad ← lift (Py.get table "actionDescriptor" VNone);
    columns ← lift (Py.get (or_ ad (VDict [])) "columns" VNone);
    match columns with
    | VList (col :: cols) => for_ (col :: cols) (column_step file_name) has_errors
    | _ =>
        _ ← error (str file_name +:+ " is missing defined columns."); mret true
    end.

Definition columns_run (files : list string) : io Z :=
  match load_compiled_graph DEFAULT_GRAPH_PATH with
  | Raise (GraphLoadError e) => _ ← error e; mret 1%Z
  | Raise e => lift (Raise e)
  | Ok graph =>
      has_errors ← for_tables graph files columns_step false;
      if has_errors : bool then
        _ ← footer_fail "Some SQLX files are missing column descriptions."; mret 1%Z
      else _ ← footer_ok "All SQLX files have valid column descriptions."; mret 0%Z
  end.

End Presence.

(** ** Further vocabulary: tables and their descriptions *)

Definition tables_of (graph : list (string * value)) : value :=
  or_ (dict_get graph "tables" VNone) (VList []).

(** The file a table is selected by: its [fileName] when that is a
    non-empty string. *)
Definition table_file (tbl : value) : option string :=
  match tbl with
  | VDict items =>
      match dict_get items "fileName" VNone with
      | VStr s => if nonempty s then Some s else None
      | _ => None
      end
  | _ => None
  end.

(** A field of the [actionDescriptor] of a table. *)
Definition descriptor_field (tbl : value) (k : string) : value :=
  match tbl with
  | VDict items =>
      match or_ (dict_get items "actionDescriptor" VNone) (VDict []) with
      | VDict ad => dict_get ad k VNone
      | _ => VNone
      end
  | _ => VNone
  end.

(** [bigquery.labels.lifecycle_stage], when the three are an object, an
    object and a string. *)
Definition table_lifecycle (tbl : value) : option string :=
  match get_lifecycle_stage tbl with
  | Ok l => l
  | Raise _ => None
  end.

(** The shape the presence checks rely on: a table is an object, its
    [fileName] is not a list or an object, its [actionDescriptor], where
    present, is an object, and its columns are objects. *)
Definition presence_table_ok (tbl : value) : bool :=
  match tbl with
  | VDict items =>
      match dict_get items "fileName" VNone with
      | VList (_ :: _) | VDict (_ :: _) => false
      | _ => true
      end
      && (negb (truthy (dict_get items "actionDescriptor" VNone))
          || is_dict (dict_get items "actionDescriptor" VNone))
      && forallb is_dict (elements_of (descriptor_field tbl "columns"))
  | _ => false
  end.

Section PresenceVocabulary.
Context `{Platform}.

(** A table the description check reports. *)
Definition lacks_description (tbl : value) : bool :=
  blank (descriptor_field tbl "description")
  && negb (is_draft (table_lifecycle tbl)).

(** A table the column check reports: not a draft, and without columns or
    with a column that has no description. *)
Definition lacks_column_descriptions (tbl : value) : bool :=
  negb (is_draft (table_lifecycle tbl))
  && match descriptor_field tbl "columns" with
     | VList (col :: cols) =>
         existsb (λ c, match c with
                       | VDict citems => blank (dict_get citems "description" VNone)
                       | _ => false
                       end) (col :: cols)
     | _ => true
     end.

End PresenceVocabulary.

(** Sample tables: documented, undocumented, and an undocumented draft. *)
Definition table_rec (file : string) (descriptor bigquery : value) : value :=
  VDict [("fileName", VStr file); ("actionDescriptor", descriptor); ("bigquery", bigquery)].

Definition DRAFT : value :=
  VDict [("labels", VDict [("lifecycle_stage", VStr "draft")])].

Definition column_ (nm : string) (desc : value) : value :=
  VDict [("path", VList [VStr nm]); ("description", desc)].

Definition table_good : value :=
  table_rec "good.sqlx"
    (VDict [("description", VStr "Orders"); ("columns", VList [column_ "id" (VStr "key")])])
    VNone.

Definition table_bare : value :=
  table_rec "bare.sqlx" (VDict [("columns", VList [column_ "id" (VStr " ")])]) VNone.

Definition table_draft : value := table_rec "draft.sqlx" VNone DRAFT.

Definition graph_tables : list (string * value) :=
  [("tables", VList [table_good; table_bare; table_draft])].

Definition graph_actions_only : list (string * value) :=
  [("actions", VList [table_bare])].

(** Whether the generator yields the table for the files given. *)
Definition yielded (files : list string) (tbl : value) : bool :=
  match table_file tbl with
  | Some f => bool_decide (f ∈ files)
  | None => false
  end.

(** A text wrapped in backticks. *)
Definition quoted (s : string) : string := "`" +:+ s +:+ "`".

(** An action whose query fields are absent or empty. *)
Definition action_no_query : value :=
  VDict [("name", VStr "q"); ("fileName", VStr "q.sqlx"); ("query", VStr "");
         ("compiledQuery", VNone)].

(** The backtick character. *)
Definition BACKTICK : Ascii.ascii := Stdlib.Strings.Ascii.ascii_of_nat 96.

(** * Properties *)

Example strip_backticks_ex : strip_backticks "``my`ds`" = "my`ds".
Proof. reflexivity. Qed.

Example strip_ex :
  strip (" " +:+ Py.bytes [9; 194; 160] +:+ "select 1 " +:+ Py.bytes [10]) = "select 1".
Proof. reflexivity. Qed.

Example sorted_ex : sorted {[ "ds.y"; "ds.B"; "a.b" ]} = ["a.b"; "ds.B"; "ds.y"].
Proof. vm_compute. reflexivity. Qed.

Example read_tables_ctas : read_tables tree_ctas = {[ "ds.y" ]}.
Proof. vm_compute. reflexivity. Qed.

Example read_tables_cte : read_tables tree_cte = {[ "ds.src" ]}.
Proof. vm_compute. reflexivity. Qed.

Example read_tables_nested : read_tables tree_nested = {[ "ds.x" ]}.
Proof. vm_compute. reflexivity. Qed.

Example index_b_ok :
  _index_actions (H := sample_platform graph_b)
    [("actions", VList [action_ "b" "b.sqlx" (VList []) SQL_SELECT_1; action_a])] = Ok index_b.
Proof. vm_compute. reflexivity. Qed.

Example run_b : run (H := sample_platform graph_b) ["a.sqlx"] [] =
  (Ok 0%Z, [Line Stdout ("✅ " +:+ MSG_OK)]).
Proof. vm_compute. reflexivity. Qed.

Example run_c : run (H := sample_platform graph_c) ["d.sqlx"] [] =
  (Ok 1%Z, [Line Stderr "❌ d.sqlx: suspected hard-coded table references (use ref()): ext_ds.missing_dep";
            Line Stderr ("❌ " +:+ MSG_FAIL)]).
Proof. vm_compute. reflexivity. Qed.

Example run_mixed : (run (H := sample_platform graph_mixed) ["a.sqlx"] []).1 = Ok 1%Z.
Proof. vm_compute. reflexivity. Qed.

Example run_nothing : run (H := sample_platform graph_c) ["other.sqlx"] [] =
  (Ok 0%Z, [Line Stdout ("✅ " +:+ MSG_NOTHING)]).
Proof. vm_compute. reflexivity. Qed.

Example run_numeric_query :
  run (H := sample_platform (VDict graph_numeric_query)) ["a.sqlx"] [] =
  (Raise AttributeError, []).
Proof. vm_compute. reflexivity. Qed.

Example run_shadowed :
  run (H := sample_platform (VDict graph_shadowed)) ["one.sqlx"] [] =
  (Ok 0%Z, [Line Stdout ("✅ " +:+ MSG_OK)]).
Proof. vm_compute. reflexivity. Qed.

Example run_bad_record :
  run (H := sample_platform (VDict graph_bad_record)) ["b.sqlx"] [] =
  (Raise AttributeError, []).
Proof. vm_compute. reflexivity. Qed.

(** ** The extractor on blank and unparsable text *)

Lemma first_strip_whitespace (t r : string) :
  t ∈ whitespace → first_strip whitespace (t +:+ r) = Some r.
Proof.
  intros Ht. apply list_elem_of_In in Ht. vm_compute in Ht.
  repeat (destruct Ht as [<- | Ht]; [reflexivity |]).
  destruct Ht.
Qed.

Lemma whitespace_nonempty (t : string) : t ∈ whitespace → 0 < String.length t.
Proof.
  intros Ht. apply list_elem_of_In in Ht. vm_compute in Ht.
  repeat (destruct Ht as [<- | Ht]; [simpl; lia |]).
  destruct Ht.
Qed.

Lemma length_app (s1 s2 : string) :
  String.length (s1 +:+ s2) = String.length s1 + String.length s2.
Proof. induction s1 as [| c s1 IH]; simpl; [done | by rewrite IH]. Qed.

Lemma lstrip_fuel_whitespace (toks : list string) (fuel : nat) :
  Forall (λ t, t ∈ whitespace) toks →
  (length toks ≤ fuel)%nat →
  lstrip_fuel fuel whitespace (foldr String.app "" toks) = "".
Proof.
  intros Hall. revert fuel.
  induction Hall as [| t toks Ht _ IH]; intros fuel Hfuel.
  - by destruct fuel.
  - destruct fuel as [| fuel]; simpl in Hfuel; [lia |].
    cbn [foldr lstrip_fuel]. rewrite first_strip_whitespace by done.
    apply IH. lia.
Qed.

Lemma length_tokens (toks : list string) :
  Forall (λ t, t ∈ whitespace) toks →
  (length toks ≤ String.length (foldr String.app "" toks))%nat.
Proof.
  induction 1 as [| t toks Ht _ IH]; simpl; [lia |].
  rewrite length_app. apply whitespace_nonempty in Ht. lia.
Qed.

Lemma strip_only_whitespace (s : string) : only_whitespace s → strip s = "".
Proof.
  intros (toks & Hall & ->).
  unfold strip, strip_chars.
  assert (lstrip whitespace (foldr String.app "" toks) = "") as ->; [| reflexivity].
  apply lstrip_fuel_whitespace; [done |]. by apply length_tokens.
Qed.

(** C6. For every SQL text that is empty or made of whitespace only, the
    extractor returns the empty set and does not raise. *)
Theorem extract_blank `{Platform} (s : string) :
  only_whitespace s → _extract_read_tables (VStr s) = Ok ∅.
Proof.
  intros Hs. unfold _extract_read_tables.
  rewrite (strip_only_whitespace s Hs). simpl.
  by rewrite andb_false_r.
Qed.

Lemma extract_blank_witness :
  only_whitespace (" " +:+ Py.bytes [9; 10; 226; 128; 131]) ∧
  _extract_read_tables (H := sample_platform VNone)
    (VStr (" " +:+ Py.bytes [9; 10; 226; 128; 131])) = Ok ∅.
Proof.
  assert (only_whitespace (" " +:+ Py.bytes [9; 10; 226; 128; 131])) as Hw.
  { exists [" "; Py.byte 9; Py.byte 10; Py.bytes [226; 128; 131]].
    split; [| reflexivity].
    repeat constructor; apply list_elem_of_In; vm_compute; tauto. }
  split; [exact Hw |].
  exact (extract_blank (H := sample_platform VNone) _ Hw).
Defined.

(** C5. For every SQL text the parser rejects, the extractor returns the
    empty set and does not raise. *)
Theorem extract_unparsable `{Platform} (s : string) :
  parse_one s = None → _extract_read_tables (VStr s) = Ok ∅.
Proof.
  intros Hparse. unfold _extract_read_tables.
  destruct (negb _); [done |]. by rewrite Hparse.
Qed.

Lemma extract_unparsable_witness :
  parse_one (Platform := sample_platform VNone) "select from from" = None ∧
  _extract_read_tables (H := sample_platform VNone) (VStr "select from from") = Ok ∅.
Proof.
  split; [reflexivity |].
  apply (extract_unparsable (H := sample_platform VNone) "select from from").
  reflexivity.
Defined.

(** ** The accounted set *)

Lemma elem_of_dep_fqns (name_to_fqn : gmap string string) (deps : gset string) (I : string) :
  I ∈ dep_fqns_of name_to_fqn deps ↔ ∃ d, d ∈ deps ∧ name_to_fqn !! d = Some I.
Proof.
  unfold dep_fqns_of. rewrite elem_of_list_to_set, list_elem_of_omap.
  split; intros (d & Hd & Hl); exists d; split; try done;
    by apply elem_of_elements.
Qed.

Lemma suspects_of_difference (parsed accounted : gset string) :
  suspects_of parsed accounted = parsed ∖ accounted.
Proof.
  apply set_eq. intros t. unfold suspects_of.
  rewrite elem_of_filter, elem_of_difference. tauto.
Qed.

Lemma action_suspects_inv `{Platform} (ix : index) (a : value) (s : gset string) :
  action_suspects ix a = Ok s →
  ∃ sql parsed depl,
    _action_query a = Ok sql ∧ _extract_read_tables sql = Ok parsed ∧
    _action_dependencies a = Ok depl ∧
    s = parsed ∖ (dep_fqns_of (name_to_fqn ix) (list_to_set depl) ∪ source_fqns ix).
Proof.
  unfold action_suspects. intros Hs. res_inv Hs.
  eexists _, _, _. split_and!; [done.. |].
  injection Hs as <-. apply suspects_of_difference.
Qed.

Lemma all_str_strings (names : list string) : all_str (VStr <$> names) = Some names.
Proof.
  induction names as [| n names IH]; [done |].
  rewrite fmap_cons. cbn [all_str as_str]. by rewrite IH.
Qed.

(** C2, as the code has it. An identifier is never among the suspects of an
    action when it is the canonical identifier of a name in the action's
    dependencies and every entry of that sequence is a string, or when it
    is the identifier of a declared source. *)
Theorem accounted_never_suspect `{Platform} (ix : index) (a : value)
    (s : gset string) (I : string) :
  action_suspects ix a = Ok s →
  (∃ names d, Py.get a "dependencies" VNone = Ok (VList (VStr <$> names)) ∧
              d ∈ names ∧ name_to_fqn ix !! d = Some I) ∨ I ∈ source_fqns ix →
  I ∉ s.
Proof.
  intros Hs Hacc.
  apply action_suspects_inv in Hs as (sql & parsed & depl & _ & _ & Hdeps & ->).
  rewrite elem_of_difference, elem_of_union, elem_of_dep_fqns.
  intros [_ Hnot]. apply Hnot.
  destruct Hacc as [(names & d & Hget & Hin & Hfqn) | Hsrc]; [left | by right].
  unfold _action_dependencies in Hdeps. rewrite Hget in Hdeps. cbn in Hdeps.
  rewrite all_str_strings in Hdeps. injection Hdeps as <-.
  exists d. split; [by apply elem_of_list_to_set | done].
Qed.

Lemma accounted_never_suspect_witness :
  action_suspects (H := sample_platform graph_b) index_b action_a = Ok ∅ ∧
  "ds.b" ∉ (∅ : gset string).
Proof.
  assert (action_suspects (H := sample_platform graph_b) index_b action_a = Ok ∅) as Hs
    by (vm_compute; reflexivity).
  split; [exact Hs |].
  apply (accounted_never_suspect (H := sample_platform graph_b) index_b action_a ∅ "ds.b" Hs).
  left. exists ["b"], "b". split_and!; [reflexivity | | reflexivity].
  apply list_elem_of_In. simpl. tauto.
Defined.

(** C2 as stated fails: [b] is among the dependencies of the action and
    [ds.b] is its identifier, yet [ds.b] is a suspect, a number standing
    beside [b] in the sequence. *)
Lemma declared_dependency_is_suspect :
  ¬ (∀ (H : Platform) (ix : index) (a : value) (s : gset string) (I : string),
       action_suspects ix a = Ok s →
       (∃ d, d ∈ declared_dependencies a ∧ name_to_fqn ix !! d = Some I)
       ∨ I ∈ source_fqns ix →
       I ∉ s).
Proof.
  intros Hclaim.
  apply (Hclaim (sample_platform graph_mixed) index_b action_a_mixed {[ "ds.b" ]} "ds.b").
  - vm_compute. reflexivity.
  - left. exists "b". split; [| reflexivity].
    apply list_elem_of_In. simpl. tauto.
  - by apply elem_of_singleton.
Qed.

(** ** Dependencies that are not all strings *)

Lemma all_str_non_string (l : list value) :
  (∃ v, v ∈ l ∧ as_str v = None) → all_str l = None.
Proof.
  intros (v & Hin & Hv).
  induction l as [| x l IH]; [by apply elem_of_nil in Hin |].
  apply elem_of_cons in Hin as [<- | Hin]; simpl.
  - by rewrite Hv.
  - rewrite (IH Hin). by destruct (as_str x).
Qed.

(** C9, as the code has it. When the dependencies of an action contain an
    entry that is not a string, the whole sequence is set aside: the set of
    dependency names is empty, the accounted set is the set of declared
    sources alone, and nothing is raised on that account. *)
Theorem dependencies_non_string `{Platform} (ix : index) (a : value) (l : list value) :
  Py.get a "dependencies" VNone = Ok (VList l) →
  (∃ v, v ∈ l ∧ as_str v = None) →
  _action_dependencies a = Ok [] ∧
  ∀ sql parsed,
    _action_query a = Ok sql → _extract_read_tables sql = Ok parsed →
    action_suspects ix a = Ok (parsed ∖ source_fqns ix).
Proof.
  intros Hget Hbad.
  assert (_action_dependencies a = Ok []) as Hdeps.
  { unfold _action_dependencies. rewrite Hget. cbn.
    by rewrite (all_str_non_string l Hbad). }
  split; [done |]. intros sql parsed Hq Hx.
  unfold action_suspects. rewrite Hq. cbn. rewrite Hx. cbn. rewrite Hdeps. cbn.
  f_equal. rewrite suspects_of_difference.
  apply set_eq. intros t.
  rewrite !elem_of_difference, elem_of_union, elem_of_dep_fqns.
  split; [intros [? Hn]; split; [done | intros ?; apply Hn; by right] |].
  intros [? Hn]. split; [done |]. intros [(d & Hd & _) | ?]; [| done].
  by apply not_elem_of_empty in Hd.
Qed.

Lemma dependencies_non_string_witness :
  Py.get action_a_mixed "dependencies" VNone = Ok (VList [VStr "b"; VInt 1]) ∧
  _action_dependencies action_a_mixed = Ok [].
Proof.
  split; [reflexivity |].
  refine (proj1 (dependencies_non_string (H := sample_platform graph_mixed)
                   index_b action_a_mixed [VStr "b"; VInt 1] eq_refl _)).
  exists (VInt 1). split; [| reflexivity].
  apply list_elem_of_In. simpl. tauto.
Defined.

(** C9 as stated fails: the string entry ["b"] is not kept once a number
    stands beside it. *)
Lemma dependencies_strings_not_retained :
  ¬ (∀ (a : value) (l : list value),
       Py.get a "dependencies" VNone = Ok (VList l) →
       (∃ v, v ∈ l ∧ as_str v = None) →
       ∃ names, _action_dependencies a = Ok names ∧
                ∀ d, VStr d ∈ l → d ∈ names).
Proof.
  intros Hclaim.
  destruct (Hclaim (VDict [("dependencies", VList [VStr "b"; VInt 1])])
                   [VStr "b"; VInt 1] eq_refl) as (names & Hnames & Hkept).
  { exists (VInt 1). split; [| reflexivity]. apply list_elem_of_In. simpl. tauto. }
  cbv in Hnames. injection Hnames as <-.
  specialize (Hkept "b"). apply (elem_of_nil "b"), Hkept.
  apply list_elem_of_In. simpl. tauto.
Qed.

(** ** Walking the parse tree *)

Lemma expression_children_ind (P : expression → Prop) :
  (∀ e, Forall P (children e) → P e) → ∀ e, P e.
Proof.
  intros Hstep. fix IH 1. intros [c t th rest]. apply Hstep.
  assert (Forall P rest) as Hrest.
  { induction rest as [| x rest IHrest]; constructor; [apply IH | exact IHrest]. }
  destruct th as [x |]; simpl; [constructor; [apply IH | exact Hrest] | exact Hrest].
Qed.

Lemma walk_children (h : handle) (e : expression) :
  walk h e = (h, e) :: walk_from walk h 0 (children e).
Proof. by destruct e as [c t [x |] rest]. Qed.

Lemma elem_of_walk_from f (h : handle) (l : list expression) (i : nat) (n : node) :
  n ∈ walk_from f h i l ↔ ∃ j c, l !! j = Some c ∧ n ∈ f ((i + j)%nat :: h) c.
Proof.
  revert i. induction l as [| x l IH]; intros i; simpl.
  - split; [by intros ?%elem_of_nil | by intros (j & c & ? & _)].
  - rewrite elem_of_app, IH. split.
    + intros [Hn | (j & c & Hj & Hn)].
      * exists 0, x. by rewrite Nat.add_0_r.
      * exists (S j), c. by rewrite Nat.add_succ_r.
    + intros ([| j] & c & Hj & Hn).
      * left. simpl in Hj. injection Hj as ->. by rewrite Nat.add_0_r in Hn.
      * right. exists j, c. by rewrite Nat.add_succ_r in Hn.
Qed.

Lemma elem_of_walk_path (e : expression) (h : handle) (n : node) :
  n ∈ walk h e → ∃ path, descend e path = Some n.2 ∧ n.1 = reverse path ++ h.
Proof.
  revert h n. induction e as [e IH] using expression_children_ind. intros h n.
  rewrite walk_children, elem_of_cons, elem_of_walk_from.
  intros [-> | (j & c & Hj & Hn)].
  - by exists [].
  - rewrite Forall_lookup in IH.
    destruct (IH j c Hj _ _ Hn) as (path & Hpath & Hh).
    exists (j :: path). simpl. rewrite Hj. split; [done |].
    by rewrite Hh, reverse_cons, <- app_assoc.
Qed.

Lemma walk_path_elem_of (path : list nat) (e x : expression) (h : handle) :
  descend e path = Some x → (reverse path ++ h, x) ∈ walk h e.
Proof.
  revert e h. induction path as [| j path IH]; intros e h; simpl.
  - intros [= ->]. rewrite walk_children. by left.
  - destruct (children e !! j) as [c |] eqn:Hj; [| done]. intros Hx.
    rewrite walk_children, elem_of_cons, elem_of_walk_from. right.
    exists j, c. split; [done |].
    rewrite reverse_cons, <- app_assoc. by apply IH.
Qed.

(** [walk] reaches exactly the nodes of the tree. *)
Lemma elem_of_walk_root (root : expression) (n : node) :
  n ∈ walk [] root ↔ node_at root n.1 = Some n.
Proof.
  unfold node_at. destruct n as [h e]. simpl. split.
  - intros (path & Hpath & Hh)%elem_of_walk_path. simpl in *.
    rewrite app_nil_r in Hh. subst h. by rewrite reverse_involutive, Hpath.
  - destruct (descend root (reverse h)) as [x |] eqn:Hx; [| done].
    intros [= ->]. apply (walk_path_elem_of _ _ _ []) in Hx.
    by rewrite reverse_involutive, app_nil_r in Hx.
Qed.

Lemma elem_of_find_all (root : expression) (K : exp_class) (n : node) :
  n ∈ find_all root K ↔ node_at root n.1 = Some n ∧ class_of n.2 = K.
Proof.
  unfold find_all. rewrite list_elem_of_filter, elem_of_walk_root. tauto.
Qed.

Lemma node_at_handle (root : expression) (h : handle) (n : node) :
  node_at root h = Some n → n.1 = h.
Proof.
  unfold node_at. destruct (descend _ _); [| done]. by intros [= <-].
Qed.

Lemma node_at_child (root : expression) (p : node) (i : nat) (c : expression) :
  node_at root p.1 = Some p → children p.2 !! i = Some c →
  node_at root (i :: p.1) = Some (i :: p.1, c).
Proof.
  unfold node_at. destruct p as [h e0]. simpl. intros Hp Hc.
  destruct (descend root (reverse h)) as [e |] eqn:He; [| done].
  injection Hp as ->.
  rewrite reverse_cons.
  assert (∀ path x, descend x path = Some e0 →
                    descend x (path ++ [i]) = Some c) as Hsnoc.
  { induction path as [| j path IH]; intros x; simpl.
    - intros [= ->]. by rewrite Hc.
    - destruct (children x !! j); [apply IH | done]. }
  by rewrite (Hsnoc _ _ He).
Qed.

Lemma this_of_child (e c : expression) :
  this_of e = Some c → children e !! 0 = Some c.
Proof. destruct e as [k t [x |] rest]; simpl; [by intros [= ->] | done]. Qed.

Lemma descend_app (e : expression) (p1 p2 : list nat) :
  descend e (p1 ++ p2) = descend e p1 ≫= λ x, descend x p2.
Proof.
  revert e. induction p1 as [| i p1 IH]; intros e; simpl; [done |].
  by destruct (children e !! i).
Qed.

Lemma node_at_suffix (root : expression) (pre up : handle) :
  is_Some (node_at root (pre ++ up)) → is_Some (node_at root up).
Proof.
  unfold node_at. rewrite reverse_app, descend_app.
  destruct (descend root (reverse up)); [by eauto | by intros [? ?]].
Qed.

Lemma find_ancestor_from_Some (root : expression) (K : exp_class) (h : handle) (a : node) :
  find_ancestor_from root K h = Some a →
  node_at root a.1 = Some a ∧ class_of a.2 = K ∧ ∃ pre, pre ≠ [] ∧ h = pre ++ a.1.
Proof.
  induction h as [| i up IH]; simpl; [done |].
  destruct (node_at root up) as [x |] eqn:Hx; [| done].
  destruct (decide _) as [Hk | Hk].
  - intros [= <-]. pose proof (node_at_handle _ _ _ Hx) as Hh.
    rewrite Hh. split_and!; [done.. |]. by exists [i].
  - intros (? & ? & pre & ? & ->)%IH. split_and!; [done.. |].
    by exists (i :: pre).
Qed.

Lemma find_ancestor_from_parent (root : expression) (K : exp_class) (i : nat) (p : node) :
  node_at root p.1 = Some p → class_of p.2 = K →
  find_ancestor_from root K (i :: p.1) = Some p.
Proof. intros Hp Hk. simpl. rewrite Hp. by rewrite decide_True. Qed.

Lemma find_ancestor_None (root : expression) (K : exp_class) (t : node) :
  node_at root t.1 = Some t →
  find_ancestor root K t = None ↔ ¬ encloses root K t.
Proof.
  intros Ht. unfold find_ancestor. split.
  - intros Hnone (a & pre & Hpre & Hh & Ha & Hk).
    assert (is_Some (node_at root t.1)) as Hvalid by eauto.
    rewrite Hh in Hnone, Hvalid. clear Hh Ht.
    induction pre as [| i pre IH]; [done |].
    rewrite <- app_comm_cons in Hnone, Hvalid. simpl in Hnone.
    assert (is_Some (node_at root (pre ++ a.1))) as [x Hx]
      by (apply (node_at_suffix root [i]); exact Hvalid).
    rewrite Hx in Hnone.
    destruct (decide _) as [Hxk | Hxk]; [done |].
    destruct pre as [| j pre].
    + simpl in Hx. rewrite Ha in Hx. by injection Hx as <-.
    + apply IH; [done | done | by eauto].
  - intros Hno. destruct (find_ancestor_from root K t.1) as [a |] eqn:Ha; [| done].
    destruct Hno. apply find_ancestor_from_Some in Ha as (? & ? & pre & ? & ?).
    by exists a, pre.
Qed.

Lemma this_node_at (root : expression) (p t : node) :
  node_at root p.1 = Some p → this p = Some t →
  t.1 = 0 :: p.1 ∧ node_at root t.1 = Some t.
Proof.
  unfold this. intros Hp Hthis.
  destruct (this_of p.2) as [c |] eqn:Hc; [| done]. injection Hthis as <-.
  split; [done |]. simpl. by apply node_at_child, this_of_child.
Qed.

Lemma is_this (root : expression) (p t : node) :
  node_at root p.1 = Some p → node_at root t.1 = Some t →
  is_ (this p) t = true ↔ this p = Some t.
Proof.
  intros Hp Ht. split.
  - unfold is_. destruct (this p) as [x |] eqn:Hx; [| done].
    intros Heq%bool_decide_eq_true.
    apply (this_node_at root) in Hx as [_ Hxat]; [| done].
    rewrite Heq, Ht in Hxat. by injection Hxat as ->.
  - intros ->. simpl. by apply bool_decide_eq_true.
Qed.

Lemma occupies_find_ancestor (root : expression) (K : exp_class) (t : node) :
  occupies_target_slot root K t →
  ∃ p, find_ancestor root K t = Some p ∧ this p = Some t ∧ node_at root p.1 = Some p.
Proof.
  intros (p & Hp & Hk & Hthis). exists p. split_and!; [| done..].
  unfold find_ancestor. destruct (this_node_at root p t Hp Hthis) as [-> _].
  by apply find_ancestor_from_parent.
Qed.

(** What [_is_write_target] decides, in terms of the tree. *)
Lemma is_write_target_iff (tree : expression) (t : node) :
  node_at tree t.1 = Some t →
  _is_write_target tree t = true ↔
    occupies_target_slot tree Create t
    ∨ (occupies_target_slot tree Insert t ∧ ¬ encloses tree Create t)
    ∨ (occupies_target_slot tree Copy t ∧ ¬ encloses tree Create t
       ∧ ¬ encloses tree Insert t).
Proof.
  intros Ht. unfold _is_write_target.
  pose proof (find_ancestor_None tree Create t Ht) as HnC.
  pose proof (find_ancestor_None tree Insert t Ht) as HnI.
  assert (∀ K a, find_ancestor tree K t = Some a →
                 is_ (this a) t = true → occupies_target_slot tree K t) as Hocc.
  { intros K a Ha Hthis.
    apply find_ancestor_from_Some in Ha as (Hat & Hk & _).
    exists a. split_and!; [done.. |]. by apply (is_this tree). }
  assert (∀ K a, find_ancestor tree K t = Some a → encloses tree K t) as Henc.
  { intros K a Ha. apply find_ancestor_from_Some in Ha as (? & ? & pre & ? & ?).
    by exists a, pre. }
  split.
  - destruct (find_ancestor tree Create t) as [c |] eqn:Hc; [by eauto |].
    destruct (find_ancestor tree Insert t) as [i |] eqn:Hi.
    { intros ?. right. left. split; [by eauto | by apply HnC]. }
    destruct (find_ancestor tree Copy t) as [k |] eqn:Hk; [| done].
    intros ?. right. right. split_and!; [by eauto | by apply HnC | by apply HnI].
  - intros [Hc | [[Hi HC] | (Hk & HC & HI)]].
    + apply occupies_find_ancestor in Hc as (p & -> & Hthis & Hp).
      by apply (is_this tree).
    + apply HnC in HC as ->.
      apply occupies_find_ancestor in Hi as (p & -> & Hthis & Hp).
      by apply (is_this tree).
    + apply HnC in HC as ->. apply HnI in HI as ->.
      apply occupies_find_ancestor in Hk as (p & -> & Hthis & Hp).
      by apply (is_this tree).
Qed.

(** ** Write targets and CTE names *)

Lemma nonempty_true (s : string) : nonempty s = true ↔ s ≠ "".
Proof.
  unfold nonempty. destruct (String.eqb_spec s ""); simpl; split; congruence.
Qed.

Lemma sor_empty (s : string) : sor s "" = s.
Proof. unfold sor, nonempty. by destruct (String.eqb_spec s "") as [-> |]. Qed.

Lemma write_target_skipped (tree : expression) (t : node) :
  _is_write_target tree t = true →
  ∀ ctes results, read_step tree ctes results t = results.
Proof.
  intros Hw ctes results. unfold read_step. rewrite Hw. by case_bool_decide.
Qed.

Lemma read_table_kept (tree : expression) (t : node) (ctes results : gset string) :
  _is_write_target tree t = false →
  name (texts_of t.2) ∉ ctes →
  _normalize_bq_table t ≠ "" →
  _normalize_bq_table t ∈ read_step tree ctes results t.
Proof.
  intros Hw Hcte Hfqn. unfold read_step. rewrite Hw, sor_empty.
  rewrite bool_decide_eq_false_2 by done.
  apply nonempty_true in Hfqn. rewrite Hfqn. simpl. set_solver.
Qed.

(** C3, as the code has it. A table node of the tree is passed over as a
    write target exactly when it is, by identity, the node in the target
    slot of an enclosing CREATE; or of an enclosing INSERT while no CREATE
    encloses it; or of an enclosing COPY while neither a CREATE nor an
    INSERT encloses it. A node so passed over adds nothing to the result;
    any other table node not named like a CTE adds its identifier. For
    [CREATE TABLE ds.x AS SELECT * FROM ds.y] the result holds [ds.y] and
    not [ds.x]. *)
Theorem write_target_excluded (tree : expression) (t : node) :
  node_at tree t.1 = Some t →
  (_is_write_target tree t = true ↔
     occupies_target_slot tree Create t
     ∨ (occupies_target_slot tree Insert t ∧ ¬ encloses tree Create t)
     ∨ (occupies_target_slot tree Copy t ∧ ¬ encloses tree Create t
        ∧ ¬ encloses tree Insert t))
  ∧ (_is_write_target tree t = true →
     ∀ ctes results, read_step tree ctes results t = results)
  ∧ (_is_write_target tree t = false →
     ∀ ctes results, name (texts_of t.2) ∉ ctes → _normalize_bq_table t ≠ "" →
                     _normalize_bq_table t ∈ read_step tree ctes results t)
  ∧ ("ds.x" ∉ read_tables tree_ctas) ∧ ("ds.y" ∈ read_tables tree_ctas).
Proof.
  intros Ht. split_and!.
  - by apply is_write_target_iff.
  - apply write_target_skipped.
  - intros Hw ctes results. by apply read_table_kept.
  - rewrite read_tables_ctas. set_solver.
  - rewrite read_tables_ctas. set_solver.
Qed.

Lemma write_target_excluded_witness :
  node_at tree_ctas ctas_target.1 = Some ctas_target ∧
  (_is_write_target tree_ctas ctas_target = true →
   ∀ ctes results, read_step tree_ctas ctes results ctas_target = results).
Proof.
  split; [reflexivity |].
  exact (proj1 (proj2 (write_target_excluded tree_ctas ctas_target eq_refl))).
Defined.

(** C3 as stated fails: in a CREATE whose body is an INSERT, the target
    of the INSERT is not passed over. *)
Lemma nested_insert_target_is_read :
  ¬ (∀ (tree : expression) (t : node),
       node_at tree t.1 = Some t → class_of t.2 = Table →
       (_is_write_target tree t = true ↔
          occupies_target_slot tree Create t ∨ occupies_target_slot tree Insert t
          ∨ occupies_target_slot tree Copy t)).
Proof.
  intros Hclaim.
  destruct (Hclaim tree_nested nested_insert_target eq_refl eq_refl) as [_ Hoccupied].
  assert (_is_write_target tree_nested nested_insert_target = true) as Hw; [| done].
  apply Hoccupied. right. left.
  by exists ([1], Node Insert no_texts (Some (table_ "" "ds" "x"))
                   [with_ "c" select_1; select_from (table_ "" "" "c")]).
Qed.

Lemma elem_of_collect_fold (l : list node) (acc : gset string) (x : string) :
  x ∈ foldl (λ (names : gset string) (cte : node),
               let al := alias (texts_of cte.2) in
               if nonempty al then names ∪ {[ al ]} else names) acc l
  ↔ x ∈ acc ∨ (x ≠ "" ∧ ∃ c, c ∈ l ∧ alias (texts_of c.2) = x).
Proof.
  revert acc. induction l as [| c l IH]; intros acc; simpl.
  - split; [by left | intros [? | (_ & c & ?%elem_of_nil & _)]; done].
  - rewrite IH. destruct (nonempty (alias (texts_of c.2))) eqn:Hne.
    + apply nonempty_true in Hne. rewrite elem_of_union, elem_of_singleton. split.
      * intros [[? | ->] | (? & c' & ? & ?)]; [by left | ..].
        -- right. split; [done |]. exists c. split; [by left | done].
        -- right. split; [done |]. exists c'. split; [by right | done].
      * intros [? | (? & c' & [-> | ?]%elem_of_cons & ?)]; [by left; left | ..].
        -- by left; right.
        -- right. split; [done |]. by exists c'.
    + apply not_true_iff_false in Hne. rewrite nonempty_true in Hne. split.
      * intros [? | (? & c' & ? & ?)]; [by left |].
        right. split; [done |]. exists c'. split; [by right | done].
      * intros [? | (Hx & c' & [-> | ?]%elem_of_cons & Hal)]; [by left | ..].
        -- destruct Hne. intros Hx'. apply Hx. by rewrite <- Hal.
        -- right. split; [done |]. by exists c'.
Qed.

Lemma elem_of_collect_cte_names (tree : expression) (x : string) :
  x ∈ _collect_cte_names tree ↔
  x ≠ "" ∧ ∃ c, c ∈ find_all tree CTE ∧ alias (texts_of c.2) = x.
Proof.
  unfold _collect_cte_names. rewrite elem_of_collect_fold.
  split; [intros [?%not_elem_of_empty | ?]; done | by right].
Qed.

Lemma normalize_unnamed (t : node) :
  name (texts_of t.2) = "" → _normalize_bq_table t = "".
Proof.
  intros Hname. unfold _normalize_bq_table. rewrite Hname.
  by rewrite orb_true_r.
Qed.

Lemma foldl_skip {A} (f : A → node → A) (h : handle) (l : list node) (r : A) :
  (∀ n, n ∈ l → n.1 = h → ∀ r', f r' n = r') →
  foldl f r l = foldl f r (filter (λ n, n.1 ≠ h) l).
Proof.
  revert r. induction l as [| n l IH]; intros r Hskip; [done |].
  simpl. destruct (decide (n.1 = h)) as [Heq | Hne].
  - rewrite filter_cons_False by (by intros ?).
    rewrite Hskip; [| by left | done]. apply IH.
    intros n' ?. apply Hskip. by right.
  - rewrite filter_cons_True by done. simpl. apply IH.
    intros n' ?. apply Hskip. by right.
Qed.

(** C4. A table node whose bare name is the alias of a CTE found anywhere
    in the statement adds nothing to the result: the round of the loop for
    it leaves the result as it was, and the extractor returns what it would
    return were the node not enumerated. *)
Theorem cte_named_table_excluded (tree : expression) (t c : node) :
  node_at tree t.1 = Some t → class_of t.2 = Table →
  node_at tree c.1 = Some c → class_of c.2 = CTE →
  name (texts_of t.2) = alias (texts_of c.2) →
  (∀ results, read_step tree (_collect_cte_names tree) results t = results)
  ∧ read_tables tree =
      foldl (read_step tree (_collect_cte_names tree)) ∅
            (filter (λ n, n.1 ≠ t.1) (find_all tree Table)).
Proof.
  intros Ht Htk Hc Hck Hname.
  assert (∀ results, read_step tree (_collect_cte_names tree) results t = results)
    as Hstep.
  { intros results. unfold read_step. rewrite sor_empty.
    destruct (decide (name (texts_of t.2) = "")) as [Hempty | Hfull].
    - rewrite (normalize_unnamed t Hempty). simpl.
      case_bool_decide; [done |]. by destruct (_is_write_target tree t).
    - rewrite bool_decide_eq_true_2; [done |].
      apply elem_of_collect_cte_names. split; [done |].
      exists c. split; [by apply elem_of_find_all | done]. }
  split; [done |]. unfold read_tables. apply foldl_skip.
  intros n [Hn _]%elem_of_find_all Hh results.
  rewrite Hh, Ht in Hn. injection Hn as <-. apply Hstep.
Qed.

Lemma cte_named_table_excluded_witness :
  node_at tree_cte cte_shadowed_table.1 = Some cte_shadowed_table ∧
  node_at tree_cte cte_b.1 = Some cte_b ∧
  ∀ results,
    read_step tree_cte (_collect_cte_names tree_cte) results cte_shadowed_table = results.
Proof.
  split; [reflexivity |]. split; [reflexivity |].
  exact (proj1 (cte_named_table_excluded tree_cte cte_shadowed_table cte_b
                  eq_refl eq_refl eq_refl eq_refl eq_refl)).
Defined.

(** ** The graph index *)

(** *** The loops of [_index_actions], round by round *)

Section IndexRounds.
Context `{Platform}.

Lemma target_to_fqn_ok (target : value) :
  target_ok target = true → _target_to_fqn target = Ok (fqn_of target).
Proof.
  unfold target_ok, _target_to_fqn, fqn_of, canonical.
  destruct (truthy target) eqn:Ht; simpl.
  - destruct target; try done. intros _. cbn.
    by destruct (nonempty _ && nonempty _).
  - intros _. destruct target as [| | | | | [| item items]]; try done.
Qed.

Lemma index_step_ok (st : index_state) (a : value) :
  action_ok a = true → index_step st a = Ok (index_round st a).
Proof.
  destruct a as [| | | | | items]; try done.
  intros [[Htarget _]%andb_prop _]%andb_prop.
  destruct st as [[bn n2f] bf]. unfold index_step, index_round. cbn.
  destruct (as_str _) as [n |]; [| done]. cbn in Htarget |- *.
  rewrite (target_to_fqn_ok _ Htarget). cbn.
  by destruct (as_str (dict_get items "fileName" VNone)).
Qed.

Lemma rfor_index_ok (acts : list value) (st : index_state) :
  forallb action_ok acts = true →
  rfor acts index_step st = Ok (foldl index_round st acts).
Proof.
  revert st. induction acts as [| a acts IH]; intros st; simpl; [done |].
  intros [Ha Hacts]%andb_prop. rewrite (index_step_ok st a Ha). cbn. by apply IH.
Qed.

Lemma source_step_ok (fqns : gset string) (src : value) :
  source_ok src = true → source_step fqns src = Ok (source_round fqns src).
Proof.
  destruct src as [| | | | | items]; try done. intros Htarget.
  unfold source_step, source_round. cbn. cbn in Htarget.
  rewrite (target_to_fqn_ok _ Htarget). cbn. by destruct (nonempty _).
Qed.

Lemma rfor_source_ok (srcs : list value) (fqns : gset string) :
  forallb source_ok srcs = true →
  rfor srcs source_step fqns = Ok (foldl source_round fqns srcs).
Proof.
  revert fqns. induction srcs as [| x srcs IH]; intros fqns; simpl; [done |].
  intros [Hx Hsrcs]%andb_prop. rewrite (source_step_ok fqns x Hx). cbn. by apply IH.
Qed.

(** On a well-shaped graph [_index_actions] returns, and returns this. *)
Lemma index_actions_ok (graph : list (string * value)) :
  well_shaped graph = true → _index_actions graph = Ok (index_of graph).
Proof.
  unfold well_shaped, _index_actions, index_of.
  fold (actions_of graph). fold (sources_of graph).
  intros [Hacts Hsrcs]%andb_prop.
  destruct (actions_of graph) as [| | | | acts |]; try done.
  destruct (sources_of graph) as [| | | | srcs |]; try done.
  cbn. rewrite (rfor_index_ok acts _ Hacts). cbn.
  destruct (foldl index_round _ acts) as [[bn n2f] bf]. cbn.
  by rewrite (rfor_source_ok srcs _ Hsrcs).
Qed.

(** Conversely, whenever the loops return, they return what the rounds
    give: a record or a target on which a round would differ makes the
    loop raise. *)
Lemma target_to_fqn_inv (target : value) (fqn : string) :
  _target_to_fqn target = Ok fqn → fqn = fqn_of target.
Proof.
  intros Hfqn. assert (target_ok target = true) as Hok.
  { unfold target_ok. destruct (truthy target) eqn:Ht; [| done]. simpl.
    unfold _target_to_fqn in Hfqn. rewrite Ht in Hfqn. by destruct target. }
  rewrite (target_to_fqn_ok target Hok) in Hfqn. by injection Hfqn.
Qed.

Lemma index_step_inv (st st' : index_state) (a : value) :
  index_step st a = Ok st' → st' = index_round st a.
Proof.
  destruct st as [[bn n2f] bf].
  destruct a as [| | | | | items]; try done.
  unfold index_step, index_round. cbn.
  destruct (as_str _) as [n |]; [| by intros [= <-]]. cbn.
  destruct (_target_to_fqn _) as [fqn |] eqn:Hfqn; [| done]. cbn.
  apply target_to_fqn_inv in Hfqn as ->.
  destruct (as_str (dict_get items "fileName" VNone)); by intros [= <-].
Qed.

Lemma rfor_index_inv (acts : list value) (st st' : index_state) :
  rfor acts index_step st = Ok st' → st' = foldl index_round st acts.
Proof.
  revert st. induction acts as [| a acts IH]; intros st; simpl; [by intros [= <-] |].
  destruct (index_step st a) as [st1 |] eqn:Hstep; [| done]. cbn.
  apply index_step_inv in Hstep as ->. apply IH.
Qed.

Lemma source_step_inv (fqns fqns' : gset string) (src : value) :
  source_step fqns src = Ok fqns' → fqns' = source_round fqns src.
Proof.
  destruct src as [| | | | | items]; try done.
  unfold source_step, source_round. cbn.
  destruct (_target_to_fqn _) as [fqn |] eqn:Hfqn; [| done]. cbn.
  apply target_to_fqn_inv in Hfqn as ->.
  destruct (nonempty _); by intros [= <-].
Qed.

Lemma rfor_source_inv (srcs : list value) (fqns fqns' : gset string) :
  rfor srcs source_step fqns = Ok fqns' → fqns' = foldl source_round fqns srcs.
Proof.
  revert fqns. induction srcs as [| x srcs IH]; intros fqns; simpl; [by intros [= <-] |].
  destruct (source_step fqns x) as [fqns1 |] eqn:Hstep; [| done]. cbn.
  apply source_step_inv in Hstep as ->. apply IH.
Qed.

(** A string or a dict in the place of the list of records is walked
    character by character or key by key, and the first of these makes the
    round raise. *)
Lemma iter_index_inv (v : value) (l : list value) (st st' : index_state) :
  iter v = Ok l → rfor l index_step st = Ok st' →
  st' = foldl index_round st (elements_of v).
Proof.
  destruct st as [[bn n2f] bf].
  destruct v as [| | | s | acts | items]; simpl; try done; intros [= <-].
  - destruct s; simpl; [by intros [= <-] | done].
  - apply rfor_index_inv.
  - destruct items; simpl; [by intros [= <-] | done].
Qed.

Lemma iter_source_inv (v : value) (l : list value) (fqns fqns' : gset string) :
  iter v = Ok l → rfor l source_step fqns = Ok fqns' →
  fqns' = foldl source_round fqns (elements_of v).
Proof.
  destruct v as [| | | s | srcs | items]; simpl; try done; intros [= <-].
  - destruct s; simpl; [by intros [= <-] | done].
  - apply rfor_source_inv.
  - destruct items; simpl; [by intros [= <-] | done].
Qed.

(** Whenever [_index_actions] returns, it returns this. *)
Lemma index_actions_inv (graph : list (string * value)) (ix : index) :
  _index_actions graph = Ok ix → ix = index_of graph.
Proof.
  unfold _index_actions, index_of.
  fold (actions_of graph). fold (sources_of graph). intros Hix.
  destruct (iter (actions_of graph)) as [acts |] eqn:Hacts; [| done]. cbn in Hix.
  destruct (rfor acts index_step _) as [[[bn n2f] bf] |] eqn:Hloop; [| done]. cbn in Hix.
  destruct (iter (sources_of graph)) as [srcs |] eqn:Hsrcs; [| done]. cbn in Hix.
  destruct (rfor srcs source_step _) as [fqns |] eqn:Hsloop; [| done]. cbn in Hix.
  injection Hix as <-.
  by rewrite <- (iter_index_inv _ _ _ _ Hacts Hloop),
             <- (iter_source_inv _ _ _ _ Hsrcs Hsloop).
Qed.

End IndexRounds.

Section IndexFacts.
Context `{Platform}.

Lemma index_round_by_name (st : index_state) (a : value) (n : string) :
  (index_round st a).1.1 !! n =
  if decide (action_name a = Some n) then Some a else st.1.1 !! n.
Proof.
  unfold index_round. destruct (action_name a) as [m |]; simpl.
  - destruct (decide _) as [Hm | Hm].
    + injection Hm as ->. apply lookup_insert_eq.
    + apply lookup_insert_ne. congruence.
  - done.
Qed.

Lemma index_round_fqn_other (st : index_state) (a : value) (n : string) :
  action_name a ≠ Some n → (index_round st a).1.2 !! n = st.1.2 !! n.
Proof.
  unfold index_round. destruct (action_name a) as [m |]; simpl; [| done].
  intros Hm. destruct (nonempty _); [| done]. apply lookup_insert_ne. congruence.
Qed.

Lemma index_round_fqn_named (st : index_state) (a : value) (n : string) :
  action_name a = Some n →
  (index_round st a).1.2 !! n =
  if nonempty (fqn_of (action_target a)) then Some (fqn_of (action_target a))
  else st.1.2 !! n.
Proof.
  unfold index_round. intros ->. simpl.
  destruct (nonempty _); [apply lookup_insert_eq | done].
Qed.

Lemma index_round_by_file (st : index_state) (a : value) (f n : string) :
  n ∈ default [] ((index_round st a).2 !! f) ↔
  n ∈ default [] (st.2 !! f) ∨ (action_name a = Some n ∧ action_file a = Some f).
Proof.
  unfold index_round. destruct (action_name a) as [m |]; simpl;
    [| split; [by left | by intros [? | [? _]]]].
  destruct (action_file a) as [g |]; simpl;
    [| split; [by left | by intros [? | [_ ?]]]].
  destruct (decide (g = f)) as [-> | Hg].
  - rewrite lookup_insert_eq. simpl. rewrite elem_of_app, list_elem_of_singleton.
    split; [intros [? | ->]; [by left | by right] |].
    intros [? | [[= ->] _]]; [by left | by right].
  - rewrite lookup_insert_ne by done.
    split; [by left | intros [? | [_ [= ?]]]; done].
Qed.

(** After the loop, [by_name] holds, under each name, a record of the
    graph bearing that name, and every named record has its name indexed. *)
Lemma by_name_sound (acts : list value) (n : string) (a : value) :
  (foldl index_round (∅, ∅, ∅) acts).1.1 !! n = Some a →
  a ∈ acts ∧ action_name a = Some n.
Proof.
  induction acts as [| x acts IH] using rev_ind; [done |].
  rewrite foldl_snoc, index_round_by_name. destruct (decide _) as [Hx | Hx].
  - intros [= ->]. split; [| done]. apply elem_of_app. right. by left.
  - intros [? ?]%IH. split; [| done]. apply elem_of_app. by left.
Qed.

Lemma by_name_complete (acts : list value) (n : string) (a : value) :
  a ∈ acts → action_name a = Some n →
  is_Some ((foldl index_round (∅, ∅, ∅) acts).1.1 !! n).
Proof.
  induction acts as [| x acts IH] using rev_ind; [by intros ?%elem_of_nil |].
  rewrite foldl_snoc, index_round_by_name. intros Hin Hn.
  case_decide; [by eauto |].
  apply elem_of_app in Hin as [Hin | ->%list_elem_of_singleton]; [by apply IH | done].
Qed.

(** After the loop, [by_file] lists under each file the names of the
    records of that file. *)
Lemma by_file_spec (acts : list value) (f n : string) :
  n ∈ default [] ((foldl index_round (∅, ∅, ∅) acts).2 !! f) ↔
  ∃ a, a ∈ acts ∧ action_name a = Some n ∧ action_file a = Some f.
Proof.
  induction acts as [| x acts IH] using rev_ind.
  - simpl. split; [by intros ?%elem_of_nil | by intros (? & ?%elem_of_nil & _)].
  - rewrite foldl_snoc, index_round_by_file, IH. split.
    + intros [(a & ? & ? & ?) | [? ?]].
      * exists a. split_and!; [| done..]. apply elem_of_app. by left.
      * exists x. split_and!; [| done..]. apply elem_of_app. right. by left.
    + intros (a & [? | ->%list_elem_of_singleton]%elem_of_app & ? & ?);
        [left; by exists a | by right].
Qed.

Lemma elem_of_to_check (bf : gmap string (list string)) (files : list string) (n : string) :
  n ∈ to_check_of bf files ↔ ∃ f, f ∈ files ∧ n ∈ default [] (bf !! f).
Proof.
  unfold to_check_of.
  assert (∀ acc : gset string,
            n ∈ foldl (λ (to_check : gset string) f,
                         match bf !! f with
                         | Some names => to_check ∪ list_to_set names
                         | None => to_check
                         end) acc files
            ↔ n ∈ acc ∨ ∃ f, f ∈ files ∧ n ∈ default [] (bf !! f)) as Hfold.
  { induction files as [| g files IH]; intros acc; simpl.
    - split; [by left | intros [? | (? & ?%elem_of_nil & _)]; done].
    - rewrite IH. destruct (bf !! g) as [names |] eqn:Hg.
      + rewrite elem_of_union, elem_of_list_to_set. split.
        * intros [[? | ?] | (f & ? & ?)]; [by left | right; exists g | right; exists f].
          -- rewrite Hg. split; [by left | done].
          -- split; [by right | done].
        * intros [? | (f & [-> | ?]%elem_of_cons & Hn)]; [by left; left | ..].
          -- rewrite Hg in Hn. by left; right.
          -- right. by exists f.
      + split.
        * intros [? | (f & ? & ?)]; [by left | right; exists f].
          split; [by right | done].
        * intros [? | (f & [-> | ?]%elem_of_cons & Hn)]; [by left | ..].
          -- rewrite Hg in Hn. by apply elem_of_nil in Hn.
          -- right. by exists f. }
  rewrite Hfold. split; [intros [?%not_elem_of_empty | ?]; done | by right].
Qed.

(** The names to check are those of the records sitting in the files. *)
Lemma to_check_spec (graph : list (string * value)) (files : list string) (n : string) :
  n ∈ to_check_of (by_file (index_of graph)) files ↔
  ∃ a f, a ∈ elements_of (actions_of graph) ∧ action_name a = Some n ∧
         action_file a = Some f ∧ f ∈ files.
Proof.
  rewrite elem_of_to_check. unfold index_of. simpl. split.
  - intros (f & Hf & (a & ? & ? & ?)%by_file_spec). by exists a, f.
  - intros (a & f & ? & ? & ? & ?). exists f. split; [done |].
    apply by_file_spec. by exists a.
Qed.

End IndexFacts.

Lemma by_name_untouched `{Platform} (acts : list value) (st : index_state) (n : string) :
  (∀ a, a ∈ acts → action_name a ≠ Some n) →
  (foldl index_round st acts).1.1 !! n = st.1.1 !! n.
Proof.
  revert st. induction acts as [| x acts IH]; intros st Hother; [done |].
  simpl. rewrite IH by (intros a ?; apply Hother; by right).
  rewrite index_round_by_name. rewrite decide_False; [done |]. apply Hother. by left.
Qed.

Lemma fqn_kept `{Platform} (acts : list value) (st : index_state) (n : string) :
  (∀ a, a ∈ acts → action_name a = Some n →
        nonempty (fqn_of (action_target a)) = false) →
  (foldl index_round st acts).1.2 !! n = st.1.2 !! n.
Proof.
  revert st. induction acts as [| x acts IH]; intros st Hkeep; [done |].
  simpl. rewrite IH by (intros a ?; apply Hkeep; by right).
  destruct (decide (action_name x = Some n)) as [Hx | Hx].
  - rewrite (index_round_fqn_named st x n Hx).
    by rewrite (Hkeep x (list_elem_of_here _ _) Hx).
  - by apply index_round_fqn_other.
Qed.

(** After the loop, [by_name] holds under each name the last record
    bearing it. *)
Lemma by_name_last `{Platform} (acts : list value) (n : string) (a : value) :
  (foldl index_round (∅, ∅, ∅) acts).1.1 !! n = Some a ↔ last_named acts n a.
Proof.
  split.
  - induction acts as [| x acts IH] using rev_ind; [done |].
    rewrite foldl_snoc, index_round_by_name. destruct (decide _) as [Hx | Hx].
    + intros [= ->]. exists acts, []. split_and!; [done.. |]. by intros a' ?%elem_of_nil.
    + intros (before & after & -> & Hn & Hlast)%IH.
      exists before, (after ++ [x]). split_and!; [by rewrite <- app_assoc | done |].
      intros a' [? | ->%list_elem_of_singleton]%elem_of_app; [by apply Hlast | done].
  - intros (before & after & -> & Hn & Hlast).
    rewrite foldl_app. simpl. rewrite by_name_untouched by done.
    rewrite index_round_by_name. by rewrite decide_True.
Qed.

Lemma dotted_nonempty (x y : string) : nonempty (x +:+ "." +:+ y) = true.
Proof. by destruct x. Qed.

(** C7, as the code has it. For an action record such that no other record
    of its name has a target with a schema and a table name, [name_to_fqn]
    has an entry under the name exactly when the record's target has a
    schema and a table name that are non-empty once backticks are stripped;
    the entry is [database.schema.name] when a database is present and
    [schema.name] otherwise; without a schema or without a table name there
    is no entry, database or not. *)
Theorem name_to_fqn_entry `{Platform} (graph : list (string * value)) (ix : index)
    (before after : list value) (a : value) (n : string) :
  _index_actions graph = Ok ix →
  actions_of graph = VList (before ++ a :: after) →
  action_name a = Some n →
  (∀ a', a' ∈ before ++ after → action_name a' = Some n →
         target_part (action_target a') "schema" = "" ∨
         target_part (action_target a') "name" = "") →
  (target_part (action_target a) "schema" ≠ "" →
   target_part (action_target a) "name" ≠ "" →
   target_part (action_target a) "database" ≠ "" →
   name_to_fqn ix !! n =
     Some (target_part (action_target a) "database" +:+ "." +:+
           target_part (action_target a) "schema" +:+ "." +:+
           target_part (action_target a) "name")) ∧
  (target_part (action_target a) "schema" ≠ "" →
   target_part (action_target a) "name" ≠ "" →
   target_part (action_target a) "database" = "" →
   name_to_fqn ix !! n =
     Some (target_part (action_target a) "schema" +:+ "." +:+
           target_part (action_target a) "name")) ∧
  (target_part (action_target a) "schema" = "" ∨
   target_part (action_target a) "name" = "" →
   name_to_fqn ix !! n = None).
Proof.
  intros ->%index_actions_inv Hacts Hname Hothers.
  assert (∀ l : list value, (∀ a', a' ∈ l → a' ∈ before ++ after) →
               ∀ a', a' ∈ l → action_name a' = Some n →
                     nonempty (fqn_of (action_target a')) = false) as Hkeep.
  { intros l Hl a' Hin Hn'. unfold fqn_of.
    destruct (Hothers a' (Hl a' Hin) Hn') as [-> | ->]; simpl; [done |].
    by rewrite andb_false_r. }
  assert (name_to_fqn (index_of graph) !! n =
          if nonempty (fqn_of (action_target a))
          then Some (fqn_of (action_target a)) else None) as ->.
  { unfold index_of. rewrite Hacts. simpl.
    rewrite foldl_app. simpl.
    rewrite fqn_kept by (apply Hkeep; intros a' ?; apply elem_of_app; by right).
    rewrite (index_round_fqn_named _ a n Hname).
    destruct (nonempty _); [done |].
    apply fqn_kept, Hkeep. intros a' ?. apply elem_of_app. by left. }
  unfold fqn_of, canonical.
  split_and!.
  - intros ->%nonempty_true ->%nonempty_true ->%nonempty_true. simpl.
    by rewrite dotted_nonempty.
  - intros ->%nonempty_true ->%nonempty_true ->. simpl.
    by rewrite dotted_nonempty.
  - intros [-> | ->]; simpl; [done |]. by rewrite andb_false_r.
Qed.

Lemma name_to_fqn_entry_witness :
  name_to_fqn (index_of (H := sample_platform VNone) graph_dup) !! "t" = Some "ds.t".
Proof.
  refine (proj1 (proj2 (name_to_fqn_entry (H := sample_platform VNone) graph_dup
                          (index_of (H := sample_platform VNone) graph_dup)
                          [] [record_second; record_nameless] record_first "t"
                          _ eq_refl eq_refl _)) _ _ _).
  - vm_compute. reflexivity.
  - intros a' Hin Hn. left. apply list_elem_of_In in Hin. simpl in Hin.
    destruct Hin as [<- | [<- | []]]; [reflexivity | discriminate Hn].
  - discriminate.
  - discriminate.
  - reflexivity.
Defined.

(** C7 as stated fails: of two records named [t], the second has no
    target, and [name_to_fqn] has an entry under [t] all the same, the one
    the first record made. *)
Lemma entry_under_name_of_record_without_target :
  ¬ (∀ (H : Platform) (graph : list (string * value)) (ix : index) (a : value) (n : string),
       _index_actions graph = Ok ix →
       a ∈ elements_of (actions_of graph) →
       action_name a = Some n →
       (is_Some (name_to_fqn ix !! n) ↔
        target_part (action_target a) "schema" ≠ "" ∧
        target_part (action_target a) "name" ≠ "")).
Proof.
  intros Hclaim.
  destruct (Hclaim (sample_platform VNone) graph_dup
              (index_of (H := sample_platform VNone) graph_dup) record_second "t")
    as [Hentry _].
  - vm_compute. reflexivity.
  - apply list_elem_of_In. simpl. tauto.
  - reflexivity.
  - destruct Hentry as [Hschema _]; [| by apply Hschema].
    exists "ds.t". vm_compute. reflexivity.
Qed.

(** ** The audit *)

Section Audit.
Context `{Platform}.

Lemma action_suspects_ok (ix : index) (a : value) :
  action_ok a = true → ∃ s, action_suspects ix a = Ok s.
Proof.
  destruct a as [| | | | | items]; try done.
  intros [[_ Hq]%andb_prop _]%andb_prop.
  unfold action_suspects, _action_query, _action_dependencies. cbn.
  destruct (or_ _ (VStr "")) as [| | | q | |]; try done.
  assert (∃ r, _extract_read_tables (VStr q) = Ok r) as [r ->].
  { unfold _extract_read_tables. destruct (negb _); [by eauto |].
    destruct (parse_one q); by eauto. }
  cbn. destruct (dict_get items "dependencies" VNone) as [| | | | l |]; cbn;
    try by eauto.
  destruct (all_str l); cbn; by eauto.
Qed.

Lemma elem_of_sorted (s : gset string) (n : string) : n ∈ sorted s ↔ n ∈ s.
Proof. unfold sorted. by rewrite merge_sort_Permutation, elem_of_elements. Qed.

(** Each name to check is indexed, under a well-shaped record. *)
Lemma to_check_indexed (graph : list (string * value)) (files : list string) (n : string) :
  well_shaped graph = true →
  n ∈ to_check_of (by_file (index_of graph)) files →
  ∃ a, by_name (index_of graph) !! n = Some a ∧ action_ok a = true.
Proof.
  intros Hshape (a' & f & Hin & Hname & _)%to_check_spec.
  destruct (by_name_complete _ n a' Hin Hname) as [a Ha].
  exists a. split; [done |].
  apply by_name_sound in Ha as [Ha _].
  apply andb_prop in Hshape as [Hacts _].
  destruct (actions_of graph) as [| | | | acts |]; try done.
  rewrite forallb_forall in Hacts. by apply Hacts, list_elem_of_In.
Qed.

(** The audit of a record returns whenever its query is a string and its
    file name, if any, is one. *)
Lemma action_suspects_returns (ix : index) (a : value) :
  auditable a = true → ∃ s, action_suspects ix a = Ok s.
Proof.
  destruct a as [| | | | | items]; try done.
  intros [Hq _]%andb_prop.
  unfold action_suspects, _action_query, _action_dependencies. cbn.
  destruct (or_ _ (VStr "")) as [| | | q | |]; try done.
  assert (∃ r, _extract_read_tables (VStr q) = Ok r) as [r ->].
  { unfold _extract_read_tables. destruct (negb _); [by eauto |].
    destruct (parse_one q); by eauto. }
  cbn. destruct (dict_get items "dependencies" VNone) as [| | | | l |]; cbn;
    try by eauto.
  destruct (all_str l); cbn; by eauto.
Qed.

Lemma audit_step_returns (ix : index) (n : string) (a : value) (b : bool) (out : list line) :
  by_name ix !! n = Some a → auditable a = true →
  ∃ out', audit_step ix b n out = (Ok (b || flagged ix n), out').
Proof.
  intros Ha Hok. unfold audit_step, flagged. rewrite Ha. simpl.
  destruct (action_suspects_returns ix a Hok) as [s Hs].
  destruct a as [| | | | | items]; try done.
  apply andb_prop in Hok as [_ Hfile].
  assert (∃ fp, or_ (dict_get items "fileName" VNone) (VStr n) = VStr fp) as [fp Hfp].
  { unfold or_. destruct (truthy _); [| by eauto]. simpl in Hfile.
    destruct (dict_get items "fileName" VNone); try done. by eauto. }
  assert (∃ d, _display_name (VStr fp) = Ok d) as [d Hd].
  { unfold _display_name. destruct (cwd_relative fp); by eauto. }
  unfold mbind, io_bind, lift, Py.get. rewrite Hfp, Hd, Hs.
  case_bool_decide; cbn.
  - rewrite orb_true_r. by eauto.
  - rewrite orb_false_r. by eauto.
Qed.

Lemma audit_loop_returns (ix : index) (l : list string) (b : bool) (out : list line) :
  (∀ n, n ∈ l → ∃ a, by_name ix !! n = Some a ∧ auditable a = true) →
  ∃ out', for_ l (audit_step ix) b out = (Ok (b || existsb (flagged ix) l), out').
Proof.
  revert b out. induction l as [| n l IH]; intros b out Hl; simpl.
  - rewrite orb_false_r. by eauto.
  - destruct (Hl n) as (a & Ha & Hok); [by left |].
    destruct (audit_step_returns ix n a b out Ha Hok) as [out1 Hstep].
    unfold mbind, io_bind. rewrite Hstep.
    destruct (IH (b || flagged ix n) out1) as [out2 ->];
      [intros m ?; apply Hl; by right |].
    rewrite orb_assoc. by eauto.
Qed.

(** The names to check are the audited names, each indexed under its
    audited record. *)
Lemma to_check_audited (graph : list (string * value)) (files : list string) (n : string) :
  n ∈ to_check_of (by_file (index_of graph)) files ↔
  ∃ a, by_name (index_of graph) !! n = Some a ∧ audited graph files n a.
Proof.
  rewrite to_check_spec. unfold audited. split.
  - intros (a' & f & Hin & Hname & Hfile & Hf).
    destruct (by_name_complete _ n a' Hin Hname) as [a Ha].
    exists a. split; [done |]. split; [by apply by_name_last | by exists a', f].
  - by intros (a & _ & _ & a' & f & ?); exists a', f.
Qed.

(** The status [run] returns once the index is built, when the audited
    records are auditable. *)
Lemma run_returns (graph : list (string * value)) (files : list string) :
  load_compiled_graph DEFAULT_GRAPH_PATH = Ok graph →
  _index_actions graph = Ok (index_of graph) →
  to_check_of (by_file (index_of graph)) files ≠ ∅ →
  (∀ n a, audited graph files n a → auditable a = true) →
  ∃ out,
    run files [] =
    (Ok (if existsb (flagged (index_of graph))
              (sorted (to_check_of (by_file (index_of graph)) files))
         then 1%Z else 0%Z), out).
Proof.
  intros Hload Hix Hsome Hok. unfold run. rewrite Hload.
  destruct (audit_loop_returns (index_of graph)
              (sorted (to_check_of (by_file (index_of graph)) files)) false [])
    as [out Hloop].
  { intros n (a & Ha & Haud)%elem_of_sorted%to_check_audited.
    exists a. split; [done |]. by apply (Hok n). }
  unfold mbind, io_bind, lift. rewrite Hix.
  cbv beta iota.
  rewrite (bool_decide_eq_false_2 (to_check_of (by_file (index_of graph)) files = ∅))
    by exact Hsome.
  rewrite Hloop. simpl. destruct (existsb _ _); by eauto.
Qed.

End Audit.

(** ** The result of a run *)

Lemma all_str_spec (l : list value) :
  all_str l = if forallb is_str l then Some (omap as_str l) else None.
Proof.
  induction l as [| v l IH]; [done |].
  simpl. rewrite IH. destruct v; simpl; try done. by destruct (forallb is_str l).
Qed.

Lemma action_dependencies_counted (a : value) (n : string) :
  action_name a = Some n → _action_dependencies a = Ok (counted_dependencies a).
Proof.
  destruct a as [| | | | | items]; try done. intros _.
  unfold _action_dependencies, counted_dependencies. cbn.
  destruct (dict_get items "dependencies" VNone) as [| | | | l |]; try done.
  rewrite all_str_spec. by destruct (forallb is_str l).
Qed.

Lemma flagged_iff `{Platform} (ix : index) (n : string) (a : value) :
  by_name ix !! n = Some a →
  flagged ix n = true ↔
  ∃ read deps I,
    action_reads a = Ok read ∧ _action_dependencies a = Ok deps ∧
    I ∈ read ∧ (I ∉ source_fqns ix) ∧
    ∀ d, d ∈ deps → name_to_fqn ix !! d ≠ Some I.
Proof.
  intros Ha. unfold flagged. rewrite Ha. simpl. split.
  - destruct (action_suspects ix a) as [s | e] eqn:Hs; [| done].
    intros Hne%bool_decide_eq_true.
    apply action_suspects_inv in Hs as (sql & parsed & depl & Hq & Hx & Hd & ->).
    apply set_choose_L in Hne as [I HI].
    apply elem_of_difference in HI as [Hread Hacc].
    exists parsed, depl, I. split_and!; try done.
    + unfold action_reads. by rewrite Hq.
    + intros ?. apply Hacc, elem_of_union. by right.
    + intros d Hd' Hfqn. apply Hacc, elem_of_union. left.
      apply elem_of_dep_fqns. exists d. split; [by apply elem_of_list_to_set | done].
  - intros (read & deps & I & Hreads & Hdeps & Hread & Hsrc & Hdep).
    unfold action_reads in Hreads. unfold action_suspects.
    destruct (_action_query a) as [sql |]; [| done]. cbn in Hreads |- *.
    rewrite Hreads. cbn. rewrite Hdeps. cbn.
    apply bool_decide_eq_true. intros Hempty.
    apply (not_elem_of_empty (C := gset string) I). rewrite <- Hempty.
    rewrite suspects_of_difference, elem_of_difference, elem_of_union.
    split; [done |]. intros [(d & Hd & Hfqn)%elem_of_dep_fqns | ?]; [| done].
    apply (Hdep d); [by apply elem_of_list_to_set in Hd | done].
Qed.

(** C1, as the code has it. On a graph that loads, whose index is built
    and whose audited records are auditable, with some indexed action
    sitting in one of the files given, [run] returns, with status 1 or 0.
    The status is 1 exactly when some audited record has a read reference
    that is neither the canonical identifier of one of its counted
    dependencies nor that of a declared source. The record audited under a
    name is the last record of the graph bearing it, audited when any
    record of that name sits in a file given; its dependencies count when
    every entry of the sequence is a string, and not at all otherwise. *)
Theorem run_fails_iff_suspects `{Platform} (graph : list (string * value))
    (files : list string) (ix : index) :
  load_compiled_graph DEFAULT_GRAPH_PATH = Ok graph →
  _index_actions graph = Ok ix →
  (∃ a n f, a ∈ elements_of (actions_of graph) ∧ action_name a = Some n ∧
            action_file a = Some f ∧ f ∈ files) →
  (∀ n a, audited graph files n a → auditable a = true) →
  ∃ rc out,
    run files [] = (Ok rc, out) ∧
    (rc = 1 ∨ rc = 0)%Z ∧
    (rc = 1%Z ↔
     ∃ n a read I,
       audited graph files n a ∧ action_reads a = Ok read ∧
       I ∈ read ∧ (I ∉ source_fqns ix) ∧
       ∀ d, d ∈ counted_dependencies a → name_to_fqn ix !! d ≠ Some I).
Proof.
  intros Hload Hix (a0 & n0 & f0 & Hscope) Hok.
  pose proof (index_actions_inv graph ix Hix) as ->.
  assert (to_check_of (by_file (index_of graph)) files ≠ ∅) as Hsome.
  { intros Hempty. apply (not_elem_of_empty (C := gset string) n0).
    rewrite <- Hempty. apply to_check_spec. by exists a0, f0. }
  destruct (run_returns graph files Hload Hix Hsome Hok) as [out Hrun].
  eexists _, out. split; [exact Hrun |].
  split; [destruct (existsb _ _); by eauto |].
  assert (existsb (flagged (index_of graph))
            (sorted (to_check_of (by_file (index_of graph)) files)) = true ↔
          ∃ n a read I,
            audited graph files n a ∧ action_reads a = Ok read ∧
            I ∈ read ∧ (I ∉ source_fqns (index_of graph)) ∧
            ∀ d, d ∈ counted_dependencies a →
                 name_to_fqn (index_of graph) !! d ≠ Some I) as <-.
  { rewrite existsb_exists. split.
    - intros (n & Hn%list_elem_of_In%elem_of_sorted & Hflag).
      apply to_check_audited in Hn as (a & Ha & Haud).
      destruct (proj1 (flagged_iff _ n a Ha) Hflag)
        as (read & deps & I & Hread & Hdeps & Hrest).
      destruct Haud as [Hlast Hfile]. pose proof Hlast as (_ & _ & _ & Hn & _).
      rewrite (action_dependencies_counted a n Hn) in Hdeps. injection Hdeps as <-.
      by exists n, a, read, I.
    - intros (n & a & read & I & Haud & Hread & Hrest).
      assert (by_name (index_of graph) !! n = Some a) as Ha
        by (apply by_name_last, Haud).
      destruct Haud as [Hlast Hfile]. pose proof Hlast as (_ & _ & _ & Hn & _).
      exists n. split.
      + apply list_elem_of_In, elem_of_sorted, to_check_audited. by exists a.
      + apply (flagged_iff _ n a Ha). exists read, (counted_dependencies a), I.
        split; [done |]. split; [by apply (action_dependencies_counted a n) | done]. }
  destruct (existsb _ _); split; done.
Qed.

Lemma run_fails_iff_suspects_witness :
  ∃ rc out,
    run (H := sample_platform graph_c) ["d.sqlx"] [] = (Ok rc, out) ∧
    (rc = 1 ∨ rc = 0)%Z.
Proof.
  destruct (run_fails_iff_suspects (H := sample_platform graph_c)
              [("actions", VList [action_ "d" "d.sqlx" (VList []) SQL_FROM_EXT])]
              ["d.sqlx"]
              (index_of (H := sample_platform graph_c)
                 [("actions", VList [action_ "d" "d.sqlx" (VList []) SQL_FROM_EXT])])
              eq_refl) as (rc & out & Hrun & Hrc & _).
  - vm_compute. reflexivity.
  - exists (action_ "d" "d.sqlx" (VList []) SQL_FROM_EXT), "d", "d.sqlx".
    split; [apply list_elem_of_In; simpl; tauto |].
    split; [reflexivity |]. split; [reflexivity |].
    apply list_elem_of_In. simpl. tauto.
  - intros n a [(before & after & Hacts & _) _].
    destruct before as [| x [| y before]]; simpl in Hacts.
    + injection Hacts as <- _. reflexivity.
    + injection Hacts as _ Hacts. discriminate Hacts.
    + injection Hacts as _ Hacts. discriminate Hacts.
  - exists rc, out. split; [exact Hrun | exact Hrc].
Defined.

(** C1 as stated fails, in three ways. A record whose query is a number
    makes the run raise, so that it returns no status. Of two records
    under one name, only the last is audited: the first, which sits in the
    file given and reads an undeclared table, is not, and the status is 0.
    And the names of a dependency sequence that holds a number are all set
    aside: the action that reads [ds.b] and lists [b] is flagged, and the
    status is 1. *)
Lemma run_status_not_by_record :
  ¬ status_by_record (H := sample_platform (VDict graph_numeric_query))
      graph_numeric_query ["a.sqlx"] ∧
  ¬ status_by_record (H := sample_platform (VDict graph_shadowed))
      graph_shadowed ["one.sqlx"] ∧
  ¬ status_by_record (H := sample_platform graph_mixed) graph_mixed_items ["a.sqlx"].
Proof.
  split_and!; intros Hclaim.
  - destruct Hclaim as (ix & rc & out & _ & Hrun & _); [reflexivity | |].
    + exists (VDict [("name", VStr "a"); ("fileName", VStr "a.sqlx"); ("query", VInt 5)]),
             "a", "a.sqlx".
      split_and!; [| reflexivity | reflexivity |]; apply list_elem_of_In; simpl; tauto.
    + vm_compute in Hrun. discriminate Hrun.
  - destruct Hclaim as (ix & rc & out & Hix & Hrun & _ & Hiff); [reflexivity | |].
    + exists record_dirty, "t", "one.sqlx".
      split_and!; [| reflexivity | reflexivity |]; apply list_elem_of_In; simpl; tauto.
    + assert (rc = 0%Z) as -> by (vm_compute in Hrun; by injection Hrun as <-).
      assert (0%Z = 1%Z) as Hone; [| discriminate Hone].
      apply Hiff. exists record_dirty, "t", "one.sqlx", {[ "ext_ds.missing_dep" ]}.
      split_and!; [| reflexivity | reflexivity | | vm_compute; reflexivity |].
      * apply list_elem_of_In. simpl. tauto.
      * apply list_elem_of_In. simpl. tauto.
      * apply index_actions_inv in Hix as ->.
        intros Hempty. apply (not_elem_of_empty (C := gset string) "ext_ds.missing_dep").
        rewrite <- Hempty. vm_compute. reflexivity.
  - destruct Hclaim as (ix & rc & out & Hix & Hrun & _ & Hiff); [reflexivity | |].
    + exists action_a_mixed, "a", "a.sqlx".
      split_and!; [| reflexivity | reflexivity |]; apply list_elem_of_In; simpl; tauto.
    + assert (rc = 1%Z) as -> by (vm_compute in Hrun; by injection Hrun as <-).
      apply index_actions_inv in Hix as ->.
      destruct (proj1 Hiff eq_refl) as (a & n & f & read & Hin & _ & _ & _ & Hread & Hne).
      apply Hne. apply list_elem_of_In in Hin. simpl in Hin.
      destruct Hin as [<- | [<- | []]];
        vm_compute in Hread; injection Hread as <-; vm_compute; reflexivity.
Qed.

Lemma nothing_message_distinct `{Platform} :
  _c GREEN ("✅ " +:+ MSG_NOTHING) ≠ _c GREEN ("✅ " +:+ MSG_OK) ∧
  _c GREEN ("✅ " +:+ MSG_NOTHING) ≠ _c GREEN ("✅ " +:+ MSG_ALL_PASSED).
Proof. unfold _c. destruct color; split; intros Heq; vm_compute in Heq; discriminate Heq. Qed.

(** C8, as the code has it. On a graph that loads and whose index is
    built, when no indexed action sits in any of the files given, [run]
    returns status 0 and prints one line, the "nothing to check" notice,
    whose text is neither the summary of a passing audit nor the printer's
    default summary. *)
Theorem nothing_to_check `{Platform} (graph : list (string * value))
    (files : list string) (ix : index) :
  load_compiled_graph DEFAULT_GRAPH_PATH = Ok graph →
  _index_actions graph = Ok ix →
  (¬ ∃ a n f, a ∈ elements_of (actions_of graph) ∧ action_name a = Some n ∧
              action_file a = Some f ∧ f ∈ files) →
  run files [] = (Ok 0%Z, [Line Stdout (_c GREEN ("✅ " +:+ MSG_NOTHING))]) ∧
  (footer_ok MSG_OK []).2 = [Line Stdout (_c GREEN ("✅ " +:+ MSG_OK))] ∧
  _c GREEN ("✅ " +:+ MSG_NOTHING) ≠ _c GREEN ("✅ " +:+ MSG_OK) ∧
  _c GREEN ("✅ " +:+ MSG_NOTHING) ≠ _c GREEN ("✅ " +:+ MSG_ALL_PASSED).
Proof.
  intros Hload Hix Hnone.
  pose proof (index_actions_inv graph ix Hix) as ->.
  assert (to_check_of (by_file (index_of graph)) files = ∅) as Hempty.
  { apply set_eq. intros n. split; [| by intros ?%not_elem_of_empty].
    intros (a & f & ?)%to_check_spec. destruct Hnone. by exists a, n, f. }
  split; [| split; [reflexivity | apply nothing_message_distinct]].
  unfold run. rewrite Hload. unfold mbind, io_bind, lift.
  rewrite Hix. cbv beta iota.
  rewrite Hempty. reflexivity.
Qed.

Lemma nothing_to_check_witness :
  run (H := sample_platform graph_c) ["other.sqlx"] [] =
  (Ok 0%Z, [Line Stdout ("✅ " +:+ MSG_NOTHING)]).
Proof.
  refine (proj1 (nothing_to_check (H := sample_platform graph_c)
                   [("actions", VList [action_ "d" "d.sqlx" (VList []) SQL_FROM_EXT])]
                   ["other.sqlx"]
                   (index_of (H := sample_platform graph_c)
                      [("actions", VList [action_ "d" "d.sqlx" (VList []) SQL_FROM_EXT])])
                   eq_refl _ _)).
  - vm_compute. reflexivity.
  - intros (a & n & f & Ha & _ & Hf & Hin).
    apply list_elem_of_In in Ha. simpl in Ha. destruct Ha as [<- | []].
    injection Hf as <-.
    apply list_elem_of_In in Hin. simpl in Hin. destruct Hin as [Hin | []].
    discriminate Hin.
Defined.

(** C8 as stated fails: a graph that loads and holds a record that is not
    an object makes the run raise before any file is looked at, although no
    indexed action sits in the file given. *)
Lemma nothing_to_check_raises :
  ¬ (∀ (H : Platform) (graph : list (string * value)) (files : list string),
       load_compiled_graph DEFAULT_GRAPH_PATH = Ok graph →
       (¬ ∃ a n f, a ∈ elements_of (actions_of graph) ∧ action_name a = Some n ∧
                   action_file a = Some f ∧ f ∈ files) →
       ∃ out, run files [] = (Ok 0%Z, out)).
Proof.
  intros Hclaim.
  destruct (Hclaim (sample_platform (VDict graph_bad_record)) graph_bad_record
              ["b.sqlx"] eq_refl) as [out Hrun].
  - intros (a & n & f & Ha & Hn & Hf & Hin).
    apply list_elem_of_In in Hin. simpl in Hin. destruct Hin as [<- | []].
    apply list_elem_of_In in Ha. simpl in Ha.
    destruct Ha as [<- | [<- | []]]; discriminate.
  - vm_compute in Hrun. discriminate Hrun.
Qed.

Lemma to_check_same_files (bf : gmap string (list string)) (files1 files2 : list string) :
  (∀ f, f ∈ files1 ↔ f ∈ files2) →
  to_check_of bf files1 = to_check_of bf files2.
Proof.
  intros Hsame. apply set_eq. intros n. rewrite !elem_of_to_check.
  split; intros (f & Hf & Hn); exists f; (split; [by apply Hsame | done]).
Qed.

(** C10. Two file lists with the same members, in whatever order and
    however often repeated, give the same run: the same status and the same
    lines printed in the same order. *)
Theorem run_same_files `{Platform} (files1 files2 : list string) (out : list line) :
  (∀ f, f ∈ files1 ↔ f ∈ files2) →
  run files1 out = run files2 out.
Proof.
  intros Hsame. unfold run.
  destruct (load_compiled_graph DEFAULT_GRAPH_PATH) as [graph | e]; [| done].
  unfold mbind, io_bind, lift.
  destruct (_index_actions graph) as [ix | e]; [| done]. cbv beta iota.
  by rewrite (to_check_same_files (by_file ix) files1 files2 Hsame).
Qed.

Lemma run_same_files_witness :
  run (H := sample_platform graph_b) ["a.sqlx"; "b.sqlx"; "a.sqlx"] [] =
  run (H := sample_platform graph_b) ["b.sqlx"; "a.sqlx"] [].
Proof.
  apply (run_same_files (H := sample_platform graph_b)).
  intros f. rewrite !elem_of_cons. pose proof (elem_of_nil f). tauto.
Defined.

(** * Further properties of the check *)

(** ** What the extractor returns *)

Lemma normalize_named (t : node) :
  _normalize_bq_table t ≠ "" → name (texts_of t.2) ≠ "".
Proof. intros Hfqn Hname. by apply Hfqn, normalize_unnamed. Qed.

Lemma elem_of_read_fold (tree : expression) (ctes : gset string)
    (l : list node) (acc : gset string) (x : string) :
  x ∈ foldl (read_step tree ctes) acc l ↔
  x ∈ acc ∨ ∃ t, t ∈ l ∧ (name (texts_of t.2) ∉ ctes) ∧
                 _is_write_target tree t = false ∧
                 _normalize_bq_table t = x ∧ x ≠ "".
Proof.
  revert acc. induction l as [| t l IH]; intros acc; simpl.
  - split; [by left | intros [? | (? & ?%elem_of_nil & _)]; done].
  - rewrite IH. unfold read_step. rewrite sor_empty.
    case_bool_decide as Hcte.
    { split; [intros [? | (t' & ? & ?)]; [by left | right; exists t'] |].
      - split; [by right | done].
      - intros [? | (t' & [-> | ?]%elem_of_cons & Hn & ?)]; [by left | done |].
        right. by exists t'. }
    destruct (_is_write_target tree t) eqn:Hw.
    { split; [intros [? | (t' & ? & ?)]; [by left | right; exists t'] |].
      - split; [by right | done].
      - intros [? | (t' & [-> | ?]%elem_of_cons & ? & Hw' & ?)]; [by left | congruence |].
        right. by exists t'. }
    destruct (nonempty (_normalize_bq_table t)) eqn:Hne; simpl.
    + apply nonempty_true in Hne. rewrite elem_of_union, elem_of_singleton. split.
      * intros [[? | ->] | (t' & ? & ?)]; [by left | right; exists t | right; exists t'].
        -- split; [by left | done].
        -- split; [by right | done].
      * intros [? | (t' & [-> | ?]%elem_of_cons & ? & ? & <- & ?)];
          [by left; left | by left; right |].
        right. by exists t'.
    + apply not_true_iff_false in Hne. rewrite nonempty_true in Hne. split.
      * intros [? | (t' & ? & ?)]; [by left | right; exists t'].
        split; [by right | done].
      * intros [? | (t' & [-> | ?]%elem_of_cons & ? & ? & Hx & Hx')]; [by left | ..].
        -- destruct Hne. by rewrite Hx.
        -- right. by exists t'.
Qed.

(** X1. The extractor returns exactly the normalised identifiers of the
    table nodes of the tree that no CTE of the statement names, that are
    not write targets, and that have a dataset and a name; the empty
    identifier is never returned. *)
Theorem read_tables_spec (tree : expression) (x : string) :
  x ∈ read_tables tree ↔
  ∃ t, node_at tree t.1 = Some t ∧ class_of t.2 = Table ∧
       (¬ ∃ c, node_at tree c.1 = Some c ∧ class_of c.2 = CTE ∧
               alias (texts_of c.2) = name (texts_of t.2)) ∧
       _is_write_target tree t = false ∧
       _normalize_bq_table t = x ∧ x ≠ "".
Proof.
  unfold read_tables. rewrite elem_of_read_fold. split.
  - intros [?%not_elem_of_empty | (t & [Ht Hk]%elem_of_find_all & Hcte & Hw & Hx & Hne)];
      [done |].
    exists t. split_and!; try done.
    intros (c & Hc & Hck & Hal). apply Hcte, elem_of_collect_cte_names.
    split; [apply normalize_named; by rewrite Hx |].
    exists c. split; [by apply elem_of_find_all | done].
  - intros (t & Ht & Hk & Hcte & Hw & Hx & Hne). right. exists t.
    split_and!; try done; [by apply elem_of_find_all |].
    intros (_ & c & [Hc Hck]%elem_of_find_all & Hal)%elem_of_collect_cte_names.
    apply Hcte. by exists c.
Qed.

(** ** Targets and table nodes agree *)

(** X2. A target and a table node with the same three parts are given the
    same canonical identifier: the target's database, schema and name
    (each taken as empty when missing or null) against the node's catalog,
    db and name. *)
Theorem target_and_table_agree `{Platform} (items : list (string * value))
    (c d n al : string) (h : handle) (th : option expression) (rest : list expression) :
  or_ (dict_get items "database" VNone) (VStr "") = VStr c →
  or_ (dict_get items "schema" VNone) (VStr "") = VStr d →
  or_ (dict_get items "name" VNone) (VStr "") = VStr n →
  _target_to_fqn (VDict items) = Ok (_normalize_bq_table (table_node h c d n al th rest)).
Proof.
  intros Hc Hd Hn. unfold _target_to_fqn, _normalize_bq_table, table_node.
  destruct items as [| item items].
  - cbn in Hc, Hd, Hn. injection Hc as <-. injection Hd as <-. by injection Hn as <-.
  - change (truthy (VDict (item :: items))) with true.
    cbv beta iota delta [negb mbind res_bind Py.get].
    rewrite Hc, Hd, Hn. unfold str. cbv beta iota. rewrite !sor_empty.
    cbn [texts_of snd catalog db name].
    by destruct (nonempty (strip_backticks d)), (nonempty (strip_backticks n)).
Qed.

Lemma target_and_table_agree_witness :
  _target_to_fqn (H := sample_platform VNone)
    (VDict [("schema", VStr "`ds`"); ("name", VStr "tbl")])
  = Ok "ds.tbl".
Proof.
  exact (target_and_table_agree (H := sample_platform VNone)
           [("schema", VStr "`ds`"); ("name", VStr "tbl")]
           "" "`ds`" "tbl" "" [] None [] eq_refl eq_refl eq_refl).
Defined.

(** ** More on the graph index *)

Lemma rfor_app {A S} (l1 l2 : list A) (body : S → A → res S) (s : S) :
  rfor (l1 ++ l2) body s = rfor l1 body s ≫= rfor l2 body.
Proof.
  revert s. induction l1 as [| x l1 IH]; intros s; simpl; [done |].
  destruct (body s x); simpl; [apply IH | done].
Qed.

(** X3. When several records bear one name, [by_name] holds the last of
    them. *)
Theorem by_name_last_wins `{Platform} (graph : list (string * value))
    (before after : list value) (a : value) (n : string) :
  well_shaped graph = true →
  actions_of graph = VList (before ++ a :: after) →
  action_name a = Some n →
  (∀ a', a' ∈ after → action_name a' ≠ Some n) →
  ∃ ix, _index_actions graph = Ok ix ∧ by_name ix !! n = Some a.
Proof.
  intros Hshape Hacts Hname Hlast.
  exists (index_of graph). split; [by apply index_actions_ok |].
  unfold index_of. rewrite Hacts. simpl. rewrite foldl_app. simpl.
  rewrite by_name_untouched by done.
  rewrite index_round_by_name. by rewrite decide_True.
Qed.

Lemma by_name_last_wins_witness :
  ∃ ix, _index_actions (H := sample_platform VNone) graph_dup = Ok ix ∧
        by_name ix !! "t" = Some record_second.
Proof.
  apply (by_name_last_wins (H := sample_platform VNone) graph_dup
           [record_first] [record_nameless] record_second "t" eq_refl eq_refl eq_refl).
  intros a' Hin. apply list_elem_of_In in Hin. simpl in Hin.
  destruct Hin as [<- | []]. discriminate.
Defined.

(** X4. [name_to_fqn] is not last-write-wins: the identifier of a record
    stays under its name when the later records of that name have no schema
    or no table name, although [by_name] then holds a later record. *)
Theorem name_to_fqn_keeps_last_valid `{Platform} (graph : list (string * value))
    (before after : list value) (a : value) (n : string) :
  well_shaped graph = true →
  actions_of graph = VList (before ++ a :: after) →
  action_name a = Some n →
  target_part (action_target a) "schema" ≠ "" →
  target_part (action_target a) "name" ≠ "" →
  (∀ a', a' ∈ after → action_name a' = Some n →
         target_part (action_target a') "schema" = "" ∨
         target_part (action_target a') "name" = "") →
  ∃ ix, _index_actions graph = Ok ix ∧
        name_to_fqn ix !! n = Some (canonical (action_target a)).
Proof.
  intros Hshape Hacts Hname Hds Htbl Hlater.
  exists (index_of graph). split; [by apply index_actions_ok |].
  unfold index_of. rewrite Hacts. simpl. rewrite foldl_app. simpl.
  rewrite fqn_kept.
  - rewrite (index_round_fqn_named _ a n Hname). unfold fqn_of.
    apply nonempty_true in Hds, Htbl. rewrite Hds, Htbl. simpl.
    unfold canonical. destruct (nonempty (target_part _ "database"));
      by rewrite dotted_nonempty.
  - intros a' Hin Hn'. unfold fqn_of.
    destruct (Hlater a' Hin Hn') as [-> | ->]; simpl; [done |].
    by rewrite andb_false_r.
Qed.

Lemma name_to_fqn_keeps_last_valid_witness :
  ∃ ix, _index_actions (H := sample_platform VNone) graph_dup = Ok ix ∧
        name_to_fqn ix !! "t" = Some "ds.t".
Proof.
  apply (name_to_fqn_keeps_last_valid (H := sample_platform VNone) graph_dup
           [] [record_second; record_nameless] record_first "t"
           eq_refl eq_refl eq_refl); [discriminate | discriminate |].
  intros a' Hin Hn. left. apply list_elem_of_In in Hin. simpl in Hin.
  destruct Hin as [<- | [<- | []]]; [reflexivity | discriminate Hn].
Defined.

Lemma names_in_file_snoc (f : string) (acts : list value) (x : value) :
  names_in_file f (acts ++ [x]) =
  names_in_file f acts ++
  match action_name x, action_file x with
  | Some n, Some g => if decide (g = f) then [n] else []
  | _, _ => []
  end.
Proof.
  unfold names_in_file. rewrite omap_app. f_equal. simpl.
  destruct (action_name x), (action_file x); try done. by case_decide.
Qed.

Lemma by_file_fold `{Platform} (acts : list value) (f : string) :
  (foldl index_round (∅, ∅, ∅) acts).2 !! f =
  match names_in_file f acts with
  | [] => None
  | names => Some names
  end.
Proof.
  induction acts as [| x acts IH] using rev_ind; [done |].
  rewrite foldl_snoc, names_in_file_snoc.
  destruct (foldl index_round (∅, ∅, ∅) acts) as [[bn n2f] bf]. simpl in IH.
  unfold index_round.
  destruct (action_name x) as [n |]; simpl; [| by rewrite app_nil_r].
  destruct (action_file x) as [g |]; simpl; [| by rewrite app_nil_r].
  destruct (decide (g = f)) as [-> | Hg].
  - rewrite lookup_insert_eq, IH.
    by destruct (names_in_file f acts).
  - rewrite lookup_insert_ne by done. by rewrite app_nil_r.
Qed.

(** X5. [by_file] maps a file to the names of the named records of that
    file, in the order of the graph and with repetitions; a file without
    such a record has no entry. *)
Theorem by_file_lists_names_in_order `{Platform} (graph : list (string * value))
    (acts : list value) :
  well_shaped graph = true →
  actions_of graph = VList acts →
  ∃ ix, _index_actions graph = Ok ix ∧
        ∀ f, by_file ix !! f = match names_in_file f acts with
                               | [] => None
                               | names => Some names
                               end.
Proof.
  intros Hshape Hacts.
  exists (index_of graph). split; [by apply index_actions_ok |].
  intros f. unfold index_of. rewrite Hacts. simpl. apply by_file_fold.
Qed.

Lemma by_file_lists_names_in_order_witness :
  ∃ ix, _index_actions (H := sample_platform VNone) graph_dup = Ok ix ∧
        by_file ix !! "one.sqlx" = Some ["t"] ∧ by_file ix !! "three.sqlx" = None.
Proof.
  destruct (by_file_lists_names_in_order (H := sample_platform VNone) graph_dup
              [record_first; record_second; record_nameless] eq_refl eq_refl)
    as (ix & Hix & Hfile).
  exists ix. split; [exact Hix |]. split; [exact (Hfile "one.sqlx") | exact (Hfile "three.sqlx")].
Defined.

Lemma elem_of_source_fold `{Platform} (srcs : list value) (acc : gset string) (x : string) :
  x ∈ foldl source_round acc srcs ↔
  x ∈ acc ∨ (x ≠ "" ∧ ∃ items, VDict items ∈ srcs ∧
               fqn_of (or_ (dict_get items "target" VNone) (VDict [])) = x).
Proof.
  revert acc. induction srcs as [| src srcs IH]; intros acc; simpl.
  - split; [by left | intros [? | (_ & ? & ?%elem_of_nil & _)]; done].
  - rewrite IH. clear IH.
    assert (∀ P : Prop,
              ((x ≠ "" ∧ ∃ items, VDict items ∈ src :: srcs ∧
                  fqn_of (or_ (dict_get items "target" VNone) (VDict [])) = x) ↔
               (x ≠ "" ∧ ∃ items, VDict items ∈ srcs ∧
                  fqn_of (or_ (dict_get items "target" VNone) (VDict [])) = x) ∨ P) →
              (x ∈ acc ∨ P ∨ (x ≠ "" ∧ ∃ items, VDict items ∈ srcs ∧
                  fqn_of (or_ (dict_get items "target" VNone) (VDict [])) = x)) ↔
              (x ∈ acc ∨ (x ≠ "" ∧ ∃ items, VDict items ∈ src :: srcs ∧
                  fqn_of (or_ (dict_get items "target" VNone) (VDict [])) = x))) as Hsplit
      by (intros P ->; tauto).
    destruct src as [| | | | | items];
      try (rewrite <- (Hsplit False); [tauto |]; split;
           [intros (? & it & [[=] | ?]%elem_of_cons & ?); left; eauto
           | intros [(? & it & ? & ?) | []]; split; [done |];
             exists it; split; [by right | done]]).
    simpl. destruct (nonempty _) eqn:Hne.
    + apply nonempty_true in Hne. rewrite elem_of_union, elem_of_singleton.
      rewrite <- (Hsplit (x = fqn_of (or_ (dict_get items "target" VNone) (VDict [])))); [tauto |].
      split.
      * intros (? & it & [[= <-] | ?]%elem_of_cons & ?); [by right | left; eauto].
      * intros [(? & it & ? & ?) | ->]; (split; [done |]).
        -- exists it. split; [by right | done].
        -- exists items. split; [by left | done].
    + apply not_true_iff_false in Hne. rewrite nonempty_true in Hne.
      rewrite <- (Hsplit False); [tauto |]. split.
      * intros (Hx & it & [[= <-] | ?]%elem_of_cons & Hfqn); [| left; eauto].
        destruct Hne. by rewrite Hfqn.
      * intros [(? & it & ? & ?) | []]. split; [done |].
        exists it. split; [by right | done].
Qed.

(** X6. [source_fqns] holds exactly the non-empty identifiers
    [_target_to_fqn] gives the targets of the source records; a source
    without a usable target adds nothing. *)
Theorem source_fqns_spec `{Platform} (graph : list (string * value))
    (srcs : list value) :
  well_shaped graph = true →
  sources_of graph = VList srcs →
  ∃ ix, _index_actions graph = Ok ix ∧
        ∀ x, x ∈ source_fqns ix ↔
             x ≠ "" ∧ ∃ items, VDict items ∈ srcs ∧
               _target_to_fqn (or_ (dict_get items "target" VNone) (VDict [])) = Ok x.
Proof.
  intros Hshape Hsrcs.
  exists (index_of graph). split; [by apply index_actions_ok |].
  intros x. unfold index_of. rewrite Hsrcs. simpl. rewrite elem_of_source_fold.
  apply andb_prop in Hshape as [_ Hok]. rewrite Hsrcs in Hok.
  rewrite forallb_forall in Hok.
  assert (∀ items, VDict items ∈ srcs →
            _target_to_fqn (or_ (dict_get items "target" VNone) (VDict [])) =
            Ok (fqn_of (or_ (dict_get items "target" VNone) (VDict [])))) as Hfqn.
  { intros items Hin. apply target_to_fqn_ok.
    by apply (Hok (VDict items)), list_elem_of_In. }
  split.
  - intros [?%not_elem_of_empty | (Hx & items & Hin & <-)]; [done |].
    split; [done |]. exists items. split; [done | by apply Hfqn].
  - intros (Hx & items & Hin & Hto). right. split; [done |].
    exists items. split; [done |]. rewrite (Hfqn items Hin) in Hto. by injection Hto.
Qed.

Lemma source_fqns_spec_witness :
  ∃ ix, _index_actions (H := sample_platform VNone) graph_dup = Ok ix ∧
        ("ext.src" ∈ source_fqns ix).
Proof.
  destruct (source_fqns_spec (H := sample_platform VNone) graph_dup
              [VDict [("target", target_ "ext" "src")]; VDict []] eq_refl eq_refl)
    as (ix & Hix & Hspec).
  exists ix. split; [exact Hix |]. apply Hspec. split; [discriminate |].
  exists [("target", target_ "ext" "src")]. split; [| reflexivity].
  apply list_elem_of_In. simpl. tauto.
Defined.

Lemma index_step_nameless `{Platform} (st : index_state) (items : list (string * value)) :
  action_name (VDict items) = None → index_step st (VDict items) = Ok st.
Proof.
  intros Hname. destruct st as [[bn n2f] bf]. unfold index_step. cbn.
  simpl in Hname. by rewrite Hname.
Qed.

(** X7. A record that is an object without a string name (or id) is
    skipped whole: the index of a graph is the index of the graph without
    the record, whatever else the record holds. *)
Theorem nameless_record_skipped `{Platform} (graph1 graph2 : list (string * value))
    (before after : list value) (items : list (string * value)) :
  action_name (VDict items) = None →
  actions_of graph1 = VList (before ++ VDict items :: after) →
  actions_of graph2 = VList (before ++ after) →
  sources_of graph1 = sources_of graph2 →
  _index_actions graph1 = _index_actions graph2.
Proof.
  intros Hname H1 H2 Hsrc. unfold _index_actions.
  fold (actions_of graph1). fold (actions_of graph2).
  fold (sources_of graph1). fold (sources_of graph2).
  rewrite H1, H2, Hsrc. cbn [iter mbind res_bind].
  rewrite !rfor_app. cbn [rfor].
  destruct (rfor before index_step (∅, ∅, ∅)) as [st |]; [| done].
  cbn [mbind res_bind]. by rewrite (index_step_nameless st items Hname).
Qed.

Lemma nameless_record_skipped_witness :
  _index_actions (H := sample_platform VNone) graph_dup =
  _index_actions (H := sample_platform VNone)
    [("tables", VList [record_first; record_second]);
     ("sources", VList [VDict [("target", target_ "ext" "src")]; VDict []])].
Proof.
  exact (nameless_record_skipped (H := sample_platform VNone) graph_dup
           [("tables", VList [record_first; record_second]);
            ("sources", VList [VDict [("target", target_ "ext" "src")]; VDict []])]
           [record_first; record_second] []
           [("fileName", VStr "one.sqlx"); ("query", VStr SQL_SELECT_1)]
           eq_refl eq_refl eq_refl eq_refl).
Defined.

(** ** Shapes that make the check raise *)

Lemma target_to_fqn_raise `{Platform} (target : value) (e : exn) :
  _target_to_fqn target = Raise e → e = AttributeError.
Proof.
  unfold _target_to_fqn. destruct (negb (truthy target)); [done |].
  destruct target; cbn; try (by intros [= <-]).
  by destruct (negb _).
Qed.

Lemma index_step_raise `{Platform} (st : index_state) (a : value) (e : exn) :
  index_step st a = Raise e → e = AttributeError.
Proof.
  destruct st as [[bn n2f] bf]. unfold index_step.
  destruct a as [| | | | | items]; cbn; try (by intros [= <-]).
  destruct (as_str _); [| done].
  destruct (_target_to_fqn _) as [fqn | e'] eqn:Hfqn; cbn.
  - by destruct (as_str (dict_get items "fileName" VNone)).
  - intros [= <-]. by apply target_to_fqn_raise in Hfqn.
Qed.

Lemma rfor_index_raise `{Platform} (acts : list value) (st : index_state) :
  (∃ a, a ∈ acts ∧ is_dict a = false) →
  rfor acts index_step st = Raise AttributeError.
Proof.
  revert st. induction acts as [| x acts IH]; intros st (a & Hin & Ha).
  - by apply elem_of_nil in Hin.
  - simpl. destruct (index_step st x) as [st' | e] eqn:Hstep; cbn.
    + apply IH. apply elem_of_cons in Hin as [-> | Hin]; [| by eauto].
      destruct st as [[bn n2f] bf]. by destruct x.
    + by rewrite (index_step_raise st x e Hstep).
Qed.

(** X8. A record of the graph that is not an object is fatal: the index
    cannot be built and [run] raises [AttributeError], printing nothing,
    whichever files are given. *)
Theorem non_object_record_raises `{Platform} (graph : list (string * value))
    (acts : list value) (a : value) (files : list string) (out : list line) :
  load_compiled_graph DEFAULT_GRAPH_PATH = Ok graph →
  actions_of graph = VList acts →
  a ∈ acts → is_dict a = false →
  _index_actions graph = Raise AttributeError ∧
  run files out = (Raise AttributeError, out).
Proof.
  intros Hload Hacts Hin Ha.
  assert (_index_actions graph = Raise AttributeError) as Hix.
  { unfold _index_actions. fold (actions_of graph). rewrite Hacts.
    cbn [iter mbind res_bind]. rewrite rfor_index_raise; [done | by eauto]. }
  split; [done |]. unfold run. rewrite Hload.
  unfold mbind, io_bind, lift. by rewrite Hix.
Qed.

Lemma non_object_record_raises_witness :
  run (H := sample_platform (VDict graph_bad_record)) ["b.sqlx"] [] =
  (Raise AttributeError, []).
Proof.
  refine (proj2 (non_object_record_raises (H := sample_platform (VDict graph_bad_record))
                   graph_bad_record [action_a; VStr "oops"] (VStr "oops")
                   ["b.sqlx"] [] eq_refl eq_refl _ eq_refl)).
  apply list_elem_of_In. simpl. tauto.
Defined.

(** X9. A [sources] key holding [null] is fatal, unlike a missing key:
    once the actions are indexed the loop over the sources raises
    [TypeError], and so does [run]. *)
Theorem null_sources_raises `{Platform} (graph : list (string * value))
    (acts : list value) (files : list string) (out : list line) :
  load_compiled_graph DEFAULT_GRAPH_PATH = Ok graph →
  actions_of graph = VList acts →
  forallb action_ok acts = true →
  lookup_item "sources" graph = Some VNone →
  _index_actions graph = Raise TypeError ∧
  run files out = (Raise TypeError, out).
Proof.
  intros Hload Hacts Hok Hsrc.
  assert (_index_actions graph = Raise TypeError) as Hix.
  { unfold _index_actions. fold (actions_of graph). rewrite Hacts.
    cbn [iter mbind res_bind]. rewrite (rfor_index_ok acts _ Hok).
    cbn [mbind res_bind].
    destruct (foldl index_round _ acts) as [[bn n2f] bf].
    unfold dict_get. by rewrite Hsrc. }
  split; [done |]. unfold run. rewrite Hload.
  unfold mbind, io_bind, lift. by rewrite Hix.
Qed.

Lemma null_sources_raises_witness :
  run (H := sample_platform (VDict graph_null_sources)) ["a.sqlx"] [] =
  (Raise TypeError, []).
Proof.
  exact (proj2 (null_sources_raises (H := sample_platform (VDict graph_null_sources))
                  graph_null_sources [action_a] ["a.sqlx"] []
                  eq_refl eq_refl eq_refl eq_refl)).
Defined.

(** ** Dependencies and the accounted set *)

(** X10. A dependencies list made of strings only is returned as it is,
    in order and with its repetitions. *)
Theorem dependencies_all_strings (items : list (string * value)) (names : list string) :
  dict_get items "dependencies" VNone = VList (VStr <$> names) →
  _action_dependencies (VDict items) = Ok names.
Proof.
  intros Hdeps. unfold _action_dependencies, Py.get.
  cbn [mbind res_bind]. rewrite Hdeps. cbv beta iota. by rewrite all_str_strings.
Qed.

Lemma dependencies_all_strings_witness :
  _action_dependencies (VDict [("dependencies", VList [VStr "b"; VStr "a"; VStr "b"])]) =
  Ok ["b"; "a"; "b"].
Proof.
  exact (dependencies_all_strings
           [("dependencies", VList [VStr "b"; VStr "a"; VStr "b"])] ["b"; "a"; "b"] eq_refl).
Defined.

(** X11. Declaring more can only clear suspects: with more entries in
    [name_to_fqn] and more declared sources, the suspects of an action are
    among those it had before. *)
Theorem more_declared_fewer_suspects `{Platform} (ix ix' : index) (a : value)
    (s s' : gset string) :
  name_to_fqn ix ⊆ name_to_fqn ix' →
  source_fqns ix ⊆ source_fqns ix' →
  action_suspects ix a = Ok s →
  action_suspects ix' a = Ok s' →
  s' ⊆ s.
Proof.
  intros Hfqn Hsrc Hs Hs'.
  apply action_suspects_inv in Hs as (sql & parsed & depl & Hq & Hx & Hd & ->).
  apply action_suspects_inv in Hs' as (sql' & parsed' & depl' & Hq' & Hx' & Hd' & ->).
  rewrite Hq in Hq'. injection Hq' as <-.
  rewrite Hx in Hx'. injection Hx' as <-.
  rewrite Hd in Hd'. injection Hd' as <-.
  intros x. rewrite !elem_of_difference, !elem_of_union, !elem_of_dep_fqns.
  intros [Hin Hnot]. split; [done |].
  intros [(d & Hdin & Hl) | Hs]; apply Hnot.
  - left. exists d. split; [done |]. by eapply lookup_weaken.
  - right. by apply Hsrc.
Qed.

Lemma more_declared_fewer_suspects_witness :
  (∅ : gset string) ⊆ {[ "ds.b" ]}.
Proof.
  apply (more_declared_fewer_suspects (H := sample_platform graph_b)
           (Index ∅ ∅ ∅ ∅) index_b action_a {[ "ds.b" ]} ∅).
  - apply map_empty_subseteq.
  - apply empty_subseteq.
  - vm_compute. reflexivity.
  - vm_compute. reflexivity.
Defined.

(** ** What a run prints *)

Section Output.
Context `{Platform}.

Lemma display_name_ok (items : list (string * value)) (n : string) :
  action_ok (VDict items) = true →
  _display_name (or_ (dict_get items "fileName" VNone) (VStr n)) =
  Ok (display_of (VDict items) n).
Proof.
  intros [_ Hfile]%andb_prop. unfold display_of, action_file, or_.
  destruct (dict_get items "fileName" VNone) as [| | | f | |] eqn:Hfn;
    simpl in Hfile |- *; try done;
    try (by destruct (cwd_relative n));
    try (apply orb_prop in Hfile as [Hfile | Hfile]; [| done];
         apply negb_true_iff in Hfile; rewrite Hfile; simpl;
         by destruct (cwd_relative n)).
  unfold nonempty. destruct (negb (String.eqb f "")); simpl;
    [by destruct (cwd_relative f) | by destruct (cwd_relative n)].
Qed.

Lemma audit_step_out (ix : index) (n : string) (a : value) (b : bool) (out : list line) :
  by_name ix !! n = Some a → action_ok a = true →
  audit_step ix b n out = (Ok (b || flagged ix n), out ++ findings ix n).
Proof.
  intros Ha Hok. unfold audit_step, flagged, findings. rewrite Ha. simpl default.
  destruct (action_suspects_ok ix a Hok) as [s Hs].
  destruct a as [| | | | | items]; try done.
  unfold mbind, io_bind, lift, Py.get.
  rewrite (display_name_ok items n Hok), Hs.
  case_bool_decide; cbn.
  - by rewrite orb_true_r.
  - by rewrite orb_false_r, app_nil_r.
Qed.

Lemma audit_loop_out (ix : index) (l : list string) (b : bool) (out : list line) :
  (∀ n, n ∈ l → ∃ a, by_name ix !! n = Some a ∧ action_ok a = true) →
  for_ l (audit_step ix) b out =
  (Ok (b || existsb (flagged ix) l), out ++ concat (findings ix <$> l)).
Proof.
  revert b out. induction l as [| n l IH]; intros b out Hl; simpl.
  - by rewrite orb_false_r, app_nil_r.
  - destruct (Hl n) as (a & Ha & Hok); [by left |].
    unfold mbind, io_bind. rewrite (audit_step_out ix n a b out Ha Hok).
    rewrite IH by (intros m ?; apply Hl; by right).
    by rewrite orb_assoc, app_assoc.
Qed.

(** The whole of a run on a well-shaped graph with something to check. *)
Lemma run_output (graph : list (string * value)) (files : list string) :
  load_compiled_graph DEFAULT_GRAPH_PATH = Ok graph →
  well_shaped graph = true →
  to_check_of (by_file (index_of graph)) files ≠ ∅ →
  run files [] =
  let names := sorted (to_check_of (by_file (index_of graph)) files) in
  let failed := existsb (flagged (index_of graph)) names in
  (Ok (if failed then 1%Z else 0%Z),
   concat (findings (index_of graph) <$> names) ++
   [if failed then Line Stderr (_c RED ("❌ " +:+ MSG_FAIL))
    else Line Stdout (_c GREEN ("✅ " +:+ MSG_OK))]).
Proof.
  intros Hload Hshape Hsome. unfold run. rewrite Hload.
  unfold mbind, io_bind, lift. rewrite (index_actions_ok graph Hshape).
  cbv beta iota.
  rewrite (bool_decide_eq_false_2 (to_check_of (by_file (index_of graph)) files = ∅))
    by exact Hsome.
  rewrite audit_loop_out
    by (intros n ?%elem_of_sorted; by apply (to_check_indexed graph files)).
  simpl. by destruct (existsb _ _).
Qed.

Lemma run_output_nothing (graph : list (string * value)) (files : list string) :
  load_compiled_graph DEFAULT_GRAPH_PATH = Ok graph →
  well_shaped graph = true →
  to_check_of (by_file (index_of graph)) files = ∅ →
  run files [] = (Ok 0%Z, [Line Stdout (_c GREEN ("✅ " +:+ MSG_NOTHING))]).
Proof.
  intros Hload Hshape Hempty. unfold run. rewrite Hload.
  unfold mbind, io_bind, lift. rewrite (index_actions_ok graph Hshape).
  cbv beta iota. rewrite Hempty. reflexivity.
Qed.

Lemma findings_stderr (ix : index) (n : string) :
  Forall (λ l, to l = Stderr) (findings ix n).
Proof.
  unfold findings. destruct (action_suspects ix _); [| done].
  case_bool_decide; [| done]. by repeat constructor.
Qed.

Lemma findings_flagged (ix : index) (n : string) :
  flagged ix n = false → findings ix n = [].
Proof.
  unfold flagged, findings. destruct (action_suspects ix _); [| done].
  by intros ->.
Qed.

End Output.

(** X12. On a well-shaped graph with something to check, a run prints, for
    the names to check in ascending order, one line on standard error for
    each action with suspects and nothing for the others, and then exactly
    one summary line: the failure notice on standard error with status 1
    when some action had suspects, the success notice on standard output
    with status 0 otherwise. *)
Theorem run_prints_findings_then_summary `{Platform} (graph : list (string * value))
    (files : list string) :
  load_compiled_graph DEFAULT_GRAPH_PATH = Ok graph →
  well_shaped graph = true →
  (∃ a n f, a ∈ elements_of (actions_of graph) ∧ action_name a = Some n ∧
            action_file a = Some f ∧ f ∈ files) →
  ∃ ix names,
    _index_actions graph = Ok ix ∧
    Sorted String.le names ∧ names ≡ₚ elements (to_check_of (by_file ix) files) ∧
    run files [] =
    (Ok (if existsb (flagged ix) names then 1%Z else 0%Z),
     concat (findings ix <$> names) ++
     [if existsb (flagged ix) names then Line Stderr (_c RED ("❌ " +:+ MSG_FAIL))
      else Line Stdout (_c GREEN ("✅ " +:+ MSG_OK))]).
Proof.
  intros Hload Hshape (a0 & n0 & f0 & Hscope).
  assert (to_check_of (by_file (index_of graph)) files ≠ ∅) as Hsome.
  { intros Hempty. apply (not_elem_of_empty (C := gset string) n0).
    rewrite <- Hempty. apply to_check_spec. by exists a0, f0. }
  exists (index_of graph), (sorted (to_check_of (by_file (index_of graph)) files)).
  split; [by apply index_actions_ok |].
  split; [apply Sorted_merge_sort, _ |].
  split; [apply merge_sort_Permutation |].
  by apply run_output.
Qed.

Lemma run_prints_findings_then_summary_witness :
  ∃ ix names,
    _index_actions (H := sample_platform graph_c)
      [("actions", VList [action_ "d" "d.sqlx" (VList []) SQL_FROM_EXT])] = Ok ix ∧
    Sorted String.le names ∧ names ≡ₚ elements (to_check_of (by_file ix) ["d.sqlx"]).
Proof.
  destruct (run_prints_findings_then_summary (H := sample_platform graph_c)
              [("actions", VList [action_ "d" "d.sqlx" (VList []) SQL_FROM_EXT])]
              ["d.sqlx"] eq_refl eq_refl) as (ix & names & Hix & Hsorted & Hperm & _).
  - exists (action_ "d" "d.sqlx" (VList []) SQL_FROM_EXT), "d", "d.sqlx".
    split; [apply list_elem_of_In; simpl; tauto |].
    split; [reflexivity |]. split; [reflexivity |].
    apply list_elem_of_In. simpl. tauto.
  - exists ix, names. split; [exact Hix | split; [exact Hsorted | exact Hperm]].
Defined.

(** X13. On a well-shaped graph that loads, the stream tells the status: a
    run that returns 0 writes to standard output only, a run that returns 1
    to standard error only, and either way it prints at least its summary
    line. *)
Theorem run_streams_follow_status `{Platform} (graph : list (string * value))
    (files : list string) :
  load_compiled_graph DEFAULT_GRAPH_PATH = Ok graph →
  well_shaped graph = true →
  ∃ rc out,
    run files [] = (Ok rc, out) ∧ out ≠ [] ∧
    (rc = 0%Z ∧ Forall (λ l, to l = Stdout) out ∨
     rc = 1%Z ∧ Forall (λ l, to l = Stderr) out).
Proof.
  intros Hload Hshape.
  destruct (decide (to_check_of (by_file (index_of graph)) files = ∅)) as [Hempty | Hsome].
  - eexists _, _. split; [by apply (run_output_nothing graph) |].
    split; [done |]. left. split; [done |]. by repeat constructor.
  - eexists _, _. split; [by apply (run_output graph) |]. cbv zeta.
    split; [by intros [_ ?]%app_eq_nil |].
    destruct (existsb _ _) eqn:Hany.
    + right. split; [done |]. apply Forall_app. split; [| by repeat constructor].
      apply Forall_concat, Forall_fmap, Forall_forall. intros n _. apply findings_stderr.
    + left. split; [done |]. apply Forall_app. split; [| by repeat constructor].
      apply Forall_concat, Forall_fmap, Forall_forall. intros n Hn. simpl.
      rewrite findings_flagged; [done |].
      destruct (flagged (index_of graph) n) eqn:Hflag; [| done].
      assert (existsb (flagged (index_of graph))
                (sorted (to_check_of (by_file (index_of graph)) files)) = true) as Hex.
      { apply existsb_exists. exists n. split; [by apply list_elem_of_In | done]. }
      congruence.
Qed.

Lemma run_streams_follow_status_witness :
  ∃ rc out,
    run (H := sample_platform graph_c) ["d.sqlx"] [] = (Ok rc, out) ∧ out ≠ [].
Proof.
  destruct (run_streams_follow_status (H := sample_platform graph_c)
              [("actions", VList [action_ "d" "d.sqlx" (VList []) SQL_FROM_EXT])]
              ["d.sqlx"] eq_refl eq_refl) as (rc & out & Hrun & Hne & _).
  exists rc, out. split; [exact Hrun | exact Hne].
Defined.

(** X14. When the graph file is missing, cannot be read, does not decode
    as JSON or decodes to something other than an object, [run] returns 1
    after one line on standard error, whichever files are given; when its
    bytes are not UTF-8 the error is not caught and [run] raises. *)
Theorem run_graph_load_failure `{Platform} (files : list string) (out : list line) :
  (read_text DEFAULT_GRAPH_PATH = FileNotFound ∨
   (∃ e, read_text DEFAULT_GRAPH_PATH = OSError e) ∨
   (∃ t, read_text DEFAULT_GRAPH_PATH = Text t ∧
         ∀ graph, json_loads t ≠ inr (VDict graph)) →
   ∃ msg, run files out = (Ok 1%Z, out ++ [Line Stderr (_c RED ("❌ " +:+ msg))])) ∧
  (read_text DEFAULT_GRAPH_PATH = Undecodable →
   run files out = (Raise UnicodeDecodeError, out)).
Proof.
  unfold run, load_compiled_graph. split.
  - intros [-> | [[e ->] | (t & -> & Hbad)]]; [by eauto | by eauto |].
    destruct (json_loads t) as [e | v] eqn:Hv; [by eauto |].
    destruct v; try (by eauto). by destruct (Hbad items).
  - by intros ->.
Qed.

Lemma run_graph_load_failure_witness :
  ∃ msg, run (H := sample_platform (VList [])) ["a.sqlx"] [] =
         (Ok 1%Z, [Line Stderr ("❌ " +:+ msg)]).
Proof.
  apply (proj1 (run_graph_load_failure (H := sample_platform (VList [])) ["a.sqlx"] [])).
  right. right. exists "". split; [reflexivity |]. intros graph. discriminate.
Defined.

(** ** The changed-file list *)

Lemma normalize_part_normal (st : gset string * list string) (part : string) :
  normal_state st → normal_state (normalize_part st part).
Proof.
  intros [Hnd Hseen]. unfold normalize_part.
  destruct (nonempty (strip part)) eqn:Hne; simpl; [| done].
  case_bool_decide as Hin; simpl; [done |].
  split; simpl.
  - apply NoDup_app. split_and!; [done | | apply NoDup_singleton].
    intros x Hx ->%list_elem_of_singleton. by apply Hin, Hseen.
  - intros x. rewrite elem_of_union, elem_of_singleton, elem_of_app,
      list_elem_of_singleton, Hseen. tauto.
Qed.

Lemma normalize_raw_normal (st : gset string * list string) (raw : string) :
  normal_state st → normal_state (normalize_raw st raw).
Proof.
  intros Hst. unfold normalize_raw. destruct (negb (nonempty raw)); [done |].
  revert st Hst. induction (split_comma raw) as [| p ps IH]; intros st Hst; [done |].
  simpl. by apply IH, normalize_part_normal.
Qed.

Lemma normalize_fold_normal (files : list string) (st : gset string * list string) :
  normal_state st → normal_state (foldl normalize_raw st files).
Proof.
  revert st. induction files as [| raw files IH]; intros st Hst; [done |].
  simpl. by apply IH, normalize_raw_normal.
Qed.

Lemma normalize_part_elem (st : gset string * list string) (part x : string) :
  normal_state st →
  x ∈ (normalize_part st part).2 ↔ x ∈ st.2 ∨ (x ≠ "" ∧ x = strip part).
Proof.
  intros [_ Hseen]. unfold normalize_part.
  destruct (nonempty (strip part)) eqn:Hne; simpl.
  - apply nonempty_true in Hne. case_bool_decide as Hin; simpl.
    + apply Hseen in Hin. split; [by left | intros [? | [_ ->]]; done].
    + rewrite elem_of_app, list_elem_of_singleton.
      split; [intros [? | ->]; [by left | by right] | intros [? | [_ ->]]; [by left | by right]].
  - apply not_true_iff_false in Hne. rewrite nonempty_true in Hne.
    split; [by left | intros [? | [Hx ->]]; [done |]]. by destruct Hne.
Qed.

Lemma normalize_parts_elem (parts : list string) (st : gset string * list string) (x : string) :
  normal_state st →
  x ∈ (foldl normalize_part st parts).2 ↔
  x ∈ st.2 ∨ (x ≠ "" ∧ ∃ part, part ∈ parts ∧ x = strip part).
Proof.
  revert st. induction parts as [| p ps IH]; intros st Hst; simpl.
  - split; [by left | intros [? | (_ & ? & ?%elem_of_nil & _)]; done].
  - rewrite IH by (by apply normalize_part_normal).
    rewrite normalize_part_elem by done. split.
    + intros [[? | [? ->]] | (? & part & ? & ->)]; [by left | right | right];
        (split; [done |]); [exists p | exists part]; (split; [| done]);
        [by left | by right].
    + intros [? | (? & part & [-> | ?]%elem_of_cons & ->)];
        [by left; left | by left; right |].
      right. split; [done |]. by exists part.
Qed.

Lemma split_comma_empty : split_comma "" = [""].
Proof. reflexivity. Qed.

Lemma strip_empty : strip "" = "".
Proof. reflexivity. Qed.

Lemma normalize_raw_elem (st : gset string * list string) (raw x : string) :
  normal_state st →
  x ∈ (normalize_raw st raw).2 ↔
  x ∈ st.2 ∨ (x ≠ "" ∧ ∃ part, part ∈ split_comma raw ∧ x = strip part).
Proof.
  intros Hst. unfold normalize_raw.
  destruct (nonempty raw) eqn:Hraw; simpl; [by apply normalize_parts_elem |].
  apply not_true_iff_false in Hraw. rewrite nonempty_true in Hraw.
  assert (raw = "") as -> by (by destruct (decide (raw = ""))).
  split; [by left | intros [? | (Hx & part & Hin & ->)]; [done |]].
  rewrite split_comma_empty in Hin. apply list_elem_of_singleton in Hin as ->.
  by rewrite strip_empty in Hx.
Qed.

Lemma normalize_fold_elem (files : list string) (st : gset string * list string) (x : string) :
  normal_state st →
  x ∈ (foldl normalize_raw st files).2 ↔
  x ∈ st.2 ∨ (x ≠ "" ∧ ∃ raw part, raw ∈ files ∧ part ∈ split_comma raw ∧ x = strip part).
Proof.
  revert st. induction files as [| raw files IH]; intros st Hst; simpl.
  - split; [by left | intros [? | (_ & ? & ? & ?%elem_of_nil & _)]; done].
  - rewrite IH by (by apply normalize_raw_normal).
    rewrite normalize_raw_elem by done. split.
    + intros [[? | (? & part & ? & ->)] | (? & raw' & part & ? & ? & ->)];
        [by left | right | right]; (split; [done |]).
      * exists raw, part. split_and!; [by left | done | done].
      * exists raw', part. split_and!; [by right | done | done].
    + intros [? | (? & raw' & part & [-> | ?]%elem_of_cons & ? & ->)];
        [by left; left | left; right | right].
      * split; [done |]. by exists part.
      * split; [done |]. by exists raw', part.
Qed.

Lemma normal_state_start : normal_state (∅, []).
Proof.
  split; [apply NoDup_nil_2 |]. intros x. simpl.
  split; [by intros ?%not_elem_of_empty | by intros ?%elem_of_nil].
Qed.

(** X15. [normalize_changed_files] returns, without repetition, exactly
    the non-empty texts obtained by cutting the entries at commas and
    stripping the white space around each piece. *)
Theorem normalize_changed_files_spec (files : list string) :
  NoDup (normalize_changed_files files) ∧
  ∀ x, x ∈ normalize_changed_files files ↔
       x ≠ "" ∧ ∃ raw part, raw ∈ files ∧ part ∈ split_comma raw ∧ x = strip part.
Proof.
  unfold normalize_changed_files. split.
  - apply (normalize_fold_normal files _ normal_state_start).
  - intros x. rewrite (normalize_fold_elem files _ x normal_state_start). simpl.
    split; [intros [?%elem_of_nil | ?]; done | by right].
Qed.

Lemma normalize_part_ahead (base : list string) (st0 st1 : gset string * list string)
    (part : string) :
  normal_state st0 → normal_state st1 → ahead base st0 st1 →
  ahead base (normalize_part st0 part) (normalize_part st1 part).
Proof.
  intros [_ Hseen0] [_ Hseen1] Hahead. unfold ahead in *. unfold normalize_part.
  destruct (nonempty (strip part)); simpl; [| done].
  assert (strip part ∈ st1.1 ↔ strip part ∈ base ∨ strip part ∈ st0.1) as Hin1.
  { rewrite Hseen1, Hahead, elem_of_app, list_elem_of_filter, Hseen0.
    destruct (decide (strip part ∈ base)); tauto. }
  destruct (bool_decide (strip part ∈ st0.1)) eqn:H0; simpl.
  - apply bool_decide_eq_true in H0.
    rewrite bool_decide_eq_true_2 by (apply Hin1; by right). done.
  - apply bool_decide_eq_false in H0.
    destruct (decide (strip part ∈ base)) as [Hb | Hb].
    + rewrite bool_decide_eq_true_2 by (apply Hin1; by left). simpl.
      rewrite filter_app, filter_cons_False, filter_nil, app_nil_r by (by intros ?).
      done.
    + rewrite bool_decide_eq_false_2 by (rewrite Hin1; tauto). simpl.
      rewrite filter_app, filter_cons_True, filter_nil by done.
      by rewrite Hahead, <- app_assoc.
Qed.

Lemma normalize_raw_ahead (base : list string) (st0 st1 : gset string * list string)
    (raw : string) :
  normal_state st0 → normal_state st1 → ahead base st0 st1 →
  ahead base (normalize_raw st0 raw) (normalize_raw st1 raw).
Proof.
  unfold normalize_raw. destruct (negb (nonempty raw)); [done |].
  revert st0 st1. induction (split_comma raw) as [| p ps IH]; intros st0 st1 H0 H1 Ha;
    [done |].
  simpl. apply IH; [by apply normalize_part_normal.. | by apply normalize_part_ahead].
Qed.

Lemma normalize_fold_ahead (base : list string) (files : list string)
    (st0 st1 : gset string * list string) :
  normal_state st0 → normal_state st1 → ahead base st0 st1 →
  ahead base (foldl normalize_raw st0 files) (foldl normalize_raw st1 files).
Proof.
  revert st0 st1. induction files as [| raw files IH]; intros st0 st1 H0 H1 Ha; [done |].
  simpl. apply IH; [by apply normalize_raw_normal.. | by apply normalize_raw_ahead].
Qed.

(** X16. First-seen order: the normal form of a list followed by another is
    the normal form of the first, followed by what the normal form of the
    second adds to it. *)
Theorem normalize_changed_files_app (files1 files2 : list string) :
  normalize_changed_files (files1 ++ files2) =
  normalize_changed_files files1 ++
  filter (λ x, x ∉ normalize_changed_files files1) (normalize_changed_files files2).
Proof.
  unfold normalize_changed_files. rewrite foldl_app.
  apply (normalize_fold_ahead _ files2 (∅, []) (foldl normalize_raw (∅, []) files1)).
  - apply normal_state_start.
  - apply normalize_fold_normal, normal_state_start.
  - unfold ahead. simpl. by rewrite filter_nil, app_nil_r.
Qed.

Example normalize_changed_files_ex :
  normalize_changed_files ["b.sqlx, a.sqlx"; ""; " a.sqlx ,,c.sqlx"] =
  ["b.sqlx"; "a.sqlx"; "c.sqlx"].
Proof. vm_compute. reflexivity. Qed.

(** ** The runner *)

Section RunnerFacts.
Context `{Shell}.

Lemma load_config_ok (path : option string) (out : list line) :
  ∃ out', _load_config path out = (Ok (config_at path), out').
Proof.
  unfold _load_config, config_at. destruct path as [p |]; [| by eauto].
  destruct (negb (nonempty p)); [by eauto |].
  destruct (load_config_file p); by eauto.
Qed.

Lemma warn_unknown_ok (CHECKS : gmap string check) (what : string)
    (names : list string) (out : list line) :
  ∃ out', warn_unknown CHECKS what names out = (Ok (), out').
Proof.
  unfold warn_unknown. generalize (filter (λ c, CHECKS !! c = None) names).
  intros l. revert out. induction l as [| c l IH]; intros out; simpl; [by eauto |].
  unfold mbind, io_bind, print. apply IH.
Qed.

Lemma known_empty (CHECKS : gmap string check) : known CHECKS [] = ∅.
Proof. reflexivity. Qed.

Lemma elem_of_known (CHECKS : gmap string check) (names : list string) (c : string) :
  c ∈ known CHECKS names ↔ c ∈ names ∧ is_Some (CHECKS !! c).
Proof. unfold known. rewrite elem_of_list_to_set, list_elem_of_filter. tauto. Qed.

Lemma selection_known (CHECKS : gmap string check) (include exclude : list string)
    (c : string) :
  c ∈ selection CHECKS include exclude → is_Some (CHECKS !! c).
Proof.
  unfold selection. intros [Hin _]%elem_of_difference.
  destruct include; [by apply elem_of_dom | by apply elem_of_known in Hin as [_ ?]].
Qed.

(** [cli] up to the point where the checks are run. *)
Lemma cli_selects (CHECKS : gmap string check) (a : args) (out : list line) :
  ∃ out1,
    cli CHECKS a out =
    let cfg := config_at (arg_config a) in
    let selected := selection CHECKS (include_of a cfg) (exclude_of a cfg) in
    if bool_decide (selected = ∅) then
      (Ok 0%Z, out1 ++ [Line Stderr "ℹ️  No checks selected."])
    else
      (any_fail ← run_checks (fail_fast_of a cfg) (arg_files a)
                   (omap (λ name, (λ chk, (name, chk)) <$> CHECKS !! name)
                         (sorted selected)) false;
       if any_fail : bool then mret 1%Z
       else _ ← print Stdout (NL +:+ "✅ All selected checks passed."); mret 0%Z)
        (out1 ++ [Line Stdout ("🔎 Running checks: " +:+ join ", " (sorted selected))]).
Proof.
  unfold cli.
  destruct (load_config_ok (arg_config a) out) as [out0 Hcfg].
  unfold mbind at 1. unfold io_bind at 1. rewrite Hcfg.
  fold (include_of a (config_at (arg_config a))).
  fold (exclude_of a (config_at (arg_config a))).
  fold (fail_fast_of a (config_at (arg_config a))).
  unfold selection.
  set (inc := include_of a (config_at (arg_config a))).
  set (exc := exclude_of a (config_at (arg_config a))).
  assert (∃ outi,
            match inc with
            | [] => mret (dom CHECKS)
            | _ => _ ← warn_unknown CHECKS "include" inc; mret (known CHECKS inc)
            end out0 =
            (Ok match inc with [] => dom CHECKS | _ => known CHECKS inc end, outi))
    as [outi Hinc].
  { destruct inc as [| c inc']; [by eexists |].
    destruct (warn_unknown_ok CHECKS "include" (c :: inc') out0) as [o Ho].
    exists o. unfold mbind, io_bind. by rewrite Ho. }
  unfold mbind at 1. unfold io_bind at 1. rewrite Hinc.
  set (sel0 := match inc with [] => dom CHECKS | _ => known CHECKS inc end).
  assert (∃ oute,
            match exc with
            | [] => mret sel0
            | _ => _ ← warn_unknown CHECKS "exclude" exc;
                   mret (sel0 ∖ known CHECKS exc)
            end outi = (Ok (sel0 ∖ known CHECKS exc), oute)) as [oute Hexc].
  { destruct exc as [| c exc'].
    - exists outi. rewrite known_empty, difference_empty_L. reflexivity.
    - destruct (warn_unknown_ok CHECKS "exclude" (c :: exc') outi) as [o Ho].
      exists o. unfold mbind, io_bind. by rewrite Ho. }
  unfold mbind at 1. unfold io_bind at 1. rewrite Hexc.
  exists oute. cbv zeta. by case_bool_decide.
Qed.

End RunnerFacts.

Lemma run_checks_status `{Shell} (CHECKS : gmap string check) (status : string → Z)
    (ff : bool) (files : list string) (entries : list (string * check))
    (b : bool) (out : list line) :
  (∀ name chk o, CHECKS !! name = Some chk →
                 ∃ o', chk files o = (Ok (status name), o')) →
  (∀ e, e ∈ entries → CHECKS !! e.1 = Some e.2) →
  ∃ out',
    run_checks ff files entries b out =
    (Ok (b || existsb (λ e, negb (status e.1 =? 0)%Z) entries), out').
Proof.
  intros Hwb. revert b out. induction entries as [| [name chk] rest IH];
    intros b out Hin; simpl.
  - rewrite orb_false_r. by eauto.
  - unfold mbind, io_bind, print.
    destruct (Hwb name chk (out ++ [Line Stdout (NL +:+ "——— " +:+ upper name +:+ " ———")]))
      as [o Ho]; [apply (Hin (name, chk)); by left |].
    rewrite Ho. destruct (negb (status name =? 0)%Z); simpl.
    + rewrite orb_true_r. destruct ff; [by eauto |].
      destruct (IH true o) as [o' ->]; [intros e ?; apply Hin; by right |]. by eauto.
    + apply IH. intros e ?. apply Hin. by right.
Qed.

(** X17. When every check returns, [cli] returns 1 exactly when some
    selected check returns a status other than 0, and 0 otherwise, with or
    without fail-fast; the selected checks are the known names of the
    include list (all checks when it is empty) less those of the exclude
    list. *)
Theorem cli_status `{Shell} (CHECKS : gmap string check) (a : args)
    (status : string → Z) (out : list line) :
  (∀ name chk o, CHECKS !! name = Some chk →
                 ∃ o', chk (arg_files a) o = (Ok (status name), o')) →
  ∃ rc out',
    cli CHECKS a out = (Ok rc, out') ∧ (rc = 1 ∨ rc = 0)%Z ∧
    (rc = 1%Z ↔
     ∃ name, name ∈ selection CHECKS (include_of a (config_at (arg_config a)))
                                     (exclude_of a (config_at (arg_config a)))
             ∧ status name ≠ 0%Z).
Proof.
  intros Hwb. destruct (cli_selects CHECKS a out) as [out1 ->]. cbv zeta.
  set (sel := selection CHECKS _ _).
  case_bool_decide as Hsel.
  { eexists _, _. split; [done |]. split; [by right |].
    split; [done |]. intros (name & Hname & _). rewrite Hsel in Hname.
    by apply not_elem_of_empty in Hname. }
  set (entries := omap (λ name, (λ chk, (name, chk)) <$> CHECKS !! name) (sorted sel)).
  assert (∀ e, e ∈ entries ↔ e.1 ∈ sel ∧ CHECKS !! e.1 = Some e.2) as Hentries.
  { intros [name chk]. unfold entries. rewrite list_elem_of_omap. simpl. split.
    - intros (n & Hn%elem_of_sorted & Hl).
      destruct (CHECKS !! n) as [c |] eqn:Hc; [| done]. by injection Hl as -> ->.
    - intros [Hn Hc]. exists name. split; [by apply elem_of_sorted |]. by rewrite Hc. }
  destruct (run_checks_status CHECKS status (fail_fast_of a (config_at (arg_config a)))
              (arg_files a) entries false
              (out1 ++ [Line Stdout ("🔎 Running checks: " +:+ join ", " (sorted sel))]) Hwb)
    as [out2 Hrun]; [by intros e [_ ?]%Hentries |].
  unfold mbind at 1. unfold io_bind at 1. rewrite Hrun. simpl orb.
  assert (existsb (λ e : string * check, negb (status e.1 =? 0)%Z) entries = true ↔
          ∃ name, name ∈ sel ∧ status name ≠ 0%Z) as Hany.
  { rewrite existsb_exists. split.
    - intros ([name chk] & [Hn _]%list_elem_of_In%Hentries & Hst). simpl in *.
      exists name. split; [done |]. apply negb_true_iff, Z.eqb_neq in Hst. done.
    - intros (name & Hn & Hst).
      destruct (selection_known _ _ _ _ Hn) as [chk Hc].
      exists (name, chk). split; [apply list_elem_of_In, Hentries; by split |].
      simpl. by apply negb_true_iff, Z.eqb_neq. }
  destruct (existsb _ entries).
  - eexists _, _. split; [done |]. split; [by left |]. split; [intros _; by apply Hany | done].
  - eexists _, _. split; [done |]. split; [by right |].
    split; [done |]. intros Hex. by apply Hany in Hex.
Qed.

Lemma cli_status_witness :
  ∃ rc out',
    cli (H := sample_shell) sample_checks (sample_args None false) [] = (Ok rc, out') ∧
    (rc = 1 ∨ rc = 0)%Z.
Proof.
  destruct (cli_status (H := sample_shell) sample_checks (sample_args None false)
              (λ name, if String.eqb name "schema" then 1%Z else 0%Z) [])
    as (rc & out' & Hrun & Hrc & _).
  - intros name chk o Hc.
    destruct (decide (name = "schema")) as [-> | Hs].
    + vm_compute in Hc. injection Hc as <-. by eexists.
    + destruct (decide (name = "description")) as [-> | Hd].
      { vm_compute in Hc. injection Hc as <-. by eexists. }
      destruct (decide (name = "columns")) as [-> | Hcol].
      { vm_compute in Hc. injection Hc as <-. by eexists. }
      unfold sample_checks in Hc.
      rewrite !lookup_insert_ne, lookup_singleton_ne in Hc by done. discriminate Hc.
  - exists rc, out'. split; [exact Hrun | exact Hrc].
Defined.

(** X18. With fail-fast, the first check that returns a status other than
    0 is the last one run: the checks after it are not called, and the loop
    ends with a failure whatever they would do. *)
Theorem fail_fast_stops_at_first_failure `{Shell} (files : list string)
    (pre post post' : list (string * check)) (name : string) (chk : check)
    (b : bool) (out : list line) :
  (∀ e o, e ∈ pre → ∃ o', e.2 files o = (Ok 0%Z, o')) →
  (∀ o, ∃ rc o', chk files o = (Ok rc, o') ∧ rc ≠ 0%Z) →
  run_checks true files (pre ++ (name, chk) :: post) b out =
  run_checks true files (pre ++ (name, chk) :: post') b out ∧
  ∃ out', run_checks true files (pre ++ (name, chk) :: post) b out = (Ok true, out').
Proof.
  intros Hpre Hfail.
  assert (∀ rest o, ∃ o',
            run_checks true files ((name, chk) :: rest) b o = (Ok true, o') ∧
            ∀ rest', run_checks true files ((name, chk) :: rest') b o = (Ok true, o'))
    as Hstop.
  { intros rest o. simpl. unfold mbind, io_bind, print.
    destruct (Hfail (o ++ [Line Stdout (NL +:+ "——— " +:+ upper name +:+ " ———")]))
      as (rc & o' & -> & Hrc).
    apply Z.eqb_neq in Hrc. rewrite Hrc. simpl. by eauto. }
  assert (∀ rest, ∃ o, run_checks true files (pre ++ (name, chk) :: rest) b out =
                       run_checks true files ((name, chk) :: rest) b o ∧
                       ∀ rest', run_checks true files (pre ++ (name, chk) :: rest') b out =
                                run_checks true files ((name, chk) :: rest') b o)
    as Hskip.
  { intros rest. clear Hstop. revert out.
    induction pre as [| [n c] pre IH]; intros out; simpl; [by eauto |].
    unfold mbind, io_bind, print.
    destruct (Hpre (n, c) (out ++ [Line Stdout (NL +:+ "——— " +:+ upper n +:+ " ———")]))
      as [o Ho]; [by left |].
    simpl in Ho. rewrite Ho. simpl. apply IH. intros e o' ?. apply Hpre. by right. }
  destruct (Hskip post) as (o & Hpost & Hany).
  destruct (Hstop post o) as (o' & Hres & Hres').
  split.
  - rewrite Hpost, (Hany post'), Hres. symmetry. apply Hres'.
  - exists o'. by rewrite Hpost.
Qed.

Lemma fail_fast_stops_at_first_failure_witness :
  run_checks (H := sample_shell) true ["a.sqlx"]
    ([("columns", check_pass)] ++ ("schema", check_fail) :: [("zz", check_pass)]) false [] =
  run_checks (H := sample_shell) true ["a.sqlx"]
    ([("columns", check_pass)] ++ ("schema", check_fail) :: []) false [].
Proof.
  refine (proj1 (fail_fast_stops_at_first_failure (H := sample_shell) ["a.sqlx"]
                   [("columns", check_pass)] [("zz", check_pass)] []
                   "schema" check_fail false [] _ _)).
  - intros e o Hin. apply list_elem_of_In in Hin. simpl in Hin.
    destruct Hin as [<- | []]. by eexists.
  - intros o. eexists _, _. split; [reflexivity | discriminate].
Defined.

(** X19. An include list that names no known check selects nothing: [cli]
    warns, prints that no checks are selected and returns 0 without calling
    any check. *)
Theorem cli_unknown_include_passes `{Shell} (CHECKS : gmap string check) (a : args)
    (out : list line) :
  include_of a (config_at (arg_config a)) ≠ [] →
  (∀ c, c ∈ include_of a (config_at (arg_config a)) → CHECKS !! c = None) →
  ∃ out', cli CHECKS a out = (Ok 0%Z, out' ++ [Line Stderr "ℹ️  No checks selected."]).
Proof.
  intros Hinc Hunknown. destruct (cli_selects CHECKS a out) as [out1 ->]. cbv zeta.
  rewrite bool_decide_eq_true_2; [by eauto |].
  apply set_eq. intros c. split; [| by intros ?%not_elem_of_empty].
  unfold selection. intros [Hin _]%elem_of_difference.
  destruct (include_of a (config_at (arg_config a))) as [| c0 inc] eqn:Hi; [done |].
  apply elem_of_known in Hin as [Hc [chk Hchk]].
  by rewrite (Hunknown c Hc) in Hchk.
Qed.

Lemma cli_unknown_include_passes_witness :
  ∃ out', cli (H := sample_shell) sample_checks (sample_args (Some "lint, ,style") true) [] =
          (Ok 0%Z, out' ++ [Line Stderr "ℹ️  No checks selected."]).
Proof.
  apply (cli_unknown_include_passes (H := sample_shell) sample_checks
           (sample_args (Some "lint, ,style") true) []).
  - discriminate.
  - intros c Hc. apply list_elem_of_In in Hc. vm_compute in Hc.
    destruct Hc as [<- | [<- | [<- | []]]]; reflexivity.
Defined.

Lemma split_comma_cons (s : string) : ∃ p ps, split_comma s = p :: ps.
Proof.
  destruct s as [| c s']; [by eexists _, _ |].
  cbn [split_comma]. repeat case_match; by eauto.
Qed.

Lemma io_bind_ext {A B} (m : io A) (f g : A → io B) (out : list line) :
  (∀ x o, f x o = g x o) → (m ≫= f) out = (m ≫= g) out.
Proof.
  intros Hfg. unfold mbind, io_bind. destruct (m out) as [[x | e] o]; [apply Hfg | done].
Qed.

(** X20. The [--include] flag comes first: when it names anything, the
    value of [CHECKS_INCLUDE] has no effect on the run. *)
Theorem include_flag_overrides_env `{Shell} (env' : string → option string)
    (CHECKS : gmap string check) (a : args) (s : string) (out : list line) :
  arg_include a = Some s → s ≠ "" →
  (∀ k, k ≠ "CHECKS_INCLUDE" → env' k = getenv k) →
  cli (H := {| getenv := env'; load_config_file := load_config_file; upper := upper |})
      CHECKS a out = cli CHECKS a out.
Proof.
  intros Hflag Hs Henv. unfold cli. simpl getenv.
  rewrite !Henv by done. rewrite Hflag.
  assert (∀ other rest, lor_ (lor_ (_split_csv (Some s)) other) rest = _split_csv (Some s))
    as Hfirst.
  { intros other rest. unfold _split_csv. apply nonempty_true in Hs. rewrite Hs.
    by destruct (split_comma_cons s) as (p & ps & ->). }
  change (@_load_config {| getenv := env'; load_config_file := load_config_file;
                           upper := upper |}) with (@_load_config H).
  apply io_bind_ext. intros cfg o. rewrite !Hfirst. reflexivity.
Qed.

Lemma include_flag_overrides_env_witness :
  cli (H := {| getenv := λ k, if String.eqb k "CHECKS_INCLUDE" then Some "columns" else None;
               load_config_file := load_config_file (Shell := sample_shell);
               upper := upper (Shell := sample_shell) |})
      sample_checks (sample_args (Some "schema") false) [] =
  cli (H := sample_shell) sample_checks (sample_args (Some "schema") false) [].
Proof.
  apply (include_flag_overrides_env (H := sample_shell)
           (λ k, if String.eqb k "CHECKS_INCLUDE" then Some "columns" else None)
           sample_checks (sample_args (Some "schema") false) "schema" []);
    [reflexivity | discriminate |].
  intros k Hk. apply String.eqb_neq in Hk. by rewrite Hk.
Defined.

(** ** The presence checks *)

Lemma for_flags {A} (l : list A) (body : bool → A → io bool) (bad : A → bool) :
  (∀ x b out, x ∈ l → ∃ out', body b x out = (Ok (b || bad x), out')) →
  ∀ b out, ∃ out', for_ l body b out = (Ok (b || existsb bad l), out').
Proof.
  induction l as [| x l IH]; intros Hbody b out; simpl.
  - rewrite orb_false_r. by eauto.
  - destruct (Hbody x b out) as [o Ho]; [by left |].
    unfold mbind, io_bind. rewrite Ho.
    destruct (IH (λ y b' o' Hy, Hbody y b' o' (list_elem_of_further _ _ _ Hy))
                 (b || bad x) o) as [o' ->].
    rewrite orb_assoc. by eauto.
Qed.

Section PresenceFacts.
Context `{Platform}.

Lemma table_selected_ok (files : list string) (tbl : value) :
  presence_table_ok tbl = true → table_selected files tbl = Ok (yielded files tbl).
Proof.
  destruct tbl as [| | | | | items]; try done.
  intros [[Hfile _]%andb_prop _]%andb_prop.
  unfold table_selected, yielded, table_file. cbn.
  destruct (dict_get items "fileName" VNone) as [| [] | n | s | [] | []]; try done.
  - simpl. by destruct (negb (n =? 0)%Z).
  - simpl. unfold nonempty. by destruct (negb (String.eqb s "")).
Qed.

Lemma lifecycle_ok (items : list (string * value)) :
  get_lifecycle_stage (VDict items) = Ok (table_lifecycle (VDict items)).
Proof.
  unfold table_lifecycle, get_lifecycle_stage. cbn.
  destruct (or_ (dict_get items "bigquery" VNone) (VDict [])); try done.
  by destruct (or_ (dict_get items0 "labels" VNone) (VDict [])).
Qed.

Lemma descriptor_get (items : list (string * value)) (k : string) :
  presence_table_ok (VDict items) = true →
  Py.get (or_ (dict_get items "actionDescriptor" VNone) (VDict [])) k VNone =
  Ok (descriptor_field (VDict items) k).
Proof.
  intros [[_ Had]%andb_prop _]%andb_prop. unfold descriptor_field, or_.
  destruct (truthy (dict_get items "actionDescriptor" VNone)); simpl in *; [| done].
  by destruct (dict_get items "actionDescriptor" VNone).
Qed.

Lemma description_step_ok (tbl : value) (b : bool) (out : list line) :
  presence_table_ok tbl = true →
  ∃ out', description_step b tbl out = (Ok (b || lacks_description tbl), out').
Proof.
  intros Hok. destruct tbl as [| | | | | items]; try done.
  unfold description_step, lacks_description.
  unfold mbind, io_bind, lift. cbn [Py.get].
  rewrite (descriptor_get items "description" Hok), lifecycle_ok.
  destruct (blank _); simpl.
  - destruct (is_draft _); simpl.
    + rewrite orb_false_r. by eauto.
    + rewrite orb_true_r. by eauto.
  - rewrite orb_false_r. by eauto.
Qed.

Lemma column_step_ok (file_name col : value) (b : bool) (out : list line) :
  is_dict col = true →
  ∃ out', column_step file_name b col out =
          (Ok (b || match col with
                    | VDict citems => blank (dict_get citems "description" VNone)
                    | _ => false
                    end), out').
Proof.
  destruct col as [| | | | | citems]; try done. intros _.
  unfold column_step, mbind, io_bind, lift. cbn [Py.get].
  destruct (blank _); simpl.
  - rewrite orb_true_r. by eauto.
  - rewrite orb_false_r. by eauto.
Qed.

Lemma columns_step_ok (tbl : value) (b : bool) (out : list line) :
  presence_table_ok tbl = true →
  ∃ out', columns_step b tbl out = (Ok (b || lacks_column_descriptions tbl), out').
Proof.
  intros Hok. destruct tbl as [| | | | | items]; try done.
  pose proof (descriptor_get items "columns" Hok) as Hget.
  pose proof (lifecycle_ok items) as Hlife.
  apply andb_prop in Hok as [_ Hcols].
  unfold columns_step, lacks_column_descriptions.
  remember (descriptor_field (VDict items) "columns") as columns eqn:Hc.
  remember (table_lifecycle (VDict items)) as lifecycle eqn:Hl.
  unfold mbind at 1 2, io_bind at 1 2, lift. unfold Py.get at 1. rewrite Hlife.
  destruct (is_draft lifecycle); simpl negb; cbv iota.
  { rewrite orb_false_r. by eauto. }
  unfold mbind at 1 2, io_bind at 1 2. unfold Py.get at 1. rewrite Hget.
  rewrite andb_true_l.
  destruct columns as [| | | | [| col cols] |];
    try (rewrite orb_true_r; by eauto).
  apply for_flags. intros c b' o Hin. apply column_step_ok.
  change (forallb is_dict (col :: cols) = true) in Hcols.
  rewrite forallb_forall in Hcols. by apply Hcols, list_elem_of_In.
Qed.

(** The loop over the tables of the files, for a body that flags. *)
Lemma for_tables_flags (graph : list (string * value)) (files : list string)
    (tbls : list value) (body : bool → value → io bool) (bad : value → bool)
    (out : list line) :
  tables_of graph = VList tbls →
  forallb presence_table_ok tbls = true →
  (∀ tbl b o, presence_table_ok tbl = true →
              ∃ o', body b tbl o = (Ok (b || bad tbl), o')) →
  ∃ out', for_tables graph files body false out =
          (Ok (existsb (λ tbl, yielded files tbl && bad tbl) tbls), out').
Proof.
  intros Htbls Hok Hbody. unfold for_tables. fold (tables_of graph). rewrite Htbls.
  unfold mbind at 1, io_bind at 1, lift at 1. cbn [iter].
  rewrite forallb_forall in Hok.
  apply (for_flags tbls _ (λ tbl, yielded files tbl && bad tbl)).
  intros tbl b o Hin%list_elem_of_In%Hok.
  unfold mbind, io_bind, lift. rewrite (table_selected_ok files tbl Hin).
  destruct (yielded files tbl); simpl; [by apply Hbody |].
  rewrite orb_false_r. by eauto.
Qed.

Lemma yielded_true (files : list string) (tbl : value) :
  yielded files tbl = true ↔ ∃ f, table_file tbl = Some f ∧ f ∈ files.
Proof.
  unfold yielded. destruct (table_file tbl) as [f |].
  - rewrite bool_decide_eq_true. split; [by eauto | by intros (? & [= <-] & ?)].
  - split; [done | by intros (? & ? & _)].
Qed.

End PresenceFacts.

(** X21. On a graph whose tables have the expected shape, the description
    check returns 1 exactly when some table of the files given has no
    description, or a blank one, and is not a draft; otherwise it returns
    0. A draft without a description is skipped, not reported. *)
Theorem description_fails_iff `{Platform} (graph : list (string * value))
    (tbls : list value) (files : list string) :
  load_compiled_graph DEFAULT_GRAPH_PATH = Ok graph →
  tables_of graph = VList tbls →
  forallb presence_table_ok tbls = true →
  ∃ rc out,
    description_run files [] = (Ok rc, out) ∧ (rc = 1 ∨ rc = 0)%Z ∧
    (rc = 1%Z ↔
     ∃ tbl f, tbl ∈ tbls ∧ table_file tbl = Some f ∧ f ∈ files ∧
              blank (descriptor_field tbl "description") = true ∧
              table_lifecycle tbl ≠ Some "draft").
Proof.
  intros Hload Htbls Hok. unfold description_run. rewrite Hload.
  destruct (for_tables_flags graph files tbls description_step lacks_description []
              Htbls Hok) as [out Hloop]; [intros; by apply description_step_ok |].
  unfold mbind at 1, io_bind at 1. rewrite Hloop.
  assert (existsb (λ tbl, yielded files tbl && lacks_description tbl) tbls = true ↔
          ∃ tbl f, tbl ∈ tbls ∧ table_file tbl = Some f ∧ f ∈ files ∧
                   blank (descriptor_field tbl "description") = true ∧
                   table_lifecycle tbl ≠ Some "draft") as Hany.
  { rewrite existsb_exists. unfold lacks_description, is_draft. split.
    - intros (tbl & Hin%list_elem_of_In & [(f & ? & ?)%yielded_true
                [? Hd%negb_true_iff%bool_decide_eq_false]%andb_prop]%andb_prop).
      by exists tbl, f.
    - intros (tbl & f & Hin & Hf & Hfiles & Hblank & Hd).
      exists tbl. split; [by apply list_elem_of_In |].
      apply andb_true_intro. split; [apply yielded_true; by eauto |].
      apply andb_true_intro. split; [done |].
      by apply negb_true_iff, bool_decide_eq_false. }
  destruct (existsb _ tbls); simpl.
  - eexists _, _. split; [done |]. split; [by left |].
    split; [intros _; by apply Hany | done].
  - eexists _, _. split; [done |]. split; [by right |].
    split; [done |]. intros Hex. by apply Hany in Hex.
Qed.

Lemma description_fails_iff_witness :
  ∃ rc out,
    description_run (H := sample_platform (VDict graph_tables))
      ["bare.sqlx"; "draft.sqlx"] [] = (Ok rc, out) ∧ (rc = 1 ∨ rc = 0)%Z.
Proof.
  destruct (description_fails_iff (H := sample_platform (VDict graph_tables)) graph_tables
              [table_good; table_bare; table_draft] ["bare.sqlx"; "draft.sqlx"]
              eq_refl eq_refl eq_refl) as (rc & out & Hrun & Hrc & _).
  exists rc, out. split; [exact Hrun | exact Hrc].
Defined.

(** X22. On a graph whose tables have the expected shape, the column check
    returns 1 exactly when some table of the files given is not a draft and
    either has no non-empty list of columns or has a column whose
    description is missing or blank; otherwise it returns 0. A draft is
    skipped whatever its columns. *)
Theorem columns_fails_iff `{Platform} (graph : list (string * value))
    (tbls : list value) (files : list string) :
  load_compiled_graph DEFAULT_GRAPH_PATH = Ok graph →
  tables_of graph = VList tbls →
  forallb presence_table_ok tbls = true →
  ∃ rc out,
    columns_run files [] = (Ok rc, out) ∧ (rc = 1 ∨ rc = 0)%Z ∧
    (rc = 1%Z ↔
     ∃ tbl f, tbl ∈ tbls ∧ table_file tbl = Some f ∧ f ∈ files ∧
              table_lifecycle tbl ≠ Some "draft" ∧
              ((∀ col cols, descriptor_field tbl "columns" ≠ VList (col :: cols)) ∨
               ∃ cols citems, descriptor_field tbl "columns" = VList cols ∧
                              VDict citems ∈ cols ∧
                              blank (dict_get citems "description" VNone) = true)).
Proof.
  intros Hload Htbls Hok. unfold columns_run. rewrite Hload.
  destruct (for_tables_flags graph files tbls columns_step lacks_column_descriptions []
              Htbls Hok) as [out Hloop]; [intros; by apply columns_step_ok |].
  unfold mbind at 1, io_bind at 1. rewrite Hloop.
  assert (∀ tbl,
            lacks_column_descriptions tbl = true ↔
            table_lifecycle tbl ≠ Some "draft" ∧
            ((∀ col cols, descriptor_field tbl "columns" ≠ VList (col :: cols)) ∨
             ∃ cols citems, descriptor_field tbl "columns" = VList cols ∧
                            VDict citems ∈ cols ∧
                            blank (dict_get citems "description" VNone) = true))
    as Hlacks.
  { intros tbl. unfold lacks_column_descriptions, is_draft.
    rewrite andb_true_iff, negb_true_iff, bool_decide_eq_false.
    apply and_iff_compat_l.
    destruct (descriptor_field tbl "columns") as [| | | | [| col cols] |];
      try (split; [intros _; by left | done]).
    rewrite existsb_exists. split.
    - intros (c & Hc%list_elem_of_In & Hb). right.
      destruct c as [| | | | | citems]; try done. by exists (col :: cols), citems.
    - intros [Hno | (cols' & citems & [= <-] & Hc & Hb)]; [by destruct (Hno col cols) |].
      exists (VDict citems). split; [by apply list_elem_of_In | done]. }
  assert (existsb (λ tbl, yielded files tbl && lacks_column_descriptions tbl) tbls = true ↔
          ∃ tbl f, tbl ∈ tbls ∧ table_file tbl = Some f ∧ f ∈ files ∧
                   table_lifecycle tbl ≠ Some "draft" ∧
                   ((∀ col cols, descriptor_field tbl "columns" ≠ VList (col :: cols)) ∨
                    ∃ cols citems, descriptor_field tbl "columns" = VList cols ∧
                                   VDict citems ∈ cols ∧
                                   blank (dict_get citems "description" VNone) = true))
    as Hany.
  { rewrite existsb_exists. split.
    - intros (tbl & Hin%list_elem_of_In & [(f & ? & ?)%yielded_true [? ?]%Hlacks]%andb_prop).
      by exists tbl, f.
    - intros (tbl & f & Hin & Hf & Hfiles & Hd & Hcols).
      exists tbl. split; [by apply list_elem_of_In |].
      apply andb_true_intro. split; [apply yielded_true; by eauto | by apply Hlacks]. }
  destruct (existsb _ tbls); simpl.
  - eexists _, _. split; [done |]. split; [by left |].
    split; [intros _; by apply Hany | done].
  - eexists _, _. split; [done |]. split; [by right |].
    split; [done |]. intros Hex. by apply Hany in Hex.
Qed.

Lemma columns_fails_iff_witness :
  ∃ rc out,
    columns_run (H := sample_platform (VDict graph_tables))
      ["bare.sqlx"; "draft.sqlx"] [] = (Ok rc, out) ∧ (rc = 1 ∨ rc = 0)%Z.
Proof.
  destruct (columns_fails_iff (H := sample_platform (VDict graph_tables)) graph_tables
              [table_good; table_bare; table_draft] ["bare.sqlx"; "draft.sqlx"]
              eq_refl eq_refl eq_refl) as (rc & out & Hrun & Hrc & _).
  exists rc, out. split; [exact Hrun | exact Hrc].
Defined.

(** X23. The presence checks read the [tables] of the graph only: when
    that key is missing or empty, both return 0 after their success line,
    whatever the graph lists under [actions] and whichever files are
    given. *)
Theorem presence_checks_read_tables_only `{Platform} (graph : list (string * value))
    (files : list string) (out : list line) :
  load_compiled_graph DEFAULT_GRAPH_PATH = Ok graph →
  truthy (dict_get graph "tables" VNone) = false →
  description_run files out =
    (Ok 0%Z, out ++ [Line Stdout (_c GREEN ("✅ " +:+ "All SQLX files have valid descriptions."))]) ∧
  columns_run files out =
    (Ok 0%Z, out ++ [Line Stdout (_c GREEN ("✅ " +:+ "All SQLX files have valid column descriptions."))]).
Proof.
  intros Hload Hnone. unfold description_run, columns_run, for_tables, or_.
  by rewrite Hload, Hnone.
Qed.

Lemma presence_checks_read_tables_only_witness :
  description_run (H := sample_platform (VDict graph_actions_only)) ["bare.sqlx"] [] =
  (Ok 0%Z, [Line Stdout ("✅ " +:+ "All SQLX files have valid descriptions.")]).
Proof.
  exact (proj1 (presence_checks_read_tables_only
                  (H := sample_platform (VDict graph_actions_only))
                  graph_actions_only ["bare.sqlx"] [] eq_refl eq_refl)).
Defined.

Example description_run_ex :
  description_run (H := sample_platform (VDict graph_tables))
    ["good.sqlx"; "bare.sqlx"; "draft.sqlx"] [] =
  (Ok 1%Z, [Line Stderr "❌ Missing description in bare.sqlx";
            Line Stdout "✅ Skipped draft.sqlx (lifecycle_stage is draft)";
            Line Stderr "❌ Some SQLX files are missing required descriptions."]).
Proof. vm_compute. reflexivity. Qed.

Example columns_run_ex :
  (columns_run (H := sample_platform (VDict graph_tables))
     ["good.sqlx"; "bare.sqlx"; "draft.sqlx"] []).1 = Ok 1%Z.
Proof. vm_compute. reflexivity. Qed.

(** ** Queries that yield nothing, and backticks *)

(** X24. An action is never flagged when it has no query (the three query
    fields absent or empty), when its query is blank, or when its query
    does not parse: its suspects are the empty set whatever the index. *)
Theorem no_readable_query_no_suspects `{Platform} (ix : index)
    (items : list (string * value)) (q : string) :
  or_ (or_ (or_ (dict_get items "query" VNone) (dict_get items "compiledQuery" VNone))
           (dict_get items "sqlxCompiled" VNone)) (VStr "") = VStr q →
  only_whitespace q ∨ parse_one q = None →
  action_suspects ix (VDict items) = Ok ∅.
Proof.
  intros Hq Hnothing.
  assert (_extract_read_tables (VStr q) = Ok ∅) as Hx.
  { unfold _extract_read_tables. destruct Hnothing as [Hblank | Hparse].
    - rewrite (strip_only_whitespace q Hblank). simpl. by rewrite andb_false_r.
    - destruct (negb _); [done |]. by rewrite Hparse. }
  unfold action_suspects, _action_query, Py.get. cbn [mbind res_bind].
  rewrite Hq, Hx. cbn [mbind res_bind].
  destruct (_action_dependencies (VDict items)) as [depl |] eqn:Hd.
  - cbn [mbind res_bind]. by f_equal.
  - unfold _action_dependencies, Py.get in Hd. cbn [mbind res_bind] in Hd.
    destruct (dict_get items "dependencies" VNone); try done.
    by destruct (all_str l).
Qed.

Lemma no_readable_query_no_suspects_witness :
  action_suspects (H := sample_platform VNone) index_b action_no_query = Ok ∅.
Proof.
  apply (no_readable_query_no_suspects (H := sample_platform VNone) index_b
           [("name", VStr "q"); ("fileName", VStr "q.sqlx"); ("query", VStr "");
            ("compiledQuery", VNone)] "" eq_refl).
  left. exists []. split; [constructor | reflexivity].
Defined.

Lemma lstrip_backtick_cons (c : Ascii.ascii) (r : string) :
  lstrip ["`"] (String c r) =
  if Ascii.eqb BACKTICK c then lstrip ["`"] r else String c r.
Proof.
  unfold lstrip. cbn [String.length lstrip_fuel first_strip strip_prefix].
  change (Ascii.Ascii false false false false false true true false) with BACKTICK.
  by destruct (Ascii.eqb BACKTICK c).
Qed.

Lemma lstrip_backtick_snoc (s : string) :
  lstrip ["`"] (s +:+ "`") =
  if String.eqb (lstrip ["`"] s) "" then "" else lstrip ["`"] s +:+ "`".
Proof.
  induction s as [| c r IH]; [done |].
  change (String c r +:+ "`") with (String c (r +:+ "`")).
  rewrite !lstrip_backtick_cons. by destruct (Ascii.eqb BACKTICK c).
Qed.

Lemma rev_app_app (s t acc : string) :
  String.rev_app (s +:+ t) acc = String.rev_app t (String.rev_app s acc).
Proof.
  revert acc. induction s as [| c s IH]; intros acc; [done |].
  change (String c s +:+ t) with (String c (s +:+ t)). simpl. apply IH.
Qed.

Lemma rstrip_backtick_snoc (s : string) : rstrip ["`"] (s +:+ "`") = rstrip ["`"] s.
Proof.
  unfold rstrip, String.rev. rewrite rev_app_app.
  change (map String.rev ["`"]) with ["`"].
  change (String.rev_app "`" (String.rev_app s ""))
    with (String BACKTICK (String.rev_app s "")).
  by rewrite lstrip_backtick_cons.
Qed.

Lemma strip_backticks_quoted (s : string) :
  strip_backticks (quoted s) = strip_backticks s.
Proof.
  unfold strip_backticks, strip_chars, quoted.
  change ("`" +:+ s +:+ "`") with (String BACKTICK (s +:+ "`")).
  rewrite lstrip_backtick_cons.
  change (Ascii.eqb BACKTICK BACKTICK) with true. cbv iota.
  rewrite lstrip_backtick_snoc.
  destruct (String.eqb_spec (lstrip ["`"] s) "") as [-> | _]; [done |].
  apply rstrip_backtick_snoc.
Qed.

Lemma str_or_empty `{Platform} (s : string) : str (or_ (VStr s) (VStr "")) = s.
Proof.
  unfold or_. simpl. by destruct (String.eqb_spec s "") as [-> |].
Qed.

(** X25. Backticks around the parts of an identifier do not change its
    canonical form: a table node whose project, dataset and name are each
    wrapped in backticks normalises to the same string as the bare node,
    and a target whose three fields are wrapped in backticks gives the
    same string as the bare target. *)
Theorem backticks_ignored `{Platform} (h : handle) (c d n al : string)
    (th : option expression) (rest : list expression) :
  _normalize_bq_table (table_node h (quoted c) (quoted d) (quoted n) al th rest) =
  _normalize_bq_table (table_node h c d n al th rest) ∧
  _target_to_fqn (VDict [("database", VStr (quoted c)); ("schema", VStr (quoted d));
                         ("name", VStr (quoted n))]) =
  _target_to_fqn (VDict [("database", VStr c); ("schema", VStr d); ("name", VStr n)]).
Proof.
  split.
  - unfold _normalize_bq_table, table_node.
    cbn [snd texts_of catalog db name].
    by rewrite !sor_empty, !strip_backticks_quoted.
  - unfold _target_to_fqn, Py.get, dict_get.
    cbn [truthy negb lookup_item String.eqb Ascii.eqb Bool.eqb mbind res_bind].
    by rewrite !str_or_empty, !strip_backticks_quoted.
Qed.
